(** * Investment analyst: rate limiting, cache, merge, scoring, backfill

  A shallow embedding of the data-fusion core of the repository:
  - [RateLimiter] and [AlphaVantageRateLimiter]
    (equity_analyst_agent.py, alpha_vantage_client.py),
  - the staleness cache, the normalisers and the holdings writer of
    [AutonomousEquityAnalyst] (equity_analyst_autonomous.py),
  - the enrichment merges of [MultiSourceEquityAnalyst]
    (portrec/equity_analyst.py),
  - [AlignmentScorer] (equity_analyst_agent.py),
  - the backfill driver (backfill_etf_full.py).

  Conventions.  Wall-clock readings are integers (microsecond ticks);
  Python floats that carry money, yields and scores are exact rationals
  [Q]; Python dicts are [gmap]s from keys to dynamically typed values;
  text is a [string] of code points below 256, with ASCII case mapping. *)

From Stdlib Require Import ZArith QArith Qround Lia Lqa Ascii String.
From stdpp Require Import gmap strings list sorting pretty.

Set Default Proof Using "Type".
Local Open Scope Z_scope.

(** ** Python values and results *)

Module Py.

(** Exceptions the modelled code can raise. *)
Inductive exn :=
| IndexError
| KeyError (k : string)
| TypeError
| ValueError
| AttributeError
| IntegrityError
| DailyLimitReached (hours minutes : Z).

(** A call either returns or raises. *)
Inductive res (A : Type) :=
| Ok (a : A)
| Raise (e : exn).
Arguments Ok {A} a.
Arguments Raise {A} e.

#[global] Instance exn_eq_dec : EqDecision exn.
Proof. solve_decision. Defined.

#[global] Instance res_eq_dec {A} `{EqDecision A} : EqDecision (res A).
Proof. solve_decision. Defined.

Definition bind {A B} (m : res A) (k : A -> res B) : res B :=
  match m with
  | Ok a => k a
  | Raise e => Raise e
  end.

Definition is_ok {A} (m : res A) : bool :=
  match m with Ok _ => true | Raise _ => false end.

End Py.

Notation "'let!' x ':=' m 'in' k" := (Py.bind m (fun x => k))
  (at level 10, x name, m at level 100, k at level 200).

(** ** The clock and [time.sleep] *)

Module Clock.

(** One second, in ticks of the clock (microseconds, the resolution of
    [datetime]). *)
Definition second : Z := 1000000.

(** One calendar day, in ticks. *)
Definition day : Z := 86400 * second.

(** The world a limiter runs in: the current reading of the clock, the
    delays the scheduler will insert before each of the next readings, and
    the log of the sleeps requested so far (most recent first). *)
Record world := World {
  w_now : Z;
  w_delays : list Z;
  w_slept : list Z
}.

(** [time.time()] / [datetime.now()]: the pending delay elapses, then the
    clock is read. *)
Definition time (w : world) : Z * world :=
  match w_delays w with
  | [] => (w_now w, w)
  | d :: ds => (w_now w + d, World (w_now w + d) ds (w_slept w))
  end.

(** [time.sleep(s)], [s] in ticks: raises ValueError on a negative argument,
    otherwise returns after at least [s]; any overshoot is part of the next
    delay. *)
Definition sleep (s : Z) (w : world) : Py.res world :=
  if s <? 0 then Py.Raise Py.ValueError
  else Py.Ok (World (w_now w + s) (w_delays w) (s :: w_slept w)).

(** The clock never runs backwards. *)
Definition monotone (w : world) : Prop := Forall (fun d => 0 <= d) (w_delays w).

End Clock.


(** ** Text *)

Module PyStr.
Local Open Scope string_scope.

Definition code (c : ascii) : N := Ascii.N_of_ascii c.

(** [str.upper()] and [str.lower()] on ASCII letters; other code points are
    left alone. *)
Definition upper_char (c : ascii) : ascii :=
  if ((97 <=? code c) && (code c <=? 122))%N
  then Ascii.ascii_of_N (code c - 32) else c.

Definition lower_char (c : ascii) : ascii :=
  if ((65 <=? code c) && (code c <=? 90))%N
  then Ascii.ascii_of_N (code c + 32) else c.

Fixpoint map_chars (f : ascii -> ascii) (s : string) : string :=
  match s with
  | EmptyString => EmptyString
  | String c s' => String (f c) (map_chars f s')
  end.

Definition upper : string -> string := map_chars upper_char.
Definition lower : string -> string := map_chars lower_char.

(** [needle in haystack] *)
Fixpoint contains (needle haystack : string) : bool :=
  if String.prefix needle haystack then true
  else match haystack with
       | EmptyString => false
       | String _ rest => contains needle rest
       end.

(** [any(kw in text for kw in keywords)] *)
Definition any_in (keywords : list string) (text : string) : bool :=
  existsb (fun kw => contains kw text) keywords.

(** Whitespace as [str.strip()] sees it, among code points below 256. *)
Definition is_space (c : ascii) : bool :=
  let n := code c in
  ((9 <=? n) && (n <=? 13) || (28 <=? n) && (n <=? 32)
   || (n =? 133) || (n =? 160))%N.

Fixpoint lstrip (s : string) : string :=
  match s with
  | EmptyString => EmptyString
  | String c s' => if is_space c then lstrip s' else s
  end.

Fixpoint rstrip (s : string) : string :=
  match s with
  | EmptyString => EmptyString
  | String c s' =>
      match rstrip s' with
      | EmptyString => if is_space c then EmptyString else String c EmptyString
      | r => String c r
      end
  end.

Definition strip (s : string) : string := rstrip (lstrip s).

(** [s.replace(a, b)] for single characters [a] and [b]. *)
Definition replace_char (a b : ascii) : string -> string :=
  map_chars (fun c => if Ascii.eqb c a then b else c).

(** [s[:n]] *)
Fixpoint take (n : nat) (s : string) : string :=
  match n, s with
  | S n', String c s' => String c (take n' s')
  | _, _ => EmptyString
  end.

(** [sep.join(parts)] *)
Fixpoint join (sep : string) (parts : list string) : string :=
  match parts with
  | [] => ""
  | [p] => p
  | p :: rest => p ++ sep ++ join sep rest
  end.

End PyStr.

(** ** Dynamically typed values and dicts *)

Module PyVal.
Local Open Scope Q_scope.

#[global] Instance Q_eq_dec : EqDecision Q.
Proof. solve_decision. Defined.

(** The values that travel through the provider payloads and the store:
    [None], text, numbers. *)
Inductive value :=
| VNone
| VStr (s : string)
| VNum (q : Q).

#[global] Instance value_eq_dec : EqDecision value.
Proof. solve_decision. Defined.

(** Truth value of a Python object: [None], [''], [0] and [0.0] are false. *)
Definition truthy (v : value) : bool :=
  match v with
  | VNone => false
  | VStr s => negb (String.eqb s "")
  | VNum q => negb (Qeq_bool q 0)
  end.

Definition is_none (v : value) : bool :=
  match v with VNone => true | _ => false end.

(** [a or b] *)
Definition or_else (a b : value) : value := if truthy a then a else b.

(** A dict with text keys; [d.get(k)] is [None] for a missing key. *)
Abbreviation dict := (gmap string value).

Definition get (d : dict) (k : string) : value := default VNone (d !! k).

(** [d.get(k, dflt)]: the default only replaces a missing key. *)
Definition get_or (d : dict) (k : string) (dflt : value) : value :=
  default dflt (d !! k).

Definition Qltb (x y : Q) : bool := negb (Qle_bool y x).

End PyVal.
(** ** RateLimiter (equity_analyst_agent.py) *)

Module RateLimiter.
Import Clock.

(** [self.max_calls], [self.time_window] (seconds), and the deque
    [self.call_times] (oldest first).  [recorded] is a ghost log of every timestamp ever
    appended to the deque, oldest first. *)
Record t := Limiter {
  max_calls : Z;
  time_window : Z;
  call_times : list Z;
  recorded : list Z
}.

(** The window in ticks. *)
Definition window (l : t) : Z := time_window l * second.

Definition init (max_calls time_window : Z) : t :=
  Limiter max_calls time_window [] [].

(** [while self.call_times and self.call_times[0] < now - self.time_window:
       self.call_times.popleft()] *)
Fixpoint prune (cutoff : Z) (q : list Z) : list Z :=
  match q with
  | [] => []
  | x :: q' => if x <? cutoff then prune cutoff q' else q
  end.

Definition record_call (l : t) (q : list Z) (ts : Z) : t :=
  Limiter (max_calls l) (time_window l) (q ++ [ts]) (recorded l ++ [ts]).

Definition set_queue (l : t) (q : list Z) : t :=
  Limiter (max_calls l) (time_window l) q (recorded l).

(** [wait_if_needed]: the limiter and the world after the call, and whether
    the call returned.  The only exception is the IndexError of
    [self.call_times[0]] on an empty deque, reachable when [max_calls <= 0]. *)
Definition wait_if_needed (l : t) (w : world) : Py.res unit * t * world :=
  let '(now, w1) := time w in
  let q1 := prune (now - window l) (call_times l) in
  if Z.of_nat (length q1) >=? max_calls l then
    match q1 with
    | [] => (Py.Raise Py.IndexError, set_queue l q1, w1)
    | oldest :: _ =>
        let sleep_time := window l - (now - oldest) + 1 * second in
        if sleep_time >? 0 then
          match sleep sleep_time w1 with
          | Py.Raise e => (Py.Raise e, set_queue l q1, w1)
          | Py.Ok w2 =>
              let '(now2, w3) := time w2 in
              let q2 := prune (now2 - window l) q1 in
              let '(ts, w4) := time w3 in
              (Py.Ok tt, record_call l q2 ts, w4)
          end
        else
          let '(ts, w2) := time w1 in
          (Py.Ok tt, record_call l q1 ts, w2)
    end
  else
    let '(ts, w2) := time w1 in
    (Py.Ok tt, record_call l q1 ts, w2).

(** A sequence of [n] invocations from one serialized call site.  An
    invocation that raises leaves the limiter as it is at that point. *)
Fixpoint run (n : nat) (l : t) (w : world) : t * world :=
  match n with
  | O => (l, w)
  | S n' =>
      let '(_, l', w') := wait_if_needed l w in
      run n' l' w'
  end.

(** Number of recorded timestamps in the closed trailing window
    [[t - W, t]] ([W] in ticks). *)
Definition in_window (W t ts : Z) : bool := (t - W <=? ts) && (ts <=? t).

Definition window_count (W t : Z) (log : list Z) : nat :=
  length (List.filter (in_window W t) log).

(** The property of the log of recorded calls: no closed trailing window of
    [W] ticks holds more than [N] of them. *)
Definition window_bounded (N W : Z) (log : list Z) : Prop :=
  forall t, Z.of_nat (window_count W t log) <= N.


(** Entries of the deque are readings of the clock: none is later than
    now. *)
Definition past (l : t) (w : world) : Prop :=
  Forall (fun ts => ts <= w_now w) (call_times l).

End RateLimiter.

(** ** AlphaVantageRateLimiter (alpha_vantage_client.py) *)

Module AlphaVantageRateLimiter.
Import Clock.

(** The calendar date (a day number) of a reading of the local clock:
    [datetime.now().date()].  [time.time()] and [datetime.now()] read the
    same clock. *)
Definition date_of (now : Z) : Z := now / day.

(** [self.calls_per_minute], [self.calls_per_day], the deque
    [self.minute_calls], the list [self.daily_calls], [self.current_date]. *)
Record t := Limiter {
  calls_per_minute : Z;
  calls_per_day : Z;
  minute_calls : list Z;
  daily_calls : list Z;
  current_date : Z
}.

Definition init (calls_per_minute calls_per_day : Z) (w : world) : t * world :=
  let '(now, w1) := time w in
  (Limiter calls_per_minute calls_per_day [] [] (date_of now), w1).

(** [self.daily_calls = []; self.current_date = current_date] *)
Definition reset_day (l : t) (today : Z) : t :=
  Limiter (calls_per_minute l) (calls_per_day l) (minute_calls l) [] today.

Definition set_minute_calls (l : t) (q : list Z) : t :=
  Limiter (calls_per_minute l) (calls_per_day l) q (daily_calls l) (current_date l).

(** [self.minute_calls.append(now); self.daily_calls.append(now)] *)
Definition record_call (l : t) (q : list Z) (now : Z) : t :=
  Limiter (calls_per_minute l) (calls_per_day l) (q ++ [now])
          (daily_calls l ++ [now]) (current_date l).

(** [hours = int(wait_seconds // 3600)],
    [minutes = int((wait_seconds % 3600) // 60)], for a wait given in ticks. *)
Definition wait_hours (wait : Z) : Z := wait / (3600 * second).
Definition wait_minutes (wait : Z) : Z := (wait mod (3600 * second)) / (60 * second).

Definition wait_if_needed (l : t) (w : world) : Py.res unit * t * world :=
  let '(now, w1) := time w in
  let '(dt, w2) := time w1 in
  let today := date_of dt in
  (* Reset daily counter if new day *)
  let l1 := if bool_decide (today <> current_date l) then reset_day l today else l in
  (* Check daily limit *)
  if Z.of_nat (length (daily_calls l1)) >=? calls_per_day l1 then
    let tomorrow := (today + 1) * day in
    let '(dt2, w3) := time w2 in
    let wait := tomorrow - dt2 in
    (Py.Raise (Py.DailyLimitReached (wait_hours wait) (wait_minutes wait)), l1, w3)
  else
    (* Clean old calls from minute window *)
    let q1 := RateLimiter.prune (now - 60 * second) (minute_calls l1) in
    (* Check minute limit *)
    if Z.of_nat (length q1) >=? calls_per_minute l1 then
      match q1 with
      | [] => (Py.Raise Py.IndexError, set_minute_calls l1 q1, w2)
      | oldest_call :: _ =>
          let wait_time := 60 * second - (now - oldest_call) + 1 * second in
          match sleep wait_time w2 with
          | Py.Raise e => (Py.Raise e, set_minute_calls l1 q1, w2)
          | Py.Ok w3 =>
              let '(now2, w4) := time w3 in
              let q2 := RateLimiter.prune (now2 - 60 * second) q1 in
              (Py.Ok tt, record_call l1 q2 now, w4)
          end
      end
    else
      (Py.Ok tt, record_call l1 q1 now, w2).

(** [n] successive invocations; the limiter after them and the results, in
    order. *)
Fixpoint run (n : nat) (l : t) (w : world) : list (Py.res unit) * t * world :=
  match n with
  | O => ([], l, w)
  | S n' =>
      let '(r, l', w') := wait_if_needed l w in
      let '(rs, l'', w'') := run n' l' w' in
      (r :: rs, l'', w'')
  end.

(** The calendar date an invocation works with: the reading of
    [datetime.now()], the second reading of the clock in [wait_if_needed]. *)
Definition invocation_date (w : world) : Z := date_of (time (time w).2).1.

(** The dates and the results of [n] successive invocations, in order. *)
Fixpoint run_log (n : nat) (l : t) (w : world) : list (Z * Py.res unit) :=
  match n with
  | O => []
  | S n' =>
      let '(r, l', w') := wait_if_needed l w in
      (invocation_date w, r) :: run_log n' l' w'
  end.

(** The readings of the clock at which the invocations that were let
    through returned, in order. *)
Fixpoint return_times (n : nat) (l : t) (w : world) : list Z :=
  match n with
  | O => []
  | S n' =>
      let '(r, l', w') := wait_if_needed l w in
      match r with
      | Py.Ok _ => w_now w' :: return_times n' l' w'
      | Py.Raise _ => return_times n' l' w'
      end
  end.

(** Invocations of the log that were let through on the date [d]. *)
Definition admitted_on (d : Z) (log : list (Z * Py.res unit)) : nat :=
  length (List.filter (fun e => bool_decide (e = (d, Py.Ok tt))) log).

(** The dict [get_usage_stats] returns. *)
Record usage := Usage {
  calls_last_minute : Z;
  calls_today : Z;
  minute_limit : Z;
  daily_limit : Z;
  minute_remaining : Z;
  daily_remaining : Z
}.

(** [get_usage_stats]: cleans the minute window, then reports. *)
Definition get_usage_stats (l : t) (w : world) : usage * t * world :=
  let '(now, w1) := time w in
  let cutoff := now - 60 * second in
  let q := RateLimiter.prune cutoff (minute_calls l) in
  let l1 := set_minute_calls l q in
  (Usage (Z.of_nat (length (minute_calls l1)))
         (Z.of_nat (length (daily_calls l1)))
         (calls_per_minute l1)
         (calls_per_day l1)
         (calls_per_minute l1 - Z.of_nat (length (minute_calls l1)))
         (calls_per_day l1 - Z.of_nat (length (daily_calls l1))),
   l1, w1).

(** What a caller does with a limiter, one call after the other. *)
Inductive call := WaitIfNeeded | GetUsageStats.

Fixpoint session (calls : list call) (l : t) (w : world) : t * world :=
  match calls with
  | [] => (l, w)
  | WaitIfNeeded :: rest =>
      let '(_, l', w') := wait_if_needed l w in session rest l' w'
  | GetUsageStats :: rest =>
      let '(_, l', w') := get_usage_stats l w in session rest l' w'
  end.

(** What a limiter and the log of its invocations so far have in common:
    no logged date is later than [current_date]; [daily_calls] has one entry
    for each call let through on [current_date]; no date has more calls let
    through than the cap. *)
Definition counted (D : Z) (l : t) (w : world) (log : list (Z * Py.res unit)) : Prop :=
  calls_per_day l = D /\
  current_date l <= date_of (w_now w) /\
  Forall (fun e => e.1 <= current_date l) log /\
  admitted_on (current_date l) log = length (daily_calls l) /\
  forall d, Z.of_nat (admitted_on d log) <= Z.max 0 D.

(** The lengths of the two logs of a limiter stay within its limits. *)
Definition within_limits (M D : Z) (l : t) : Prop :=
  calls_per_minute l = M /\ calls_per_day l = D /\
  Z.of_nat (length (minute_calls l)) <= Z.max 0 M /\
  Z.of_nat (length (daily_calls l)) <= Z.max 0 D.

End AlphaVantageRateLimiter.

(** ** MassiveAPIClient (massive_api_client.py) *)

Module MassiveAPIClient.
Import Clock.

(** The shortest time between two Polygon requests: 0.2 s, in ticks. *)
Definition MIN_INTERVAL : Z := 200000.

(** [self.use_mcp], [self.api_key] ([None] when no key is configured),
    [HAS_REQUESTS] and [self._last_polygon_call]. *)
Record t := Client {
  use_mcp : bool;
  api_key : option string;
  has_requests : bool;
  _last_polygon_call : Z
}.

(** The truth value of [self.api_key]. *)
Definition has_key (c : t) : bool :=
  match api_key c with
  | Some k => negb (String.eqb k "")
  | None => false
  end.

(** [bool(self.api_key and HAS_REQUESTS)] *)
Definition _use_direct_api (c : t) : bool := has_key c && has_requests c.

Definition init (use_mcp : bool) (api_key : option string) (has_requests : bool) : t :=
  Client use_mcp api_key has_requests 0.

Definition stamp (c : t) (ts : Z) : t :=
  Client (use_mcp c) (api_key c) (has_requests c) ts.

Section Transport.

(** The parsed JSON answers of the service; [requests_get path] is [None]
    when the request or [raise_for_status] raises.  [empty] is [{}]. *)
Variable response : Type.
Variable empty : response.
Variable requests_get : string -> option response.

(** Make rate-limited Polygon REST API request.  Returns the answer, whether
    a request left the process, the client and the world. *)
Definition _polygon_request (c : t) (w : world) (path : string)
  : Py.res (response * bool * t * world) :=
  if negb (has_requests c) || negb (has_key c) then Py.Ok (empty, false, c, w)
  else
    let '(now, w1) := time w in
    let! w2 :=
      if now - _last_polygon_call c <? MIN_INTERVAL
      then sleep (MIN_INTERVAL - (now - _last_polygon_call c)) w1
      else Py.Ok w1 in
    let '(ts, w3) := time w2 in
    let c' := stamp c ts in
    match requests_get path with
    | Some data => Py.Ok (data, true, c', w3)
    | None => Py.Ok (empty, true, c', w3)
    end.

(** The stamps of the requests made for a list of paths, oldest first. *)
Fixpoint request_stamps (c : t) (w : world) (paths : list string) : Py.res (list Z) :=
  match paths with
  | [] => Py.Ok []
  | path :: rest =>
      let! r := _polygon_request c w path in
      let '(_, sent, c', w') := r in
      let! stamps := request_stamps c' w' rest in
      Py.Ok (if sent then _last_polygon_call c' :: stamps else stamps)
  end.

End Transport.

(** Stamps that follow [prev] and each other at [MIN_INTERVAL] or more. *)
Fixpoint spaced (prev : Z) (stamps : list Z) : Prop :=
  match stamps with
  | [] => True
  | s :: rest => prev + MIN_INTERVAL <= s /\ spaced s rest
  end.

End MassiveAPIClient.

(** ** AutonomousEquityAnalyst (equity_analyst_autonomous.py) *)

Module AutonomousEquityAnalyst.
Import PyVal.
Local Open Scope string_scope.

(** Price/performance data older than this is considered stale. *)
Definition STALENESS_DAYS : Z := 7.

(** The two tables the analyst keeps.  A row maps column names to values, a
    column that is absent being NULL.  [securities] is keyed by [symbol],
    [etf_holdings] by [(etf_symbol, constituent_symbol)]. *)
Record db := Db {
  securities : gmap string dict;
  etf_holdings : gmap (string * string) dict
}.

(** What the run can observe of Yahoo Finance: [stock.info] ([None] when the
    lookup raises), the closes of [stock.history(period="1y")] ([None] when it
    raises), and the rows (index, columns) of [funds_data.top_holdings]
    ([None] when there are none or the lookup raises). *)
Record yahoo := Yahoo {
  yf_info : string -> option dict;
  yf_history : string -> option (list Q);
  yf_top_holdings : string -> option (list (value * dict))
}.

(** Requests that leave the process. *)
Inductive event :=
| UpstreamSecurity (ticker : string)
| UpstreamHoldings (ticker : string).

#[global] Instance event_eq_dec : EqDecision event.
Proof. solve_decision. Defined.

Section Environment.

(** [float(s)] and [str(x)] of the interpreter, and [datetime.strptime(text,
    format)] as a naive timestamp in ticks; [None] stands for ValueError. *)
Variable py_float : string -> option Q.
Variable py_str : Q -> string.
Variable strptime : string -> string -> option Z.

(** [float(val)]; [None] stands for TypeError or ValueError. *)
Definition to_float (val : value) : option Q :=
  match val with
  | VNone => None
  | VNum q => Some q
  | VStr s => py_float s
  end.

(** [str(val)] *)
Definition to_str (val : value) : string :=
  match val with
  | VNone => "None"
  | VStr s => s
  | VNum q => py_str q
  end.

(** Store dividend yield as percentage.  Convert decimal (e.g. 0.025) to %
    if needed. *)
Definition _normalize_dividend_yield (val : value) : value :=
  match val with
  | VNone => VNone
  | _ =>
      match to_float val with
      | None => VNone
      | Some v =>
          (* Values < 0.1 are likely decimal (0.025 = 2.5%) *)
          if Qltb 0 v && Qltb v 0.1 then VNum (v * 100) else VNum v
      end
  end.

(** Return uppercase currency code or None. *)
Definition _normalize_currency (val : value) : value :=
  if is_none val || String.eqb (PyStr.strip (to_str val)) "" then VNone
  else VStr (PyStr.upper (PyStr.strip (to_str val))).

(** Return uppercase exchange code or None. *)
Definition _normalize_exchange (val : value) : value :=
  if is_none val || String.eqb (PyStr.strip (to_str val)) "" then VNone
  else VStr (PyStr.upper (PyStr.strip (to_str val))).

(** Sector for display/matching: GICS when available, else asset_class. *)
Definition _derived_sector (gics_sector asset_class : value) : value :=
  or_else gics_sector asset_class.

(** [s = last_updated_str.strip().replace("T", " ")[:19]], then
    [strptime(s, "%Y-%m-%d %H:%M:%S")], falling back to
    [strptime(s[:10], "%Y-%m-%d")]. *)
Definition parse_last_updated (last_updated_str : string) : option Z :=
  let s := PyStr.take 19 (PyStr.replace_char "T" " " (PyStr.strip last_updated_str)) in
  match strptime s "%Y-%m-%d %H:%M:%S" with
  | Some t => Some t
  | None => strptime (PyStr.take 10 s) "%Y-%m-%d"
  end.

(** [datetime.now() - last_updated > timedelta(days=STALENESS_DAYS)] *)
Definition is_stale (now last_updated : Z) : bool :=
  now - last_updated >? STALENESS_DAYS * Clock.day.

(** The dict a cache hit returns. *)
Definition cached_security (row : dict) : dict :=
  list_to_map [
    ("symbol", get row "symbol");
    ("name", or_else (get row "name") (get row "symbol"));
    ("asset_type", get row "asset_type");
    ("market_cap", get row "market_cap");
    ("sector", get row "sector");
    ("industry", get row "industry");
    ("description", or_else (get row "description") (VStr ""));
    ("exchange", get row "exchange");
    ("currency", or_else (get row "currency") (VStr "USD"));
    ("current_price", get row "current_price");
    ("pe_ratio", get row "pe_ratio");
    ("dividend_yield", get row "dividend_yield");
    ("year_performance", get row "year_performance");
    ("fifty_two_week_high", get row "fifty_two_week_high");
    ("fifty_two_week_low", get row "fifty_two_week_low");
    ("beta", get row "beta");
    ("volume", get row "volume");
    ("avg_volume", get row "avg_volume");
    ("expense_ratio", get row "expense_ratio")
  ].

(** "Require at least some price/performance data to use cache". *)
Definition populated (row : dict) : bool :=
  negb (is_none (get row "current_price") && is_none (get row "year_performance")).

(** Load cached security from DB if price/performance data is fresh.
    [now] is the reading of [datetime.now()].  Returns [None] if not found or
    stale. *)
Definition _load_security_from_db (d : db) (now : Z) (ticker : string)
  : Py.res (option dict) :=
  match securities d !! PyStr.upper ticker with
  | None => Py.Ok None
  | Some row =>
      let last_updated_str := get row "last_updated" in
      if negb (truthy last_updated_str) then Py.Ok None
      else
        match last_updated_str with
        | VStr text =>
            match parse_last_updated text with
            | None => Py.Ok None
            | Some last_updated =>
                if is_stale now last_updated then Py.Ok None (* Stale *)
                else if negb (populated row) then Py.Ok None
                else Py.Ok (Some (cached_security row))
            end
        | _ => Py.Raise Py.AttributeError
        end
  end.

(** The row [save_security] writes; [now_text] is SQLite's
    [datetime('now')]. *)
Definition security_row (security : dict) (symbol name : value) (now_text : string)
  : dict :=
  let currency := or_else (_normalize_currency (get security "currency")) (VStr "USD") in
  let exchange := _normalize_exchange (get security "exchange") in
  let div_yield := _normalize_dividend_yield (get security "dividend_yield") in
  let gics_sector := get security "gics_sector" in
  let gics_industry := get security "gics_industry" in
  let sic_code := get security "sic_code" in
  let sic_description := get security "sic_description" in
  let asset_class := get security "asset_class" in
  let sector := or_else (get security "sector") (_derived_sector gics_sector asset_class) in
  let industry := or_else (get security "industry") gics_industry in
  list_to_map [
    ("symbol", symbol);
    ("name", name);
    ("asset_type", get security "asset_type");
    ("market_cap", get security "market_cap");
    ("sector", sector);
    ("industry", industry);
    ("gics_sector", gics_sector);
    ("gics_industry", gics_industry);
    ("sic_code", sic_code);
    ("sic_description", sic_description);
    ("asset_class", asset_class);
    ("description", get security "description");
    ("exchange", exchange);
    ("currency", currency);
    ("current_price", get security "current_price");
    ("pe_ratio", get security "pe_ratio");
    ("dividend_yield", div_yield);
    ("year_performance", get security "year_performance");
    ("fifty_two_week_high", get security "fifty_two_week_high");
    ("fifty_two_week_low", get security "fifty_two_week_low");
    ("beta", get security "beta");
    ("volume", get security "volume");
    ("avg_volume", get security "avg_volume");
    ("expense_ratio", get security "expense_ratio");
    ("last_updated", VStr now_text)
  ].

(** Save or update security in database ([INSERT OR REPLACE]).
    [security['symbol']] and [security['name']] raise KeyError when missing.
    The table is keyed by text: a symbol that is not text is outside the
    model and reported as TypeError. *)
Definition save_security (d : db) (security : dict) (now_text : string) : Py.res db :=
  match security !! "symbol" with
  | None => Py.Raise (Py.KeyError "symbol")
  | Some symbol =>
      match security !! "name" with
      | None => Py.Raise (Py.KeyError "name")
      | Some name =>
          match symbol with
          | VStr key =>
              Py.Ok (Db (<[key := security_row security symbol name now_text]> (securities d))
                        (etf_holdings d))
          | _ => Py.Raise Py.TypeError
          end
      end
  end.

(** The part of [_fetch_security_data] that builds [security_data] from
    [stock.info] and the year of closes. *)
Definition security_data_of_info (ticker : string) (info : dict)
    (history : option (list Q)) : dict :=
  let gics_sector := get info "sector" in
  let gics_industry := get info "industry" in
  let security_data : dict :=
    list_to_map [
      ("symbol", VStr (PyStr.upper ticker));
      ("name", or_else (get info "longName") (get_or info "shortName" (VStr ticker)));
      ("asset_type", get_or info "quoteType" (VStr "EQUITY"));
      ("market_cap", get info "marketCap");
      ("gics_sector", gics_sector);
      ("gics_industry", gics_industry);
      ("sic_code", VNone);
      ("sic_description", VNone);
      ("asset_class", VNone);
      ("sector", _derived_sector gics_sector VNone);
      ("industry", gics_industry);
      ("description", get_or info "longBusinessSummary" (VStr ""));
      ("exchange", _normalize_exchange (get info "exchange"));
      ("currency", or_else (_normalize_currency (get info "currency")) (VStr "USD"));
      ("current_price", or_else (get info "currentPrice") (get info "regularMarketPrice"));
      ("pe_ratio", or_else (get info "trailingPE") (get info "forwardPE"));
      ("dividend_yield", _normalize_dividend_yield (get info "dividendYield"));
      ("expense_ratio", get info "netExpenseRatio");
      ("fifty_two_week_high", get info "fiftyTwoWeekHigh");
      ("fifty_two_week_low", get info "fiftyTwoWeekLow");
      ("beta", get info "beta");
      ("volume", get info "volume");
      ("avg_volume", get info "averageVolume")
    ] in
  (* Calculate year performance if possible *)
  match history with
  | None => <["year_performance" := VNone]> security_data
  | Some [] => security_data
  | Some (year_start :: rest) =>
      let year_end := List.last rest year_start in
      <["year_performance" := VNum (((year_end - year_start) / year_start) * 100)%Q]>
        security_data
  end.

(** Fetch detailed data for a security: the cached record while it is
    fresh, otherwise Yahoo Finance.  Returns the data (or [None]) and the
    upstream requests made. *)
Definition _fetch_security_data (d : db) (now : Z) (y : yahoo) (ticker : string)
  : Py.res (option dict * list event) :=
  let ticker_upper := PyStr.upper ticker in
  let! cached := _load_security_from_db d now ticker_upper in
  match cached with
  | Some c => Py.Ok (Some c, [])
  | None =>
      match yf_info y ticker with
      | None => Py.Ok (None, [UpstreamSecurity ticker])
      | Some info =>
          (* Basic validation - check if we got real data *)
          if bool_decide (info = ∅) || bool_decide (info !! "symbol" = None)
          then Py.Ok (None, [UpstreamSecurity ticker])
          else Py.Ok (Some (security_data_of_info ticker info (yf_history y ticker)),
                      [UpstreamSecurity ticker])
      end
  end.

(** One row of [top_holdings] as a holding, or nothing when the index is
    empty. *)
Definition holding_of_row (rank : Z) (symbol : value) (row : dict) : option dict :=
  let name := get_or row "Name" (VStr "") in
  let pct := get_or row "Holding Percent" (VNum 0) in
  let pct_val : Q :=
    if is_none pct then 0%Q
    else match to_float pct with
         | Some p => (p * 100)%Q (* Store as percentage *)
         | None => 0%Q
         end in
  if truthy symbol then
    let symbol_str := PyStr.upper (PyStr.strip (to_str symbol)) in
    if String.eqb symbol_str "" then None
    else Some (list_to_map [
           ("symbol", VStr symbol_str);
           ("name", if truthy name then VStr (PyStr.strip (to_str name)) else VStr symbol_str);
           ("holding_percent", VNum pct_val);
           ("holding_rank", VNum (inject_Z rank))
         ])
  else None.

Fixpoint holdings_of_rows (rank : Z) (rows : list (value * dict)) : list dict :=
  match rows with
  | [] => []
  | (symbol, row) :: rows' =>
      match holding_of_row rank symbol row with
      | Some h => h :: holdings_of_rows (rank + 1) rows'
      | None => holdings_of_rows (rank + 1) rows'
      end
  end.

(** Fetch top holdings for an ETF from Yahoo Finance. *)
Definition fetch_etf_holdings (y : yahoo) (ticker : string)
  : option (list dict) * list event :=
  match yf_top_holdings y ticker with
  | None => (None, [UpstreamHoldings ticker])
  | Some rows =>
      match holdings_of_rows 1 rows with
      | [] => (None, [UpstreamHoldings ticker])
      | holdings => (Some holdings, [UpstreamHoldings ticker])
      end
  end.

(** [(h.get('symbol') or '').strip().upper()] *)
Definition constituent_symbol (h : dict) : Py.res string :=
  match or_else (get h "symbol") (VStr "") with
  | VStr s => Py.Ok (PyStr.upper (PyStr.strip s))
  | _ => Py.Raise Py.AttributeError
  end.

(** The row written to [etf_holdings] for one holding. *)
Definition holding_row (etf_sym const_sym : string) (h : dict)
    (source now_text : string) : dict :=
  list_to_map [
    ("etf_symbol", VStr etf_sym);
    ("constituent_symbol", VStr const_sym);
    ("holding_percent", get h "holding_percent");
    ("holding_rank", get h "holding_rank");
    ("source", VStr source);
    ("last_updated", VStr now_text)
  ].

(** The body of the loop of [save_etf_holdings] for one holding [h]. *)
Definition save_one_holding (etf_sym source now_text : string) (d : db) (h : dict)
  : Py.res db :=
  let! const_sym := constituent_symbol h in
  if String.eqb const_sym "" then Py.Ok d
  else
    match or_else (get h "name") (VStr const_sym) with
    | VStr name_text =>
        let name := PyStr.strip name_text in
        (* Ensure constituent exists in securities *)
        let secs :=
          match securities d !! const_sym with
          | Some _ => securities d
          | None =>
              <[const_sym := list_to_map [("symbol", VStr const_sym);
                                           ("name", VStr name);
                                           ("last_updated", VStr now_text)]]>
                (securities d)
          end in
        (* Upsert holding; holding_percent is NOT NULL *)
        if is_none (get h "holding_percent") then Py.Raise Py.IntegrityError
        else Py.Ok (Db secs (<[(etf_sym, const_sym) :=
                                 holding_row etf_sym const_sym h source now_text]>
                               (etf_holdings d)))
    | _ => Py.Raise Py.AttributeError
    end.

Fixpoint save_holdings_loop (etf_sym source now_text : string) (d : db)
    (holdings : list dict) : Py.res db :=
  match holdings with
  | [] => Py.Ok d
  | h :: rest =>
      let! d' := save_one_holding etf_sym source now_text d h in
      save_holdings_loop etf_sym source now_text d' rest
  end.

(** Save ETF holdings to database.  The writes are committed at the end: a
    call that raises leaves the database as it was. *)
Definition save_etf_holdings (d : db) (etf_symbol : string) (holdings : list dict)
    (source now_text : string) : Py.res db :=
  match holdings with
  | [] => Py.Ok d
  | _ => save_holdings_loop (PyStr.upper etf_symbol) source now_text d holdings
  end.

(** What the replace-wholesale reading of [save_etf_holdings] asks of the
    table afterwards: the rows stored for the ETF are those of the new set,
    and no other. *)
Definition holdings_replaced (d' : db) (etf_symbol : string) (holdings : list dict) : Prop :=
  forall const_sym : string,
    is_Some (etf_holdings d' !! (PyStr.upper etf_symbol, const_sym)) <->
    const_sym <> "" /\ exists h, h ∈ holdings /\ constituent_symbol h = Py.Ok const_sym.

(** A holding as [fetch_etf_holdings] builds it: text symbol and name, a
    percentage. *)
Definition well_formed_holding (h : dict) : Prop :=
  (exists s, get h "symbol" = VStr s) /\
  (exists n, get h "name" = VStr n) /\
  is_none (get h "holding_percent") = false.

End Environment.

(** Referential integrity of [etf_holdings]: the constituent of every
    holding has a row in [securities]. *)
Definition constituents_known (d : db) : Prop :=
  forall etf_sym const_sym,
    is_Some (etf_holdings d !! (etf_sym, const_sym)) ->
    is_Some (securities d !! const_sym).

End AutonomousEquityAnalyst.

(** ** MultiSourceEquityAnalyst (portrec/equity_analyst.py) *)

Module MultiSourceEquityAnalyst.
Import PyVal.
Local Open Scope string_scope.

Section Environment.

Variable py_float : string -> option Q.

(** The body of [_enrich_with_massive] once the ticker details are there. *)
Definition merge_massive (security details : dict) : dict :=
  let security :=
    if negb (truthy (get security "sic_code")) && truthy (get details "sic_code")
    then <["sic_code" := get details "sic_code"]> security
    else security in
  let security :=
    if negb (truthy (get security "sic_description"))
       && truthy (get details "sic_description")
    then
      let security := <["sic_description" := get details "sic_description"]> security in
      (* Fallback for sector matching when no GICS/asset_class *)
      if negb (truthy (get security "sector"))
      then <["sector" := get details "sic_description"]> security
      else security
    else security in
  if negb (truthy (get security "description")) && truthy (get details "description")
  then <["description" := get details "description"]> security
  else security.

(** Enrich security with Massive/Polygon ticker details.  [client] is
    [self._massive_client]; its [get_ticker_details] returns a dict, [None]
    standing for a call that raised. *)
Definition _enrich_with_massive (client : option (value -> option dict))
    (security : dict) : dict :=
  match client with
  | None => security
  | Some get_ticker_details =>
      let symbol := get security "symbol" in
      if negb (truthy symbol) then security
      else
        match get_ticker_details symbol with
        | None => security
        | Some details =>
            if bool_decide (details = ∅) then security
            else merge_massive security details
        end
  end.

(** The body of [_enrich_with_alpha_vantage] once the overview is there. *)
Definition merge_alpha_vantage (security overview : dict) : dict :=
  let security :=
    if negb (truthy (get security "gics_sector")) && truthy (get overview "Sector")
    then <["sector" := get overview "Sector"]>
           (<["gics_sector" := get overview "Sector"]> security)
    else security in
  let security :=
    if negb (truthy (get security "gics_industry")) && truthy (get overview "Industry")
    then <["industry" := get overview "Industry"]>
           (<["gics_industry" := get overview "Industry"]> security)
    else security in
  let security :=
    if negb (truthy (get security "description")) && truthy (get overview "Description")
    then <["description" := get overview "Description"]> security
    else security in
  (* Alpha Vantage DividendYield is decimal (0.025 = 2.5%); convert to % *)
  if negb (truthy (get security "dividend_yield"))
     && negb (is_none (get overview "DividendYield"))
  then
    match AutonomousEquityAnalyst.to_float py_float (get overview "DividendYield") with
    | Some dy =>
        <["dividend_yield" :=
            VNum (if Qltb 0 dy && Qltb dy 0.1 then dy * 100 else dy)%Q]> security
    | None => security
    end
  else security.

(** Optionally enrich security with Alpha Vantage overview.  [client] is
    [self._av_client]; its [get_company_overview] returns a dict or [None]. *)
Definition _enrich_with_alpha_vantage (client : option (value -> option dict))
    (security : dict) : dict :=
  match client with
  | None => security
  | Some get_company_overview =>
      let symbol := get security "symbol" in
      if negb (truthy symbol) then security
      else
        match get_company_overview symbol with
        | None => security
        | Some overview =>
            if bool_decide (overview = ∅) then security
            else merge_alpha_vantage security overview
        end
  end.

End Environment.

(** The fill-only-null policy, field by field: a field of the record that
    holds a value (one that Python takes as true) is the same after the
    merge. *)
Definition fill_only_null (merge : dict -> dict -> dict) : Prop :=
  forall (f : string) (security payload : dict),
    truthy (get security f) = true ->
    get (merge security payload) f = get security f.

End MultiSourceEquityAnalyst.

(** ** JSON values and [json.dumps] *)

Module Json.
Local Open Scope string_scope.

(** A thesis is a JSON object.  Numbers are integers here. *)
#[warnings="-register-all"]
Inductive json :=
| JNull
| JBool (b : bool)
| JInt (n : Z)
| JStr (s : string)
| JList (items : list json)
| JObj (members : list (string * json)).

Definition dquote : string := String (Ascii.ascii_of_N 34) "".

Definition hex_digit (n : N) : ascii :=
  if (n <? 10)%N then Ascii.ascii_of_N (48 + n) else Ascii.ascii_of_N (87 + n).

(** [\u00XX] for a code point below 256. *)
Definition unicode_escape (c : ascii) : string :=
  let n := PyStr.code c in
  "\u00" ++ String (hex_digit (n / 16)) (String (hex_digit (n mod 16)) "").

(** One character of a string literal, as the encoder writes it with
    [ensure_ascii]: everything outside [' ' .. '~'] is escaped. *)
Definition escape_char (c : ascii) : string :=
  let n := PyStr.code c in
  if (n =? 34)%N then "\" ++ dquote
  else if (n =? 92)%N then "\\"
  else if (n =? 10)%N then "\n"
  else if (n =? 13)%N then "\r"
  else if (n =? 9)%N then "\t"
  else if (n =? 8)%N then "\b"
  else if (n =? 12)%N then "\f"
  else if ((32 <=? n) && (n <=? 126))%N then String c ""
  else unicode_escape c.

Fixpoint escape (s : string) : string :=
  match s with
  | EmptyString => ""
  | String c s' => escape_char c ++ escape s'
  end.

Definition quote (s : string) : string := dquote ++ escape s ++ dquote.

(** [json.dumps(j)] with the default separators. *)
Fixpoint dumps (j : json) : string :=
  match j with
  | JNull => "null"
  | JBool true => "true"
  | JBool false => "false"
  | JInt n => pretty n
  | JStr s => quote s
  | JList items => "[" ++ PyStr.join ", " (List.map dumps items) ++ "]"
  | JObj members =>
      "{" ++ PyStr.join ", "
               (List.map (fun '(k, v) => quote k ++ ": " ++ dumps v) members)
          ++ "}"
  end.

(** [d.get(k)] on an object given by its members, in insertion order. *)
Fixpoint lookup (members : list (string * json)) (k : string) : option json :=
  match members with
  | [] => None
  | (k', v) :: rest => if String.eqb k' k then Some v else lookup rest k
  end.

End Json.

(** ** AlignmentScorer (equity_analyst_agent.py) *)

Module AlignmentScorer.
Import PyVal Json.
Local Open Scope string_scope.
Local Open Scope Q_scope.

(** The fields of the [Security] dataclass that the scorer reads. *)
Record Security := {
  ticker : string;
  name : string;
  asset_type : string;
  exchange : string;
  market_cap : option Q;
  sector : string;
  industry : string;
  description : string
}.

Record ThesisAlignment := {
  thesis_id : json;
  thesis_title : json;
  alignment_ticker : string;
  alignment_score : Q;
  alignment_rationale : string;
  key_exposure_factors : list string;
  revenue_exposure_pct : option Q
}.

(** What the Yahoo Finance client hands to the scorer.  [HistoryRaises] and
    [DividendRaises] stand for any exception inside the [try] blocks of the
    momentum and dividend factors; [HistoryNone] and [DividendNone] for an
    empty answer (for dividends, also one without payments). *)
Inductive history :=
| HistoryRaises
| HistoryNone
| HistoryData (closes : list Q).

Inductive dividends :=
| DividendRaises
| DividendNone
| DividendData (dividend_yield : Q) (payments : list Q).

Record YahooFinance := {
  is_available : bool;
  get_stock_historical_prices : string -> history;
  get_stock_dividend : string -> dividends
}.

(** [self.alpha_vantage] (its [get_company_overview]) and
    [self.yahoo_finance]. *)
Record t := Scorer {
  alpha_vantage : option (string -> option dict);
  yahoo_finance : option YahooFinance
}.

(** The themes of the revenue-exposure factor, in table order. *)
Inductive theme :=
| ai_infrastructure | semiconductor | power | defense | real_estate | china
| commodities.

Definition theme_keywords : list (theme * list string) := [
  (ai_infrastructure, ["ai"; "artificial intelligence"; "data center"; "gpu"]);
  (semiconductor, ["semiconductor"; "chip"]);
  (power, ["power"; "utility"; "energy"; "electric"]);
  (defense, ["defense"; "military"; "aerospace"]);
  (real_estate, ["real estate"; "reit"; "housing"]);
  (china, ["china"; "chinese"]);
  (commodities, ["commodity"; "mining"; "copper"; "lithium"; "gold"])
]%string.

(** The themes of the sector factor and their three tiers of sector names. *)
Inductive sector_theme :=
| st_ai_infrastructure | st_semiconductor | st_power_energy | st_defense
| st_real_estate | st_financial | st_china_tech | st_commodities.

Record tiers := Tiers {
  perfect : list string;
  good : list string;
  related : list string
}.

Definition sector_matches (th : sector_theme) : tiers :=
  match th with
  | st_ai_infrastructure =>
      Tiers ["semiconductors"; "semiconductor"; "technology hardware"; "data centers"; "reits"]
            ["software"; "technology"; "electric utilities"; "utilities"]
            ["communications"; "telecommunications"]
  | st_semiconductor =>
      Tiers ["semiconductors"; "semiconductor"; "semiconductor equipment"]
            ["technology hardware"; "electronics"]
            ["materials"; "industrial"]
  | st_power_energy =>
      Tiers ["electric utilities"; "utilities"; "renewable energy"; "independent power"]
            ["oil & gas"; "energy"; "power generation"]
            ["industrial"; "infrastructure"]
  | st_defense =>
      Tiers ["aerospace & defense"; "defense"; "military"]
            ["industrial"; "aerospace"]
            ["technology"; "communications"]
  | st_real_estate =>
      Tiers ["reits"; "real estate"; "residential"; "homebuilders"]
            ["construction"; "building materials"]
            ["financial"; "mortgage"]
  | st_financial =>
      Tiers ["banks"; "financial services"; "insurance"; "asset management"]
            ["credit"; "lending"; "investment"]
            ["real estate"; "fintech"]
  | st_china_tech =>
      Tiers ["technology"; "internet"; "e-commerce"; "software"]
            ["telecommunications"; "media"; "semiconductors"]
            ["consumer"; "automotive"]
  | st_commodities =>
      Tiers ["mining"; "metals & mining"; "gold"; "materials"]
            ["basic materials"; "resources"; "oil & gas"]
            ["energy"; "industrial"]
  end%string.

(** Sum, largest and smallest of a list of numbers. *)
Definition qsum (l : list Q) : Q := fold_right Qplus 0 l.

Definition qmax2 (x y : Q) : Q := if Qle_bool x y then y else x.
Definition qmin2 (x y : Q) : Q := if Qle_bool x y then x else y.

Definition qmax (x : Q) (l : list Q) : Q := fold_left qmax2 l x.
Definition qmin (x : Q) (l : list Q) : Q := fold_left qmin2 l x.

(** [round(x)]: to the nearest integer, ties to even. *)
Definition round_half_even (x : Q) : Z :=
  let f := Qfloor x in
  let r := x - inject_Z f in
  if Qltb r 0.5 then f
  else if Qltb 0.5 r then (f + 1)%Z
  else if Z.even f then f else (f + 1)%Z.

(** [round(x, 2)] *)
Definition round2 (x : Q) : Q := inject_Z (round_half_even (x * 100)) / 100.

Section Environment.

(** [float(s)] of the interpreter ([None] for ValueError) and the fixed-point
    formatting of f-strings, [f"{x:.<digits>f}"]. *)
Variable py_float : string -> option Q.
Variable format_fixed : nat -> Q -> string.

(** Get company details from Alpha Vantage or security object. *)
Definition _get_company_details (s : t) (ticker : string) (security : option Security)
  : dict :=
  let from_security : dict :=
    match security with
    | Some sec =>
        list_to_map [
          ("ticker", VStr sec.(AlignmentScorer.ticker));
          ("name", VStr sec.(name));
          ("description", VStr sec.(description));
          ("sector", VStr sec.(sector));
          ("industry", VStr sec.(industry));
          ("market_cap", from_option VNum VNone sec.(market_cap));
          ("exchange", VStr sec.(exchange))
        ]%string
    | None =>
        list_to_map [
          ("ticker", VStr ticker); ("name", VStr ticker); ("description", VStr "");
          ("sector", VStr ""); ("industry", VStr ""); ("market_cap", VNone);
          ("exchange", VStr "")
        ]%string
    end in
  match alpha_vantage s with
  | None => from_security
  | Some get_company_overview =>
      match get_company_overview ticker with
      | None => from_security
      | Some overview =>
          if bool_decide (overview = ∅) then from_security
          else
            let cap : option value :=
              if truthy (get overview "MarketCapitalization") then
                match AutonomousEquityAnalyst.to_float py_float
                        (get_or overview "MarketCapitalization" (VNum 0)) with
                | Some c => Some (VNum c)
                | None => None (* float() raised: fall back to the security *)
                end
              else Some VNone in
            match cap with
            | None => from_security
            | Some market_cap =>
                list_to_map [
                  ("ticker", get_or overview "Symbol" (VStr ticker));
                  ("name", get_or overview "Name" (VStr ticker));
                  ("description", get_or overview "Description" (VStr ""));
                  ("sector", get_or overview "Sector" (VStr ""));
                  ("industry", get_or overview "Industry" (VStr ""));
                  ("market_cap", market_cap);
                  ("exchange", get_or overview "Exchange" (VStr ""))
                ]%string
            end
      end
  end.

(** Check if security explicitly mentioned in thesis. *)
Definition _mentioned_in_thesis (security : Security) (thesis : list (string * json))
  : bool :=
  let thesis_text := PyStr.upper (dumps (JObj thesis)) in
  PyStr.contains (PyStr.upper security.(ticker)) thesis_text.

(** [(thesis.get('title', '') + ' ' + thesis.get('summary', '')).lower()];
    TypeError when either is not text. *)
Definition thesis_text (thesis : list (string * json)) : Py.res string :=
  match default (JStr "") (lookup thesis "title"),
        default (JStr "") (lookup thesis "summary") with
  | JStr title, JStr summary => Py.Ok (PyStr.lower (title ++ " " ++ summary))
  | _, _ => Py.Raise Py.TypeError
  end.

(** [details.get(k, '').lower()]; AttributeError when the value is not
    text. *)
Definition lower_field (details : dict) (k : string) : Py.res string :=
  match get_or details k (VStr "") with
  | VStr s => Py.Ok (PyStr.lower s)
  | _ => Py.Raise Py.AttributeError
  end.

(** A field of the company details that holds text. *)
Definition text_field (details : dict) (k : string) : Prop :=
  exists s, details !! k = Some (VStr s).

(** The keywords the thesis text selects for the business-description
    factor. *)
Definition business_keywords (thesis_text : string) : list string :=
  let has kw := PyStr.contains kw thesis_text in
  ((if has "ai" || has "artificial intelligence"
    then ["ai"; "artificial intelligence"; "machine learning"; "gpu"; "data center";
          "cloud"; "neural"] else []) ++
   (if has "semiconductor" || has "chip"
    then ["semiconductor"; "chip"; "processor"; "fabrication"; "wafer"] else []) ++
   (if has "infrastructure"
    then ["infrastructure"; "data center"; "colocation"; "hosting"; "connectivity"]
    else []) ++
   (if has "power" || has "energy" || has "utility"
    then ["power"; "energy"; "utility"; "electric"; "generation"; "transmission"]
    else []) ++
   (if has "defense" || has "military"
    then ["defense"; "military"; "aerospace"; "weapons"; "combat"] else []) ++
   (if has "china" then ["china"; "chinese"; "asia"; "export"] else []) ++
   (if has "inflation" || has "commodity"
    then ["commodity"; "gold"; "copper"; "lithium"; "mining"; "resources"] else []) ++
   (if has "housing" || has "real estate"
    then ["housing"; "residential"; "apartment"; "reit"; "multifamily"; "rental"]
    else []))%list%string.

(** [matches / max(len(keywords), 1) if keywords else 0] *)
Definition keyword_density (keywords : list string) (description : string) : Q :=
  let matches := length (List.filter (fun kw => PyStr.contains kw description) keywords) in
  match keywords with
  | [] => 0
  | _ => inject_Z (Z.of_nat matches)
         / inject_Z (Z.of_nat (Nat.max (length keywords) 1))
  end.

(** The scoring rubric of the business-description factor. *)
Definition business_rubric (keyword_density : Q) : Q * string :=
  if Qle_bool 0.4 keyword_density then
    (3.0, "Strong business model alignment - core business directly addresses thesis")
  else if Qle_bool 0.25 keyword_density then
    (2.5, "High business model alignment - significant operations in thesis area")
  else if Qle_bool 0.15 keyword_density then
    (2.0, "Meaningful business model alignment - substantial exposure to thesis theme")
  else if Qle_bool 0.08 keyword_density then
    (1.5, "Moderate business model alignment - some operations related to thesis")
  else if Qle_bool 0.04 keyword_density then
    (1.0, "Limited business model alignment - tangential exposure to thesis")
  else
    (0.5, "Minimal business model alignment - limited relevance to thesis")%string.

(** Score based on business description alignment (0-3 points). *)
Definition _score_business_description (details : dict) (thesis : list (string * json))
  : Py.res (Q * string) :=
  (* If no description available, return low score *)
  if negb (truthy (get details "description")) then
    Py.Ok (0.5, "Limited business information available"%string)
  else
    match get details "description" with
    | VStr description_text =>
        let! text := thesis_text thesis in
        let description := PyStr.lower description_text in
        let keywords := business_keywords text in
        Py.Ok (business_rubric (keyword_density keywords description))
    | _ => Py.Raise Py.TypeError
    end.

(** Detect primary thesis theme: the first theme with a keyword in the
    text. *)
Definition primary_theme (thesis_text : string) : option theme :=
  fst <$> List.find (fun entry => PyStr.any_in (snd entry) thesis_text) theme_keywords.

(** Estimate exposure based on company type and theme. *)
Definition exposure_pct (th : theme) (company_desc company_name sector : string) : Q :=
  let desc kw := PyStr.contains kw company_desc in
  let nm kw := PyStr.contains kw company_name in
  let sec kw := PyStr.contains kw sector in
  match th with
  | ai_infrastructure =>
      if nm "nvidia" || desc "nvda" then 85.0
      else if nm "amd" || nm "advanced micro" then 60.0
      else if desc "data center" && sec "reit" then 75.0
      else if sec "semiconductor" && PyStr.any_in ["gpu"; "ai"; "accelerator"]%string company_desc
      then 70.0
      else if sec "semiconductor" then 40.0
      else if desc "cloud" || desc "azure" then 35.0
      else if sec "utility" && desc "data center" then 25.0
      else if sec "utility" then 8.0
      else 15.0
  | semiconductor =>
      if desc "fabrication" || desc "foundry" then 90.0
      else if desc "lithography" || nm "asml" then 95.0
      else if sec "semiconductor" then 80.0
      else if desc "equipment" && desc "semiconductor" then 85.0
      else 20.0
  | defense =>
      if sec "defense" || sec "aerospace" then 70.0
      else if desc "military" then 60.0
      else if desc "government" && desc "contractor" then 50.0
      else 15.0
  | power =>
      if desc "renewable" || desc "clean energy" then 80.0
      else if sec "utility" || sec "electric" then 90.0
      else if desc "power generation" then 85.0
      else if desc "natural gas" && desc "lng" then 75.0
      else 30.0
  | real_estate =>
      if sec "reit" then 95.0
      else if desc "residential" || desc "multifamily" then 85.0
      else if desc "homebuilder" || desc "housing" then 90.0
      else 25.0
  | china =>
      if desc "china" || desc "chinese" then 80.0
      else if desc "asia" || desc "hong kong" then 60.0
      else 20.0
  | commodities =>
      if desc "mining" || desc "miner" then 90.0
      else if PyStr.any_in ["copper"; "lithium"; "gold"; "silver"]%string company_desc then 85.0
      else if desc "resources" || sec "materials" then 70.0
      else 15.0
  end.

(** Convert exposure percentage to score (0-3 points). *)
Definition exposure_score (exposure_pct : Q) : Q :=
  if Qle_bool 90 exposure_pct then 3.0
  else if Qle_bool 70 exposure_pct then 2.5
  else if Qle_bool 50 exposure_pct then 2.0
  else if Qle_bool 30 exposure_pct then 1.5
  else if Qle_bool 10 exposure_pct then 1.0
  else 0.5.

(** Estimate revenue exposure percentage: (score, exposure). *)
Definition _estimate_revenue_exposure (details : dict) (thesis : list (string * json))
  : Py.res (Q * Q) :=
  let! company_desc := lower_field details "description" in
  let! company_name := lower_field details "name" in
  let! sector := lower_field details "sector" in
  let! text := thesis_text thesis in
  match primary_theme text with
  | None => Py.Ok (1.0, 20.0) (* Default for unrecognized themes *)
  | Some th =>
      let pct := exposure_pct th company_desc company_name sector in
      Py.Ok (exposure_score pct, pct)
  end.

(** Detect thesis theme for the sector factor. *)
Definition sector_thesis_theme (thesis_text : string) : option sector_theme :=
  let has kw := PyStr.contains kw thesis_text in
  let any kws := PyStr.any_in kws thesis_text in
  if any ["ai"; "data center"; "gpu"; "semiconductor"]%string then Some st_ai_infrastructure
  else if has "semiconductor" || has "chip" then Some st_semiconductor
  else if any ["power"; "utility"; "energy"; "electric"]%string then Some st_power_energy
  else if has "defense" || has "military" then Some st_defense
  else if has "real estate" || has "housing" || has "reit" then Some st_real_estate
  else if any ["bank"; "financial"; "credit"; "private equity"]%string then Some st_financial
  else if has "china" || has "chinese" then Some st_china_tech
  else if any ["commodity"; "mining"; "copper"; "lithium"; "gold"]%string
  then Some st_commodities
  else None.

(** [for name in names: if name in sector or name in industry: return ...] *)
Definition tier_matches (names : list string) (sector industry : string) : bool :=
  existsb (fun n => PyStr.contains n sector || PyStr.contains n industry) names.

(** Score sector/industry alignment (0-2 points). *)
Definition _score_sector_alignment (details : dict) (thesis : list (string * json))
  : Py.res Q :=
  let! sector := lower_field details "sector" in
  let! industry := lower_field details "industry" in
  let! text := thesis_text thesis in
  match sector_thesis_theme text with
  | None => Py.Ok 1.0 (* Default when theme unclear *)
  | Some th =>
      let theme_sectors := sector_matches th in
      if tier_matches (perfect theme_sectors) sector industry then Py.Ok 2.0
      else if tier_matches (good theme_sectors) sector industry then Py.Ok 1.5
      else if tier_matches (related theme_sectors) sector industry then Py.Ok 1.0
      else Py.Ok 0.3 (* No meaningful match *)
  end.

(** [self.yahoo_finance and self.yahoo_finance.is_available()] *)
Definition yahoo_ready (s : t) : option YahooFinance :=
  match yahoo_finance s with
  | Some yf => if is_available yf then Some yf else None
  | None => None
  end.

(** Trend score: the 50-day average against the average of the year. *)
Definition trend_score (prices : list Q) : Q :=
  if (200 <=? length prices)%nat then
    let avg_50d := qsum (skipn (length prices - 50) prices) / 50 in
    let avg_200d := qsum prices / inject_Z (Z.of_nat (length prices)) in
    if Qltb (avg_200d * 1.02) avg_50d then 1.0
    else if Qltb avg_200d avg_50d then 0.75
    else if Qltb (avg_200d * 0.98) avg_50d then 0.5
    else 0.25
  else 0.5.

Definition position_desc (position : Q) : string :=
  let position_pct := format_fixed 0 (position * 100) in
  (if Qltb 0.90 position then "near 52-week high (" ++ position_pct ++ "% of range)"
   else if Qltb 0.70 position then "in upper range (" ++ position_pct ++ "% of 52-week range)"
   else if Qltb 0.50 position then "mid-range (" ++ position_pct ++ "% of 52-week range)"
   else if Qltb 0.30 position then "in lower range (" ++ position_pct ++ "% of 52-week range)"
   else "near 52-week low (" ++ position_pct ++ "% of range)")%string.

Definition trend_desc (trend_score : Q) : string :=
  if Qle_bool 0.75 trend_score then "strong uptrend"
  else if Qle_bool 0.5 trend_score then "uptrending"
  else "downtrending"%string.

(** Calculate price momentum score: (score 0-2 pts, rationale). *)
Definition _calculate_momentum_score (s : t) (ticker : string) : Q * string :=
  match yahoo_ready s with
  | None => (0.0, "Momentum data unavailable"%string)
  | Some yf =>
      match get_stock_historical_prices yf ticker with
      | HistoryRaises => (0.0, "Momentum calculation error"%string)
      | HistoryNone => (0.0, "Insufficient price history"%string)
      | HistoryData prices =>
          if (length prices <? 50)%nat then (0.0, "Insufficient price history"%string)
          else
            match prices with
            | [] => (0.0, "Insufficient price history"%string)
            | first :: rest =>
                let current_price := List.last rest first in
                let high_52w := qmax first rest in
                let low_52w := qmin first rest in
                let price_range := high_52w - low_52w in
                if Qeq_bool price_range 0 then (0.0, "No price movement"%string)
                else
                  let position := (current_price - low_52w) / price_range in
                  let position_score := position in
                  let trend := trend_score prices in
                  let total_score := position_score + trend in
                  (round2 total_score,
                   ("Price momentum: " ++ position_desc position ++ ", "
                    ++ trend_desc trend)%string)
            end
      end
  end.

Definition income_keywords : list string :=
  ["dividend"; "income"; "yield"; "payout"; "distribution"; "cash flow"]%string.

Definition yield_tier (dividend_yield : Q) : Q * string :=
  let pct := format_fixed 1 (dividend_yield * 100) in
  (if Qltb 0.04 dividend_yield then (1.0, "excellent " ++ pct ++ "% yield")
   else if Qltb 0.03 dividend_yield then (0.75, "good " ++ pct ++ "% yield")
   else if Qltb 0.02 dividend_yield then (0.5, "moderate " ++ pct ++ "% yield")
   else if Qltb 0 dividend_yield then (0.25, "low " ++ pct ++ "% yield")
   else (0.0, "no yield"))%string.

Definition growth_tier (payments : list Q) : Q * string :=
  match payments with
  | newest_div :: rest =>
      if (8 <=? length payments)%nat then
        let oldest_div := List.last rest newest_div in
        if Qltb 0 oldest_div then
          let growth_rate := (newest_div - oldest_div) / oldest_div in
          let pct := (format_fixed 0 (growth_rate * 100) ++ "% growth")%string in
          if Qltb 0.10 growth_rate then (1.0, pct)
          else if Qltb 0.05 growth_rate then (0.75, pct)
          else if Qltb 0 growth_rate then (0.5, pct)
          else (0.0, "declining"%string)
        else (0.0, "no growth data"%string)
      else (0.0, "limited history"%string)
  | [] => (0.0, "limited history"%string)
  end.

(** Score dividend quality for income-focused theses: (score 0-2 pts,
    rationale). *)
Definition _score_dividend_quality (s : t) (ticker : string)
    (thesis : list (string * json)) : Py.res (Q * string) :=
  match yahoo_ready s with
  | None => Py.Ok (0.0, ""%string)
  | Some yf =>
      let! text := thesis_text thesis in
      if negb (PyStr.any_in income_keywords text) then Py.Ok (0.0, ""%string)
      else
        match get_stock_dividend yf ticker with
        | DividendRaises => Py.Ok (0.0, ""%string)
        | DividendNone => Py.Ok (0.0, "No dividend payments"%string)
        | DividendData dividend_yield payments =>
            match payments with
            | [] => Py.Ok (0.0, "No dividend payments"%string)
            | _ =>
                let '(yield_score, yield_desc) := yield_tier dividend_yield in
                let '(growth_score, growth_desc) := growth_tier payments in
                let total_score := yield_score + growth_score in
                Py.Ok (round2 total_score,
                       ("Dividend quality: " ++ yield_desc ++ ", " ++ growth_desc)%string)
            end
        end
  end.

(** The raw score of the six factors, out of 14 points, with the rationale
    parts, the exposure factors and the revenue exposure. *)
Definition raw_score (s : t) (security : Security) (thesis : list (string * json))
  : Py.res (Q * list string * list string * option Q) :=
  let company_details := _get_company_details s security.(ticker) (Some security) in
  let score := 0.0 in
  let rationale_parts : list string := [] in
  let exposure_factors : list string := [] in
  (* Factor 1: Direct mention in thesis (2 points) *)
  let '(score, rationale_parts, exposure_factors) :=
    if _mentioned_in_thesis security thesis
    then (score + 2.0,
          rationale_parts ++ ["Explicitly mentioned in thesis"%string],
          exposure_factors ++ ["Direct thesis mention"%string])%list
    else (score, rationale_parts, exposure_factors) in
  (* Factor 2: Business description alignment (3 points) *)
  let! business := _score_business_description company_details thesis in
  let '(business_score, business_rationale) := business in
  let score := score + business_score in
  let '(rationale_parts, exposure_factors) :=
    if negb (String.eqb business_rationale "")
    then ((rationale_parts ++ [business_rationale])%list,
          if Qltb 0 business_score
          then (exposure_factors ++ ["Business model alignment"%string])%list
          else exposure_factors)
    else (rationale_parts, exposure_factors) in
  (* Factor 3: Revenue exposure (3 points) *)
  let! revenue := _estimate_revenue_exposure company_details thesis in
  let '(revenue_score, revenue_pct) := revenue in
  let score := score + revenue_score in
  let '(rationale_parts, exposure_factors) :=
    if Qltb 0 revenue_score
    then ((rationale_parts
             ++ ["~" ++ format_fixed 0 revenue_pct ++ "% revenue exposure estimated"]%string)%list,
          (exposure_factors
             ++ ["Revenue exposure: " ++ format_fixed 0 revenue_pct ++ "%"]%string)%list)
    else (rationale_parts, exposure_factors) in
  (* Factor 4: Industry/sector alignment (2 points) *)
  let! sector_score := _score_sector_alignment company_details thesis in
  let score := score + sector_score in
  let '(rationale_parts, exposure_factors) :=
    if Qltb 0 sector_score
    then ((rationale_parts ++ ["Industry sector alignment"%string])%list,
          (exposure_factors ++ ["Sector classification match"%string])%list)
    else (rationale_parts, exposure_factors) in
  (* Factor 5: Price momentum (2 points) *)
  let '(score, rationale_parts, exposure_factors) :=
    match yahoo_ready s with
    | Some _ =>
        let '(momentum_score, momentum_rationale) :=
          _calculate_momentum_score s security.(ticker) in
        if Qltb 0 momentum_score && negb (String.eqb momentum_rationale "")
        then (score + momentum_score,
              (rationale_parts ++ [momentum_rationale])%list,
              (exposure_factors ++ ["Price momentum"%string])%list)
        else (score + momentum_score, rationale_parts, exposure_factors)
    | None => (score, rationale_parts, exposure_factors)
    end in
  (* Factor 6: Dividend quality (2 points) *)
  let! dividend :=
    match yahoo_ready s with
    | Some _ =>
        let! scored := _score_dividend_quality s security.(ticker) thesis in
        let '(dividend_score, dividend_rationale) := scored in
        if Qltb 0 dividend_score && negb (String.eqb dividend_rationale "")
        then Py.Ok (score + dividend_score,
                    (rationale_parts ++ [dividend_rationale])%list,
                    (exposure_factors ++ ["Dividend quality"%string])%list)
        else Py.Ok (score + dividend_score, rationale_parts, exposure_factors)
    | None => Py.Ok (score, rationale_parts, exposure_factors)
    end in
  let '(score, rationale_parts, exposure_factors) := dividend in
  Py.Ok (score, rationale_parts, exposure_factors,
         if Qltb 0 revenue_score then Some revenue_pct else None).

(** Score a security's alignment with a thesis. *)
Definition score_alignment (s : t) (security : Security) (thesis : list (string * json))
  : Py.res ThesisAlignment :=
  let! raw := raw_score s security thesis in
  let '(score, rationale_parts, exposure_factors, revenue) := raw in
  (* Total possible: 14 points; scale to 10 points *)
  let max_possible_score := 14.0 in
  let scaled_score := (score / max_possible_score) * 10.0 in
  match lookup thesis "title" with
  | None => Py.Raise (Py.KeyError "title")
  | Some title =>
      Py.Ok {|
        thesis_id := default title (lookup thesis "id");
        thesis_title := title;
        alignment_ticker := security.(ticker);
        alignment_score := round2 scaled_score;
        alignment_rationale :=
          match rationale_parts with
          | [] => "Limited alignment found"%string
          | _ => PyStr.join "; " rationale_parts
          end;
        key_exposure_factors := exposure_factors;
        revenue_exposure_pct := revenue
      |}
  end.

End Environment.

End AlignmentScorer.

(** ** The full backfill (backfill_etf_full.py) *)

Module Backfill.
Import PyVal AutonomousEquityAnalyst.
Local Open Scope string_scope.

(** The command line: [--start], [--limit], [--constituents-only],
    [--constituent-start], [--constituent-limit], [--remaining-only]. *)
Record args := Args {
  start : nat;
  limit : option nat;
  constituents_only : bool;
  constituent_start : nat;
  constituent_limit : option nat;
  remaining_only : bool
}.

Record stats := Stats {
  etfs_fetched : nat;
  holdings_saved : nat;
  constituents_fetched : nat
}.

(** The state of a run: the database, the run-scoped set
    [fetched_this_run], the upstream requests made so far (oldest first) and
    the counters. *)
Record run := Run {
  run_db : db;
  fetched_this_run : gset string;
  events : list event;
  run_stats : stats
}.

(** Order of symbols, as [sorted] and [ORDER BY] see it. *)
Definition str_le (a b : string) : Prop := String.leb a b = true.

#[global] Instance str_le_dec a b : Decision (str_le a b).
Proof. unfold str_le. apply _. Defined.

Definition sorted (l : list string) : list string := merge_sort str_le l.

(** [xs[:n]] when [n] is given and not zero ([if args.limit:]). *)
Definition take_limit {A} (n : option nat) (xs : list A) : list A :=
  match n with
  | Some (S k) => take (S k) xs
  | _ => xs
  end.

(** [SELECT DISTINCT constituent_symbol FROM etf_holdings] *)
Definition constituent_symbols (d : db) : gset string :=
  set_map snd (dom (etf_holdings d)).

(** [UPPER(COALESCE(asset_type, '')) = 'ETF'] *)
Definition is_etf (row : dict) : bool :=
  match get row "asset_type" with
  | VStr s => String.eqb (PyStr.upper s) "ETF"
  | _ => false
  end.

(** [SELECT symbol FROM securities WHERE ... = 'ETF' ORDER BY symbol] *)
Definition all_etfs (d : db) : list string :=
  sorted (omap (fun kv => if is_etf (snd kv) then Some (fst kv) else None)
               (map_to_list (securities d))).

(** [TRIM(s)]: spaces off both ends. *)
Fixpoint sql_ltrim (s : string) : string :=
  match s with
  | String c s' => if Ascii.eqb c " " then sql_ltrim s' else s
  | EmptyString => EmptyString
  end.

Fixpoint sql_rtrim (s : string) : string :=
  match s with
  | EmptyString => EmptyString
  | String c s' =>
      match sql_rtrim s' with
      | EmptyString => if Ascii.eqb c " " then EmptyString else String c EmptyString
      | r => String c r
      end
  end.

(** [col IS NOT NULL AND TRIM(col) != ''] *)
Definition filled (v : value) : bool :=
  match v with
  | VNone => false
  | VStr s => negb (String.eqb (sql_rtrim (sql_ltrim s)) "")
  | VNum _ => true
  end.

(** The symbols with a sector, a GICS sector or a description. *)
Definition already_enriched (d : db) : gset string :=
  dom (filter (fun kv => filled (get (snd kv) "sector")
                         || filled (get (snd kv) "gics_sector")
                         || filled (get (snd kv) "description") = true)
              (securities d)).

Section Environment.

Variable py_float : string -> option Q.
Variable py_str : Q -> string.
Variable strptime : string -> string -> option Z.

(** Yahoo Finance, the reading of [datetime.now()] and the text of SQLite's
    [datetime('now')] during the run. *)
Variable y : yahoo.
Variable now : Z.
Variable now_text : string.

(** [data = analyst._fetch_security_data(sym); if data:
    analyst.save_security(data); fetched_this_run.add(sym); stats[...] += 1] *)
Definition fetch_and_save (count : stats -> stats) (r : run) (sym : string)
  : Py.res run :=
  let! fetched := _fetch_security_data py_float py_str strptime (run_db r) now y sym in
  let '(data, requests) := fetched in
  match data with
  | Some security =>
      let! d' := save_security py_float py_str (run_db r) security now_text in
      Py.Ok (Run d' ({[sym]} ∪ fetched_this_run r) (events r ++ requests)
                 (count (run_stats r)))
  | None =>
      Py.Ok (Run (run_db r) (fetched_this_run r) (events r ++ requests) (run_stats r))
  end.

Definition count_etf (s : stats) : stats :=
  Stats (S (etfs_fetched s)) (holdings_saved s) (constituents_fetched s).

Definition count_holdings (s : stats) : stats :=
  Stats (etfs_fetched s) (S (holdings_saved s)) (constituents_fetched s).

Definition count_constituent (s : stats) : stats :=
  Stats (etfs_fetched s) (holdings_saved s) (S (constituents_fetched s)).

(** [h["symbol"]] of the holdings fetched. *)
Definition holding_symbols (holdings : list dict) : gset string :=
  list_to_set (omap (fun h => match get h "symbol" with
                              | VStr s => Some s
                              | _ => None
                              end) holdings).

(** STEP 1: fetch and save ETF data + holdings, for one ETF. *)
Definition backfill_etf (st : run * gset string) (sym : string)
  : Py.res (run * gset string) :=
  let '(r, all_constituents_set) := st in
  if bool_decide (sym ∈ fetched_this_run r) then Py.Ok st
  else
    let! r := fetch_and_save count_etf r sym in
    let '(holdings, requests) := fetch_etf_holdings py_float py_str y sym in
    let r := Run (run_db r) (fetched_this_run r) (events r ++ requests) (run_stats r) in
    match holdings with
    | Some hs =>
        let! d' := save_etf_holdings (run_db r) sym hs "yahoo" now_text in
        Py.Ok (Run d' (fetched_this_run r) (events r) (count_holdings (run_stats r)),
               holding_symbols hs ∪ all_constituents_set)
    | None => Py.Ok (r, all_constituents_set)
    end.

(** STEP 2: enrich one constituent. *)
Definition backfill_constituent (r : run) (sym : string) : Py.res run :=
  if bool_decide (sym ∈ fetched_this_run r) then Py.Ok r
  else fetch_and_save count_constituent r sym.

(** [for x in xs: ...] with a body that may raise. *)
Fixpoint for_each {S} (body : S -> string -> Py.res S) (st : S) (xs : list string)
  : Py.res S :=
  match xs with
  | [] => Py.Ok st
  | x :: rest =>
      let! st' := body st x in
      for_each body st' rest
  end.

Definition main (a : args) (d : db) : Py.res run :=
  let all_constituents := sorted (elements (constituent_symbols d)) in
  let fresh := Run d ∅ [] (Stats 0 0 0) in
  if constituents_only a then
    let constituents := drop (constituent_start a) all_constituents in
    let constituents := take_limit (constituent_limit a) constituents in
    let constituents :=
      if remaining_only a
      then List.filter (fun c => negb (bool_decide (c ∈ already_enriched d))) constituents
      else constituents in
    for_each backfill_constituent fresh constituents
  else
    let etfs := take_limit (limit a) (drop (start a) (all_etfs d)) in
    match etfs with
    | [] => Py.Ok fresh (* No ETFs found in database. *)
    | _ =>
        let! st := for_each backfill_etf (fresh, ∅) etfs in
        let '(r, all_constituents_set) := st in
        let all_constituents_set := constituent_symbols (run_db r) ∪ all_constituents_set in
        let constituents := sorted (elements all_constituents_set) in
        for_each backfill_constituent r constituents
    end.

End Environment.

(** How often a ticker was fetched upstream during a run. *)
Definition upstream_fetches (ticker : string) (log : list event) : nat :=
  length (List.filter (fun e => bool_decide (e = UpstreamSecurity ticker)) log).

(** "Each symbol fetched at most once per run". *)
Definition fetched_at_most_once (log : list event) : Prop :=
  forall ticker, (upstream_fetches ticker log <= 1)%nat.

End Backfill.

(** ** Sample data *)

Module Samples.
Import PyVal Json AutonomousEquityAnalyst.
Local Open Scope string_scope.

(** A record written on 2 January (in ticks since 1 January), read on
    5 January and on 12 January. *)
Definition sample_strptime (text format : string) : option Z :=
  if String.eqb text "2024-01-02 00:00:00" then Some (1 * Clock.day) else None.

Definition sample_row : dict :=
  list_to_map [("symbol", VStr "SPY"); ("current_price", VNum 480);
               ("last_updated", VStr "2024-01-02 00:00:00")].

Definition sample_db : db := Db {[ "SPY" := sample_row ]} ∅.

(** A record as the fetch hands it to [save_security]. *)
Definition sample_security : dict :=
  list_to_map [("symbol", VStr "SPY"); ("name", VStr "SPDR S&P 500");
               ("asset_type", VStr "ETF"); ("current_price", VNum 480)].

(** An interpreter that parses no text as a number and prints every number
    as "0": enough where no text is converted. *)
Definition sample_float (s : string) : option Q := None.
Definition sample_str (q : Q) : string := "0".

(** SPY with one stored holding, AAPL, and a refresh that brings MSFT only. *)
Definition holdings_db : db :=
  Db {[ "SPY" := list_to_map [("symbol", VStr "SPY"); ("asset_type", VStr "ETF")];
        "AAPL" := list_to_map [("symbol", VStr "AAPL")] ]}
     {[ ("SPY", "AAPL") :=
          list_to_map [("etf_symbol", VStr "SPY"); ("constituent_symbol", VStr "AAPL");
                       ("holding_percent", VNum 7); ("holding_rank", VNum 1);
                       ("source", VStr "yahoo");
                       ("last_updated", VStr "2024-01-01 00:00:00")] ]}.

Definition new_holdings : list dict :=
  [ list_to_map [("symbol", VStr "MSFT"); ("name", VStr "Microsoft Corporation");
                 ("holding_percent", VNum 6.5); ("holding_rank", VNum 1)] ].

(** A record whose sector came from the SIC description, and an Alpha
    Vantage overview of the same company. *)
Definition classified_security : dict :=
  list_to_map [("symbol", VStr "MSFT"); ("name", VStr "Microsoft Corporation");
               ("sic_description", VStr "SERVICES-PREPACKAGED SOFTWARE");
               ("sector", VStr "SERVICES-PREPACKAGED SOFTWARE");
               ("description", VStr "Develops and supports software.")].

Definition av_overview : dict :=
  list_to_map [("Symbol", VStr "MSFT"); ("Sector", VStr "TECHNOLOGY");
               ("Industry", VStr "SERVICES-PREPACKAGED SOFTWARE");
               ("Description", VStr "Microsoft Corporation is a technology company.");
               ("DividendYield", VStr "0.0072")].

(** An overview that carries no sector and no industry. *)
Definition av_overview_unclassified : dict :=
  list_to_map [("Symbol", VStr "MSFT"); ("Sector", VStr ""); ("Industry", VNone);
               ("Description", VStr "Microsoft Corporation is a technology company.")].

(** Fixed-point formatting that prints the nearest integer. *)
Definition sample_format (digits : nat) (q : Q) : string :=
  pretty (AlignmentScorer.round_half_even q).

(** A scorer with neither Alpha Vantage nor Yahoo Finance. *)
Definition plain_scorer : AlignmentScorer.t := AlignmentScorer.Scorer None None.

(** A foundry operator listed under the ticker AI, and three theses on chip
    makers: one plain, one with the ticker appended to its title, one with
    the ticker in a member of its own. *)
Definition foundry_security : AlignmentScorer.Security :=
  {| AlignmentScorer.ticker := "AI";
     AlignmentScorer.name := "Atlas Industries";
     AlignmentScorer.asset_type := "stock";
     AlignmentScorer.exchange := "NYSE";
     AlignmentScorer.market_cap := None;
     AlignmentScorer.sector := "Utility";
     AlignmentScorer.industry := "";
     AlignmentScorer.description := "Operates a contract chip foundry." |}.

Definition chip_thesis : list (string * json) :=
  [("title", JStr "Chip makers"); ("summary", JStr "")].

Definition chip_thesis_with_ticker : list (string * json) :=
  [("title", JStr "Chip makers AI"); ("summary", JStr "")].

Definition chip_thesis_tagged : list (string * json) :=
  [("title", JStr "Chip makers"); ("summary", JStr "");
   ("tickers", JList [JStr "AI"; JStr "TSM"])].

(** A foundry listed under the ticker TSM, and the chip thesis with that
    ticker appended to its title. *)
Definition tsm_security : AlignmentScorer.Security :=
  {| AlignmentScorer.ticker := "TSM";
     AlignmentScorer.name := "Taiwan Semiconductor Manufacturing";
     AlignmentScorer.asset_type := "stock";
     AlignmentScorer.exchange := "NYSE";
     AlignmentScorer.market_cap := None;
     AlignmentScorer.sector := "Technology";
     AlignmentScorer.industry := "";
     AlignmentScorer.description := "Operates a contract chip foundry." |}.

Definition chip_thesis_with_tsm : list (string * json) :=
  [("title", JStr "Chip makers TSM"); ("summary", JStr "")].

(** Two ETFs in the store, SPY and XYZ.  Yahoo Finance knows SPY, whose one
    holding is XYZ, and has nothing on XYZ. *)
Definition backfill_db : db :=
  Db {[ "SPY" := list_to_map [("symbol", VStr "SPY"); ("name", VStr "SPDR S&P 500");
                              ("asset_type", VStr "ETF")];
        "XYZ" := list_to_map [("symbol", VStr "XYZ"); ("name", VStr "XYZ Trust");
                              ("asset_type", VStr "ETF")] ]}
     ∅.

Definition backfill_yahoo : yahoo :=
  {| yf_info := fun t =>
       if String.eqb t "SPY"
       then Some (list_to_map [("symbol", VStr "SPY"); ("longName", VStr "SPDR S&P 500");
                               ("quoteType", VStr "ETF"); ("currentPrice", VNum 480)])
       else None;
     yf_history := fun t => Some [];
     yf_top_holdings := fun t =>
       if String.eqb t "SPY"
       then Some [(VStr "XYZ", list_to_map [("Name", VStr "XYZ Trust");
                                            ("Holding Percent", VNum 0.05)])]
       else None |}.

Definition backfill_args : Backfill.args :=
  Backfill.Args 0 None false 0 None false.

End Samples.

(** * Theorems *)


(** ** Facts about values and dicts *)

Module PyValFacts.
Import PyVal.

Lemma Qltb_lt x y : Qltb x y = true <-> (x < y)%Q.
Proof.
  unfold Qltb. rewrite negb_true_iff, <- not_true_iff_false, Qle_bool_iff.
  split; [apply Qnot_le_lt | apply Qlt_not_le].
Qed.

Lemma Qltb_ge x y : Qltb x y = false <-> (y <= x)%Q.
Proof.
  unfold Qltb. rewrite negb_false_iff, Qle_bool_iff. done.
Qed.

Lemma get_insert (m : dict) k k' v :
  get (<[k := v]> m) k' = if String.eqb k k' then v else get m k'.
Proof.
  unfold get. destruct (String.eqb_spec k k') as [->|Hne].
  - by rewrite lookup_insert_eq.
  - by rewrite lookup_insert_ne.
Qed.

Lemma get_insert_other (m : dict) k k' v : k <> k' -> get (<[k := v]> m) k' = get m k'.
Proof. intros H. unfold get. by rewrite lookup_insert_ne. Qed.

Lemma get_list_to_map_head k v (l : list (string * value)) :
  get (list_to_map ((k, v) :: l)) k = v.
Proof. unfold get. by rewrite list_to_map_cons, lookup_insert_eq. Qed.

Lemma get_list_to_map_tail k k' v (l : list (string * value)) :
  k' <> k -> get (list_to_map ((k', v) :: l)) k = get (list_to_map l) k.
Proof. intros H. unfold get. by rewrite list_to_map_cons, lookup_insert_ne. Qed.

Ltac get_column :=
  repeat (rewrite get_list_to_map_tail by discriminate);
  rewrite get_list_to_map_head.

End PyValFacts.

(** ** Facts about text *)

Module PyStrFacts.
Import PyStr.
Local Open Scope string_scope.

Ltac each_char c := destruct c as [[] [] [] [] [] [] [] []]; vm_compute; try reflexivity.

Lemma upper_char_idem c : upper_char (upper_char c) = upper_char c.
Proof. each_char c. Qed.

Lemma is_space_upper_char c : is_space (upper_char c) = is_space c.
Proof. each_char c. Qed.

Lemma upper_idem s : upper (upper s) = upper s.
Proof.
  unfold upper. induction s as [|c s IH]; simpl; [done|].
  by rewrite upper_char_idem, IH.
Qed.

Lemma upper_nil s : upper s = "" <-> s = "".
Proof. destruct s; simpl; split; (done || discriminate). Qed.

Lemma lstrip_upper s : lstrip (upper s) = upper (lstrip s).
Proof.
  unfold upper. induction s as [|c s IH]; simpl; [done|].
  rewrite is_space_upper_char. by destruct (is_space c).
Qed.

Lemma rstrip_upper s : rstrip (upper s) = upper (rstrip s).
Proof.
  unfold upper. induction s as [|c s IH]; simpl; [done|].
  rewrite IH, is_space_upper_char.
  destruct (rstrip s) as [|c' r]; simpl; [by destruct (is_space c) | done].
Qed.

Lemma strip_upper s : strip (upper s) = upper (strip s).
Proof. unfold strip. by rewrite lstrip_upper, rstrip_upper. Qed.

(** [lstrip] leaves no white space at the left end, and [rstrip] puts none
    there. *)
Lemma lstrip_head s :
  match lstrip s with
  | EmptyString => True
  | String c _ => is_space c = false
  end.
Proof.
  induction s as [|c s IH]; simpl; [done|].
  destruct (is_space c) eqn:E; [done | exact E].
Qed.

Lemma lstrip_rstrip_lstrip s : lstrip (rstrip (lstrip s)) = rstrip (lstrip s).
Proof.
  pose proof (lstrip_head s) as H.
  destruct (lstrip s) as [|c t]; simpl; [done|].
  destruct (rstrip t); simpl; rewrite ?H; simpl; by rewrite ?H.
Qed.

Lemma rstrip_idem s : rstrip (rstrip s) = rstrip s.
Proof.
  induction s as [|c s IH]; simpl; [done|].
  destruct (rstrip s) as [|c' r] eqn:E.
  - destruct (is_space c) eqn:Ec; simpl; [done | by rewrite Ec].
  - simpl in *. by rewrite IH.
Qed.

Lemma strip_idem s : strip (strip s) = strip s.
Proof.
  unfold strip. rewrite lstrip_rstrip_lstrip. apply rstrip_idem.
Qed.

End PyStrFacts.
(** ** Facts about the clock *)

Module ClockFacts.
Import Clock.

Lemma time_mono w : monotone w -> w_now w <= (time w).1 /\ monotone (time w).2.
Proof.
  unfold monotone, time. destruct (w_delays w) as [|d ds] eqn:E; simpl.
  - rewrite E. split; [lia | constructor].
  - intros H. inversion H; subst. split; [lia | done].
Qed.

Lemma time_now w : w_now (time w).2 = (time w).1.
Proof. unfold time. by destruct (w_delays w). Qed.

Lemma time_slept w : w_slept (time w).2 = w_slept w.
Proof. unfold time. by destruct (w_delays w). Qed.

Lemma second_pos : 0 < second.
Proof. reflexivity. Qed.

Lemma sleep_ok s w :
  0 <= s -> sleep s w = Py.Ok (World (w_now w + s) (w_delays w) (s :: w_slept w)).
Proof. intros H. unfold sleep. destruct (Z.ltb_spec s 0); [lia | done]. Qed.

End ClockFacts.

(** ** The sliding window of RateLimiter *)

Module RateLimiterFacts.
Import Clock ClockFacts RateLimiter.




Lemma prune_head cutoff q x q' : prune cutoff q = x :: q' -> cutoff <= x.
Proof.
  induction q as [|y q IH]; simpl; [done|].
  destruct (Z.ltb_spec y cutoff); [done|]. intros [= -> _]. lia.
Qed.

Lemma prune_length cutoff q : (length (prune cutoff q) <= length q)%nat.
Proof.
  induction q as [|y q IH]; simpl; [lia|].
  destruct (y <? cutoff); simpl; lia.
Qed.

Lemma prune_drops_old_head cutoff x q :
  x < cutoff -> (length (prune cutoff (x :: q)) <= length q)%nat.
Proof.
  intros H. simpl. destruct (Z.ltb_spec x cutoff); [|lia]. apply prune_length.
Qed.












End RateLimiterFacts.

(** ** The daily cap of AlphaVantageRateLimiter *)

Module AlphaVantageRateLimiterFacts.
Import Clock ClockFacts AlphaVantageRateLimiter.

Ltac case_geb :=
  match goal with
  | |- context [?a >=? ?b] => destruct (Z.geb_spec a b)
  end.

Lemma wait_decomposition wait :
  3600 * second * wait_hours wait + 60 * second * wait_minutes wait <= wait
  < 3600 * second * wait_hours wait + 60 * second * wait_minutes wait + 60 * second.
Proof.
  unfold wait_hours, wait_minutes, second.
  pose proof (Z.div_mod wait (3600 * 1000000) ltac:(lia)).
  pose proof (Z.mod_pos_bound wait (3600 * 1000000) ltac:(lia)).
  pose proof (Z.div_mod (wait mod (3600 * 1000000)) (60 * 1000000) ltac:(lia)).
  pose proof (Z.mod_pos_bound (wait mod (3600 * 1000000)) (60 * 1000000) ltac:(lia)).
  lia.
Qed.

(** C2.  With the day's cap already recorded ([calls_per_day] or more calls
    in [daily_calls] for the current date), an invocation on that same date
    raises the quota error, which carries the hours and minutes left until the
    next midnight, without sleeping and without recording anything.  An
    invocation whose date differs from the stored date starts the count
    afresh, whatever the time elapsed since the first call of the old day;
    an invocation on the stored date below the cap keeps counting. *)
Theorem daily_cap_raises_and_resets_at_midnight (l : t) (w : world) :
  let now := (time w).1 in
  let w1 := (time w).2 in
  let dt := (time w1).1 in
  let w2 := (time w1).2 in
  let dt2 := (time w2).1 in
  let w3 := (time w2).2 in
  let remaining := (current_date l + 1) * day - dt2 in
  (date_of dt = current_date l ->
   calls_per_day l <= Z.of_nat (length (daily_calls l)) ->
   wait_if_needed l w =
     (Py.Raise (Py.DailyLimitReached (wait_hours remaining) (wait_minutes remaining)), l, w3) /\
   w_slept w3 = w_slept w /\
   3600 * second * wait_hours remaining + 60 * second * wait_minutes remaining
     <= remaining
     < 3600 * second * wait_hours remaining + 60 * second * wait_minutes remaining
       + 60 * second) /\
  (date_of dt <> current_date l ->
   0 < calls_per_day l -> 0 < calls_per_minute l ->
   exists l' w', wait_if_needed l w = (Py.Ok tt, l', w') /\
                 daily_calls l' = [now] /\ current_date l' = date_of dt) /\
  (date_of dt = current_date l ->
   Z.of_nat (length (daily_calls l)) < calls_per_day l -> 0 < calls_per_minute l ->
   exists l' w', wait_if_needed l w = (Py.Ok tt, l', w') /\
                 daily_calls l' = daily_calls l ++ [now] /\
                 current_date l' = current_date l).
Proof.
  intros now w1 dt w2 dt2 w3 remaining.
  pose proof second_pos as Hsec.
  assert (Hminute : forall l1 : t,
    0 < calls_per_minute l1 ->
    exists l' w',
      (let q1 := RateLimiter.prune (now - 60 * second) (minute_calls l1) in
       if Z.of_nat (length q1) >=? calls_per_minute l1 then
         match q1 with
         | [] => (Py.Raise Py.IndexError, set_minute_calls l1 q1, w2)
         | oldest_call :: _ =>
             match sleep (60 * second - (now - oldest_call) + 1 * second) w2 with
             | Py.Raise e => (Py.Raise e, set_minute_calls l1 q1, w2)
             | Py.Ok w3 =>
                 let '(now2, w4) := time w3 in
                 (Py.Ok tt, record_call l1 (RateLimiter.prune (now2 - 60 * second) q1) now, w4)
             end
         end
       else (Py.Ok tt, record_call l1 q1 now, w2)) = (Py.Ok tt, l', w') /\
      daily_calls l' = daily_calls l1 ++ [now] /\ current_date l' = current_date l1).
  { intros l1 Hcpm. simpl.
    destruct (RateLimiter.prune (now - 60 * second) (minute_calls l1)) as [|oldest q] eqn:Eq.
    - case_geb; [simpl in *; lia|].
      eexists _, _; (split; [reflexivity | split; reflexivity]).
    - destruct (_ >=? _); [|eexists _, _; (split; [reflexivity | split; reflexivity])].
      pose proof (RateLimiterFacts.prune_head _ _ _ _ Eq).
      rewrite sleep_ok by lia.
      match goal with
      | |- context [time (World ?a ?b ?c)] => destruct (time (World a b c)) as [now2 w4]
      end.
      eexists _, _; (split; [reflexivity | split; reflexivity]). }
  unfold wait_if_needed.
  rewrite (surjective_pairing (time w)). fold now w1.
  rewrite (surjective_pairing (time w1)). fold dt w2.
  split; [|split].
  - intros Hdate Hcap.
    rewrite bool_decide_eq_false_2 by (intros ?; congruence).
    destruct (Z.geb_spec (Z.of_nat (length (daily_calls l))) (calls_per_day l)); [|lia].
    rewrite (surjective_pairing (time w2)). fold dt2 w3.
    rewrite Hdate. fold remaining.
    split; [done|]. split.
    + unfold w3, w2, w1. by rewrite !time_slept.
    + apply wait_decomposition.
  - intros Hdate HD Hcpm.
    rewrite bool_decide_eq_true_2 by done. simpl.
    case_geb; [simpl in *; lia|].
    destruct (Hminute (reset_day l (date_of dt)) Hcpm) as (l' & w' & Heq & Hd & Hc).
    exists l', w'. split; [exact Heq|]. by split.
  - intros Hdate Hcap Hcpm.
    rewrite bool_decide_eq_false_2 by (intros ?; congruence).
    destruct (Z.geb_spec (Z.of_nat (length (daily_calls l))) (calls_per_day l)); [lia|].
    destruct (Hminute l Hcpm) as (l' & w' & Heq & Hd & Hc).
    exists l', w'. split; [exact Heq|]. by split.
Qed.

(** A cap of two calls, both recorded on day 0: an invocation at 01:00 of
    day 0 raises with 23h 0m to go; an invocation one second into day 1
    counts from one again. *)
Lemma daily_cap_raises_and_resets_at_midnight_witness :
  let l := Limiter 5 2 [0; 0] [0; 0] 0 in
  wait_if_needed l (World (3600 * second) [] []) =
    (Py.Raise (Py.DailyLimitReached 23 0), l, World (3600 * second) [] []) /\
  exists l' w', wait_if_needed l (World (day + second) [] []) = (Py.Ok tt, l', w') /\
                daily_calls l' = [day + second] /\ current_date l' = 1.
Proof.
  intros l. split.
  - refine (proj1 (proj1 (daily_cap_raises_and_resets_at_midnight l
                            (World (3600 * second) [] [])) _ _)).
    + reflexivity.
    + simpl. lia.
  - refine (proj1 (proj2 (daily_cap_raises_and_resets_at_midnight l
                            (World (day + second) [] []))) _ _ _).
    + vm_compute. discriminate.
    + simpl. lia.
    + simpl. lia.
Defined.

(** A fresh limiter with a cap of two calls a day, used three times at
    01:00: the first two calls are recorded, the third raises with 23h 0m to
    go and records nothing. *)
Example daily_cap_reached_by_running :
  let '(results, l, w) :=
    run 3 (init 5 2 (World (3600 * second) [] [])).1 (World (3600 * second) [] []) in
  results = [Py.Ok tt; Py.Ok tt; Py.Raise (Py.DailyLimitReached 23 0)] /\
  daily_calls l = [3600 * second; 3600 * second] /\ w_slept w = [].
Proof. vm_compute. repeat split. Qed.

(** The minute window of this limiter records the reading taken on entry,
    also for a call that slept: from an idle limiter, eleven invocations in a
    row return with a single sleep of 61 seconds, so the sixth to the
    eleventh all return at the same reading of the clock, and six entries of
    the day's log carry one timestamp. *)
Example alpha_vantage_minute_window_after_sleep :
  let '(results, l, w) := run 11 (init 5 25 (World 0 [] [])).1 (World 0 [] []) in
  forallb Py.is_ok results = true /\
  w_slept w = [61 * second] /\ w_now w = 61 * second /\
  daily_calls l = [0; 0; 0; 0; 0; 0; 61 * second; 61 * second; 61 * second;
                   61 * second; 61 * second].
Proof. vm_compute. repeat split. Qed.

(** C1, on this limiter, fails.  A fresh limiter of five calls a minute is
    invoked eleven times in a row, the clock standing at 0 and moving only
    while the limiter sleeps.  All eleven invocations return; the limiter
    sleeps once, for 61 seconds, in the sixth.  That sixth call is recorded
    with the reading taken on entry, 0, so the log holds six timestamps in
    the window that ends at 0; and since its slot is pruned at once, the
    sixth to the eleventh invocation all return at the reading 61 s: six calls
    let through in one instant.  The log of recorded timestamps is not
    bounded by five per minute. *)
Theorem alpha_vantage_window_exceeded :
  let w0 := World 0 [] [] in
  let l0 := (init 5 25 w0).1 in
  let '(results, l, w) := run 11 l0 w0 in
  forallb Py.is_ok results = true /\
  w_slept w = [61 * second] /\
  daily_calls l = [0; 0; 0; 0; 0; 0; 61 * second; 61 * second; 61 * second;
                   61 * second; 61 * second] /\
  RateLimiter.window_count (60 * second) 0 (daily_calls l) = 6%nat /\
  return_times 11 l0 w0 = [0; 0; 0; 0; 0; 61 * second; 61 * second; 61 * second;
                           61 * second; 61 * second; 61 * second] /\
  RateLimiter.window_count (60 * second) (61 * second) (return_times 11 l0 w0) = 6%nat /\
  ~ RateLimiter.window_bounded 5 (60 * second) (daily_calls l).
Proof.
  intros w0 l0.
  assert (Hrun : run 11 l0 w0 =
    ([Py.Ok tt; Py.Ok tt; Py.Ok tt; Py.Ok tt; Py.Ok tt; Py.Ok tt; Py.Ok tt; Py.Ok tt;
      Py.Ok tt; Py.Ok tt; Py.Ok tt],
     Limiter 5 25 [61000000; 61000000; 61000000; 61000000; 61000000]
             [0; 0; 0; 0; 0; 0; 61000000; 61000000; 61000000; 61000000; 61000000] 0,
     World 61000000 [] [61000000])) by (vm_compute; reflexivity).
  rewrite Hrun. cbn [daily_calls w_slept].
  split; [reflexivity|]. split; [reflexivity|]. split; [reflexivity|].
  split; [reflexivity|]. split; [vm_compute; reflexivity|].
  split; [vm_compute; reflexivity|].
  intros H. specialize (H 0). vm_compute in H. by apply H.
Qed.

End AlphaVantageRateLimiterFacts.

(** ** Edge behaviour and blocking of RateLimiter *)

Module RateLimiterEdgeFacts.
Import Clock ClockFacts RateLimiter RateLimiterFacts.

Lemma prune_nil_iff cutoff q :
  prune cutoff q = [] <-> Forall (fun ts => ts < cutoff) q.
Proof.
  induction q as [|x q IH]; simpl; [split; [constructor | done]|].
  destruct (Z.ltb_spec x cutoff) as [Hlt|Hge].
  - rewrite IH. split; [by constructor | by inversion 1].
  - split; [done|]. inversion 1; lia.
Qed.

(** The result of one invocation, by cases on the pruned deque. *)
Lemma wait_if_needed_result l w :
  (wait_if_needed l w).1.1 =
    if (Z.of_nat (length (prune ((time w).1 - window l) (call_times l))) >=? max_calls l)
       && bool_decide (prune ((time w).1 - window l) (call_times l) = [])
    then Py.Raise Py.IndexError else Py.Ok tt.
Proof.
  unfold wait_if_needed. destruct (time w) as [now w1]. simpl.
  set (q1 := prune (now - window l) (call_times l)).
  destruct (Z.of_nat (length q1) >=? max_calls l); simpl.
  - destruct q1 as [|oldest q1']; [done|].
    rewrite bool_decide_eq_false_2 by done.
    destruct (Z.gtb_spec (window l - (now - oldest) + 1 * second) 0) as [Hpos|Hneg].
    + rewrite sleep_ok by lia.
      destruct (time _) as [now2 w3]. by destruct (time w3).
    + by destruct (time w1).
  - by destruct (time w1).
Qed.

(** X2.  [wait_if_needed] raises in one situation only: [max_calls] is zero
    or negative and no timestamp of the deque lies in the window; the
    exception is the IndexError of [self.call_times[0]].  In every other
    state, and for every clock, the call returns. *)
Theorem rate_limiter_raises_only_without_capacity (l : t) (w : world) :
  (max_calls l <= 0 ->
   Forall (fun ts => ts < (time w).1 - window l) (call_times l) ->
   (wait_if_needed l w).1.1 = Py.Raise Py.IndexError) /\
  (1 <= max_calls l \/ Exists (fun ts => (time w).1 - window l <= ts) (call_times l) ->
   (wait_if_needed l w).1.1 = Py.Ok tt).
Proof.
  rewrite wait_if_needed_result.
  pose proof (prune_nil_iff ((time w).1 - window l) (call_times l)) as Hnil.
  set (q1 := prune _ _) in *.
  split.
  - intros HN Hold. apply Hnil in Hold. rewrite Hold.
    rewrite bool_decide_eq_true_2 by done. change (Z.of_nat (length [])) with 0.
    destruct (Z.geb_spec 0 (max_calls l)); [done | lia].
  - intros Hcase. case_bool_decide as Hq.
    + destruct Hcase as [HN|Hex].
      * rewrite Hq. change (Z.of_nat (length [])) with 0.
        destruct (Z.geb_spec 0 (max_calls l)); [lia | done].
      * apply Hnil in Hq. apply Exists_exists in Hex as (ts & Hin & Hts).
        rewrite Forall_forall in Hq. specialize (Hq ts Hin). lia.
    + by rewrite andb_false_r.
Qed.

Lemma rate_limiter_raises_only_without_capacity_witness :
  (wait_if_needed (init 0 60) (World 0 [] [])).1.1 = Py.Raise Py.IndexError /\
  (wait_if_needed (init 5 60) (World 0 [] [])).1.1 = Py.Ok tt.
Proof.
  split.
  - apply (proj1 (rate_limiter_raises_only_without_capacity (init 0 60) (World 0 [] [])));
      [simpl; lia | constructor].
  - apply (proj2 (rate_limiter_raises_only_without_capacity (init 5 60) (World 0 [] []))).
    left. simpl. lia.
Defined.

Lemma prune_Forall (P : Z -> Prop) cutoff q : Forall P q -> Forall P (prune cutoff q).
Proof.
  induction 1 as [|x q Hx Hq IH]; simpl; [constructor|].
  destruct (x <? cutoff); [done | by constructor].
Qed.

Lemma Forall_le_weaken (c c' : Z) l :
  c <= c' -> Forall (fun o => o <= c) l -> Forall (fun o => o <= c') l.
Proof.
  intros Hc H. eapply Forall_impl; [exact H|]. intros o Ho. simpl in Ho. lia.
Qed.

(** One invocation: the clock stays monotone, the deque stays in the past
    and no longer than one more than before, and a sleep, if any, is a single
    one of at most [time_window + 1] seconds, requested only when the deque
    held [max_calls] entries or more. *)
Lemma wait_if_needed_sleeps l w :
  past l w -> monotone w ->
  let '(_, l', w') := wait_if_needed l w in
  past l' w' /\ monotone w' /\
  max_calls l' = max_calls l /\ time_window l' = time_window l /\
  (length (call_times l') <= S (length (call_times l)))%nat /\
  (w_slept w' = w_slept w \/
   exists s, w_slept w' = s :: w_slept w /\ 0 < s <= window l + second /\
             max_calls l <= Z.of_nat (length (call_times l))).
Proof.
  intros Hpast Hmono. unfold wait_if_needed.
  pose proof second_pos as Hsec.
  destruct (time w) as [now w1] eqn:E1.
  pose proof (time_mono w Hmono) as [Hle1 Hm1].
  pose proof (time_now w) as Hn1. pose proof (time_slept w) as Hs1.
  rewrite E1 in Hle1, Hm1, Hn1, Hs1. simpl in *.
  set (q1 := prune (now - window l) (call_times l)).
  assert (Hq1 : Forall (fun ts => ts <= now) q1).
  { apply prune_Forall. eapply Forall_le_weaken; [|exact Hpast]. lia. }
  pose proof (prune_length (now - window l) (call_times l)) as Hlen1. fold q1 in Hlen1.
  assert (Hrecord : forall q ts w', Forall (fun o => o <= ts) q -> w_now w' = ts ->
            past (record_call l q ts) w').
  { intros q ts w' Hq Hw'. unfold past. simpl. rewrite Hw'.
    apply Forall_app. split; [done|]. constructor; [lia | constructor]. }
  destruct (Z.geb_spec (Z.of_nat (length q1)) (max_calls l)) as [Hfull|Hroom].
  - destruct q1 as [|oldest q1'] eqn:Eq1.
    + split; [constructor|]. split; [done|]. split; [done|]. split; [done|].
      split; [simpl; lia | by left; rewrite Hs1].
    + destruct (Z.gtb_spec (window l - (now - oldest) + 1 * second) 0) as [Hpos|Hneg].
      * rewrite sleep_ok by lia.
        set (w2 := World _ _ _).
        destruct (time w2) as [now2 w3] eqn:E2.
        assert (Hm2 : monotone w2) by exact Hm1.
        pose proof (time_mono w2 Hm2) as [Hle2 Hm3].
        pose proof (time_now w2) as Hn3. pose proof (time_slept w2) as Hs3.
        rewrite E2 in Hle2, Hm3, Hn3, Hs3. simpl in *.
        destruct (time w3) as [ts w4] eqn:E3.
        pose proof (time_mono w3 Hm3) as [Hle3 Hm4].
        pose proof (time_now w3) as Hn4. pose proof (time_slept w3) as Hs4.
        rewrite E3 in Hle3, Hm4, Hn4, Hs4. simpl in *.
        pose proof (prune_length (now2 - window l) (oldest :: q1')) as Hlen2.
        split; [|split; [done|split; [done|split; [done|split]]]].
        -- apply Hrecord; [|done].
           apply (prune_Forall _ (now2 - window l) (oldest :: q1')).
           eapply Forall_le_weaken; [|exact Hq1]. lia.
        -- simpl. rewrite length_app. simpl in *. lia.
        -- right. eexists. split; [by rewrite Hs4, Hs3, Hs1|].
           inversion Hq1; subst. split; [lia|]. simpl in *. lia.
      * destruct (time w1) as [ts w2] eqn:E2.
        pose proof (time_mono w1 Hm1) as [Hle2 Hm2].
        pose proof (time_now w1) as Hn2. pose proof (time_slept w1) as Hs2.
        rewrite E2 in Hle2, Hm2, Hn2, Hs2. simpl in *.
        split; [|split; [done|split; [done|split; [done|split]]]].
        -- apply Hrecord; [|done]. eapply Forall_le_weaken; [|exact Hq1]. lia.
        -- simpl. rewrite length_app. simpl in *. lia.
        -- left. by rewrite Hs2, Hs1.
  - destruct (time w1) as [ts w2] eqn:E2.
    pose proof (time_mono w1 Hm1) as [Hle2 Hm2].
    pose proof (time_now w1) as Hn2. pose proof (time_slept w1) as Hs2.
    rewrite E2 in Hle2, Hm2, Hn2, Hs2. simpl in *.
    split; [|split; [done|split; [done|split; [done|split]]]].
    + apply Hrecord; [|done]. eapply Forall_le_weaken; [|exact Hq1]. lia.
    + simpl. rewrite length_app. simpl. lia.
    + left. by rewrite Hs2, Hs1.
Qed.

Lemma run_sleeps n : forall l w,
  past l w -> monotone w ->
  exists slept,
    w_slept (run n l w).2 = slept ++ w_slept w /\
    (length slept <= n)%nat /\
    Forall (fun s => 0 < s <= window l + second) slept /\
    (Z.of_nat (length (call_times l)) + Z.of_nat n <= max_calls l -> slept = []).
Proof.
  induction n as [|n IH]; intros l w Hpast Hm; simpl.
  - exists []. by repeat split.
  - pose proof (wait_if_needed_sleeps l w Hpast Hm) as Hstep.
    destruct (wait_if_needed l w) as [[r l'] w'].
    destruct Hstep as (Hpast' & Hm' & HN & HW & Hlen & Hsl).
    destruct (IH l' w' Hpast' Hm') as (slept & Hs & Hn & Hall & Hnone).
    assert (HWin : window l' = window l) by (unfold window; by rewrite HW).
    rewrite HWin in Hall.
    destruct Hsl as [Hsame|(s & Hs' & Hbound & Hfull)].
    + exists slept. rewrite Hs, Hsame. repeat split; [lia | done |].
      intros Hroom. apply Hnone. rewrite HN. lia.
    + exists (slept ++ [s]). rewrite Hs, Hs'. repeat split.
      * by rewrite <- app_assoc.
      * rewrite length_app. simpl. lia.
      * apply Forall_app. split; [done|]. constructor; [done | constructor].
      * intros Hroom. lia.
Qed.

(** X3.  Blocking is bounded.  In a run of [n] invocations on a fresh
    limiter under a monotone clock, [time.sleep] is called at most [n] times,
    each time for more than zero and at most [time_window + 1] seconds; and a
    run of no more than [max_calls] invocations never sleeps. *)
Theorem rate_limiter_sleeps_are_bounded (N W : Z) (w : world) (n : nat) :
  monotone w ->
  exists slept,
    w_slept (run n (init N W) w).2 = slept ++ w_slept w /\
    (length slept <= n)%nat /\
    Forall (fun s => 0 < s <= (W + 1) * second) slept /\
    (Z.of_nat n <= N -> slept = []).
Proof.
  intros Hm.
  destruct (run_sleeps n (init N W) w) as (slept & Hs & Hn & Hall & Hnone);
    [constructor | done |].
  exists slept. repeat split; [done | done | | done].
  eapply Forall_impl; [exact Hall|]. intros s. unfold window. simpl. lia.
Qed.

Lemma rate_limiter_sleeps_are_bounded_witness :
  monotone (World 0 [] []) /\
  exists slept,
    w_slept (run 7 (init 5 60) (World 0 [] [])).2 = slept ++ [] /\
    (length slept <= 7)%nat /\
    Forall (fun s => 0 < s <= (60 + 1) * second) slept /\
    (Z.of_nat 7 <= 5 -> slept = []).
Proof.
  split; [constructor|].
  apply (rate_limiter_sleeps_are_bounded 5 60 (World 0 [] []) 7). constructor.
Defined.

End RateLimiterEdgeFacts.

(** ** The daily cap and the usage figures over whole runs *)

Module AlphaVantageUsageFacts.
Import Clock ClockFacts AlphaVantageRateLimiter.

Lemma date_of_mono a b : a <= b -> date_of a <= date_of b.
Proof. intros H. unfold date_of. apply Z.div_le_mono; [reflexivity | exact H]. Qed.

Lemma admitted_on_app d log1 log2 :
  admitted_on d (log1 ++ log2) = (admitted_on d log1 + admitted_on d log2)%nat.
Proof. unfold admitted_on. by rewrite List.filter_app, length_app. Qed.

Lemma admitted_on_later d log :
  Forall (fun e => e.1 < d) log -> admitted_on d log = 0%nat.
Proof.
  unfold admitted_on. induction 1 as [|[d' r] log Hd _ IH]; simpl; [done|].
  rewrite bool_decide_eq_false_2; [done|]. intros [= -> _]. simpl in Hd. lia.
Qed.

Lemma admitted_on_one d d' r :
  admitted_on d [(d', r)] = if bool_decide ((d', r) = (d, Py.Ok tt)) then 1%nat else 0%nat.
Proof. unfold admitted_on. simpl. by case_bool_decide. Qed.

(** The minute step leaves the day's book-keeping alone, apart from the one
    entry of a call that is let through. *)
Lemma wait_if_needed_day l w :
  monotone w ->
  let '(r, l', w') := wait_if_needed l w in
  monotone w' /\ (time (time w).2).1 <= w_now w' /\
  calls_per_day l' = calls_per_day l /\ calls_per_minute l' = calls_per_minute l /\
  current_date l' = invocation_date w /\
  let before := if bool_decide (invocation_date w <> current_date l) then []
                else daily_calls l in
  (r = Py.Ok tt /\ Z.of_nat (length before) < calls_per_day l /\
   length (daily_calls l') = S (length before)) \/
  (r <> Py.Ok tt /\ daily_calls l' = before).
Proof.
  intros Hm. unfold wait_if_needed, invocation_date.
  pose proof second_pos as Hsec.
  destruct (time w) as [now w1] eqn:E1.
  pose proof (time_mono w Hm) as [Hle1 Hm1]. pose proof (time_now w) as Hn1.
  rewrite E1 in Hle1, Hm1, Hn1. simpl in *.
  destruct (time w1) as [dt w2] eqn:E2.
  pose proof (time_mono w1 Hm1) as [Hle2 Hm2]. pose proof (time_now w1) as Hn2.
  rewrite E2 in Hle2, Hm2, Hn2. simpl in *.
  set (today := date_of dt).
  set (l1 := if bool_decide (today <> current_date l) then reset_day l today else l).
  assert (Hl1 : calls_per_day l1 = calls_per_day l /\
                calls_per_minute l1 = calls_per_minute l /\
                current_date l1 = today /\
                daily_calls l1 = if bool_decide (today <> current_date l) then []
                                 else daily_calls l).
  { unfold l1. case_bool_decide as Hd; simpl; [done|].
    repeat split. destruct (decide (today = current_date l)); [done | contradiction]. }
  destruct Hl1 as (HD & HM & Hc & Hdaily).
  destruct (Z.geb_spec (Z.of_nat (length (daily_calls l1))) (calls_per_day l1)) as [Hcap|Hroom].
  - destruct (time w2) as [dt2 w3] eqn:E3.
    pose proof (time_mono w2 Hm2) as [Hle3 Hm3]. pose proof (time_now w2) as Hn3.
    rewrite E3 in Hle3, Hm3, Hn3. simpl in *.
    split; [done|]. split; [lia|]. split; [done|]. split; [done|]. split; [done|].
    right. split; [discriminate | done].
  - set (q1 := RateLimiter.prune (now - 60 * second) (minute_calls l1)).
    destruct (Z.geb_spec (Z.of_nat (length q1)) (calls_per_minute l1)) as [Hfull|Hfree].
    + destruct q1 as [|oldest q1'] eqn:Eq1.
      * split; [done|]. split; [lia|]. split; [done|]. split; [done|]. split; [done|].
        right. split; [discriminate | done].
      * pose proof (RateLimiterFacts.prune_head _ _ _ _ Eq1) as Hhead.
        rewrite sleep_ok by lia.
        set (w3 := World _ _ _).
        destruct (time w3) as [now2 w4] eqn:E4.
        assert (Hm3 : monotone w3) by exact Hm2.
        pose proof (time_mono w3 Hm3) as [Hle4 Hm4]. pose proof (time_now w3) as Hn4.
        rewrite E4 in Hle4, Hm4, Hn4. simpl in *.
        split; [done|]. split; [lia|]. split; [done|]. split; [done|]. split; [done|].
        left. split; [done|]. rewrite <- HD, <- Hdaily. split; [lia|].
        rewrite length_app. simpl. lia.
    + split; [done|]. split; [lia|]. split; [done|]. split; [done|]. split; [done|].
      left. split; [done|]. rewrite <- HD, <- Hdaily. split; [lia|].
      simpl. rewrite length_app. simpl. lia.
Qed.

Lemma wait_if_needed_counted D l w log :
  monotone w -> counted D l w log ->
  let '(r, l', w') := wait_if_needed l w in
  monotone w' /\ counted D l' w' (log ++ [(invocation_date w, r)]).
Proof.
  intros Hm (HD & Hnow & Hdates & Hcount & Hcap).
  pose proof (wait_if_needed_day l w Hm) as Hstep.
  assert (Htoday : current_date l <= invocation_date w).
  { unfold invocation_date.
    pose proof (time_mono w Hm) as [H1 Hm1].
    pose proof (time_mono _ Hm1) as [H2 _]. pose proof (time_now w) as Hn.
    etransitivity; [exact Hnow|]. apply date_of_mono. lia. }
  destruct (wait_if_needed l w) as [[r l'] w'].
  destruct Hstep as (Hm' & Hnow' & HD' & _ & Hc' & Hdaily).
  split; [done|].
  set (today := invocation_date w) in *.
  assert (Hbefore : admitted_on today log =
            length (if bool_decide (today <> current_date l) then [] else daily_calls l)).
  { case_bool_decide as Hd.
    - apply admitted_on_later. eapply Forall_impl; [exact Hdates|].
      intros e He. simpl in *. lia.
    - destruct (decide (today = current_date l)) as [->|]; [done | contradiction]. }
  unfold counted. rewrite Hc'. split; [congruence|].
  split; [apply date_of_mono; exact Hnow'|].
  split.
  { apply Forall_app. split.
    - eapply Forall_impl; [exact Hdates|]. intros e He. simpl in *. lia.
    - constructor; [simpl; lia | constructor]. }
  rewrite admitted_on_app, admitted_on_one.
  destruct Hdaily as [(-> & Hroom & Hlen)|(Hr & Hsame)].
  - rewrite bool_decide_eq_true_2 by done. split; [lia|].
    intros d. rewrite admitted_on_app, admitted_on_one.
    destruct (decide (today = d)) as [<-|Hne].
    + rewrite bool_decide_eq_true_2 by done. rewrite HD in Hroom. lia.
    + rewrite bool_decide_eq_false_2 by (intros [= ?]; done).
      specialize (Hcap d). lia.
  - rewrite bool_decide_eq_false_2 by (intros [= ?]; congruence).
    split; [rewrite Hsame; lia|].
    intros d. rewrite admitted_on_app, admitted_on_one.
    rewrite bool_decide_eq_false_2 by (intros [= ? ?]; congruence).
    specialize (Hcap d). lia.
Qed.

Lemma run_log_counted D n : forall l w log,
  monotone w -> counted D l w log ->
  forall d, Z.of_nat (admitted_on d (log ++ run_log n l w)) <= Z.max 0 D.
Proof.
  induction n as [|n IH]; intros l w log Hm Hc d; simpl.
  - rewrite app_nil_r. by destruct Hc as (_ & _ & _ & _ & Hcap).
  - pose proof (wait_if_needed_counted D l w log Hm Hc) as Hstep.
    destruct (wait_if_needed l w) as [[r l'] w'].
    destruct Hstep as (Hm' & Hc').
    specialize (IH l' w' _ Hm' Hc' d). by rewrite <- app_assoc in IH.
Qed.

(** X4.  The daily cap over a whole run.  Whatever the number of
    invocations of [wait_if_needed] on one limiter, and however they spread
    over the days, under a monotone clock no calendar date sees more than
    [calls_per_day] of them let through (none when the cap is zero or
    negative). *)
Theorem daily_cap_never_exceeded (M D : Z) (w : world) (n : nat) (d : Z) :
  monotone w ->
  let '(l, w0) := init M D w in
  Z.of_nat (admitted_on d (run_log n l w0)) <= Z.max 0 D.
Proof.
  intros Hm. unfold init.
  destruct (time w) as [now w0] eqn:E.
  pose proof (time_mono w Hm) as [Hle Hm0]. pose proof (time_now w) as Hn.
  rewrite E in Hle, Hm0, Hn. simpl in *.
  apply (run_log_counted D n _ w0 [] Hm0).
  unfold counted. simpl. rewrite Hn.
  split; [done|]. split; [lia|]. split; [constructor|]. split; [done|].
  intros d'. unfold admitted_on. simpl. lia.
Qed.

Lemma daily_cap_never_exceeded_witness :
  monotone (World (3600 * second) [] []) /\
  Z.of_nat (admitted_on 0 (run_log 4 (init 5 2 (World (3600 * second) [] [])).1
                             (init 5 2 (World (3600 * second) [] [])).2))
    <= Z.max 0 2.
Proof.
  split; [constructor|].
  apply (daily_cap_never_exceeded 5 2 (World (3600 * second) [] []) 4 0). constructor.
Defined.

Lemma wait_if_needed_within M D l w :
  monotone w -> within_limits M D l ->
  let '(_, l', w') := wait_if_needed l w in
  monotone w' /\ within_limits M D l'.
Proof.
  intros Hm (HM & HD & Hmin & Hday). unfold wait_if_needed.
  pose proof second_pos as Hsec.
  destruct (time w) as [now w1] eqn:E1.
  pose proof (time_mono w Hm) as [Hle1 Hm1]. pose proof (time_now w) as Hn1.
  rewrite E1 in Hle1, Hm1, Hn1. simpl in *.
  destruct (time w1) as [dt w2] eqn:E2.
  pose proof (time_mono w1 Hm1) as [Hle2 Hm2]. pose proof (time_now w1) as Hn2.
  rewrite E2 in Hle2, Hm2, Hn2. simpl in *.
  set (today := date_of dt).
  set (l1 := if bool_decide (today <> current_date l) then reset_day l today else l).
  assert (Hl1 : within_limits M D l1 /\ minute_calls l1 = minute_calls l).
  { unfold l1, within_limits. case_bool_decide; simpl; [|done].
    repeat split; try done. lia. }
  destruct Hl1 as ((HM1 & HD1 & Hmin1 & Hday1) & Hq).
  destruct (Z.geb_spec (Z.of_nat (length (daily_calls l1))) (calls_per_day l1)) as [Hcap|Hroom].
  - destruct (time w2) as [dt2 w3] eqn:E3.
    pose proof (time_mono w2 Hm2) as [Hle3 Hm3]. rewrite E3 in Hm3. simpl in *.
    by repeat split.
  - set (q1 := RateLimiter.prune (now - 60 * second) (minute_calls l1)).
    pose proof (RateLimiterFacts.prune_length (now - 60 * second) (minute_calls l1)) as Hlen1.
    fold q1 in Hlen1.
    destruct (Z.geb_spec (Z.of_nat (length q1)) (calls_per_minute l1)) as [Hfull|Hfree].
    + destruct q1 as [|oldest q1'] eqn:Eq1.
      * split; [done|]. unfold within_limits. simpl. repeat split; try done. lia.
      * pose proof (RateLimiterFacts.prune_head _ _ _ _ Eq1) as Hhead.
        rewrite sleep_ok by lia.
        set (w3 := World _ _ _).
        destruct (time w3) as [now2 w4] eqn:E4.
        assert (Hm3 : monotone w3) by exact Hm2.
        pose proof (time_mono w3 Hm3) as [Hle4 Hm4]. rewrite E4 in Hle4, Hm4.
        simpl in Hle4, Hm4.
        split; [done|]. unfold within_limits. simpl.
        split; [done|]. split; [done|].
        pose proof (RateLimiterFacts.prune_drops_old_head (now2 - 60 * second) oldest q1')
          as Hdrop.
        assert (Hold : oldest < now2 - 60 * second) by lia.
        specialize (Hdrop Hold).
        rewrite !length_app. simpl in *. lia.
    + split; [done|]. unfold within_limits. simpl.
      split; [done|]. split; [done|]. rewrite !length_app. simpl. lia.
Qed.

Lemma get_usage_stats_within M D l w :
  monotone w -> within_limits M D l ->
  let '(u, l', w') := get_usage_stats l w in
  monotone w' /\ within_limits M D l' /\
  0 <= calls_last_minute u <= Z.max 0 M /\ 0 <= calls_today u <= Z.max 0 D /\
  minute_limit u = M /\ daily_limit u = D /\
  minute_remaining u = M - calls_last_minute u /\
  daily_remaining u = D - calls_today u.
Proof.
  intros Hm (HM & HD & Hmin & Hday). unfold get_usage_stats.
  destruct (time w) as [now w1] eqn:E1.
  pose proof (time_mono w Hm) as [Hle1 Hm1]. rewrite E1 in Hm1. simpl in *.
  pose proof (RateLimiterFacts.prune_length (now - 60 * second) (minute_calls l)) as Hlen.
  split; [done|]. unfold within_limits. simpl.
  repeat split; try done; try lia.
Qed.

Lemma session_within M D calls : forall l w,
  monotone w -> within_limits M D l ->
  monotone (session calls l w).2 /\ within_limits M D (session calls l w).1.
Proof.
  induction calls as [|c calls IH]; intros l w Hm Hl; simpl; [done|].
  destruct c.
  - pose proof (wait_if_needed_within M D l w Hm Hl) as Hstep.
    destruct (wait_if_needed l w) as [[r l'] w']. destruct Hstep. by apply IH.
  - pose proof (get_usage_stats_within M D l w Hm Hl) as Hstep.
    destruct (get_usage_stats l w) as [[u l'] w']. destruct Hstep as (? & ? & _).
    by apply IH.
Qed.

(** X5.  The usage figures are never out of range.  After any session of
    [wait_if_needed] and [get_usage_stats] calls on a limiter created with
    limits that are not negative, under a monotone clock, [get_usage_stats]
    reports counts between zero and the limits, so that neither
    [minute_remaining] nor [daily_remaining] is ever negative. *)
Theorem usage_stats_within_limits (M D : Z) (w : world) (calls : list call) :
  0 <= M -> 0 <= D -> monotone w ->
  let '(l0, w0) := init M D w in
  let '(l, w') := session calls l0 w0 in
  let '(u, _, _) := get_usage_stats l w' in
  0 <= calls_last_minute u <= M /\ 0 <= calls_today u <= D /\
  0 <= minute_remaining u <= M /\ 0 <= daily_remaining u <= D /\
  minute_limit u = M /\ daily_limit u = D.
Proof.
  intros HM HD Hm. unfold init.
  destruct (time w) as [now w0] eqn:E.
  pose proof (time_mono w Hm) as [_ Hm0]. rewrite E in Hm0. simpl in Hm0.
  set (l0 := Limiter M D [] [] (date_of now)).
  assert (Hl0 : within_limits M D l0) by (unfold within_limits; simpl; lia).
  destruct (session_within M D calls l0 w0 Hm0 Hl0) as [Hm' Hl'].
  destruct (session calls l0 w0) as [l w']. simpl in *.
  pose proof (get_usage_stats_within M D l w' Hm' Hl') as Hu.
  destruct (get_usage_stats l w') as [[u l2] w2].
  destruct Hu as (_ & _ & H1 & H2 & H3 & H4 & H5 & H6). lia.
Qed.

Lemma usage_stats_within_limits_witness :
  let '(l0, w0) := init 5 25 (World 0 [] []) in
  let '(l, w') := session [WaitIfNeeded; GetUsageStats; WaitIfNeeded] l0 w0 in
  let '(u, _, _) := get_usage_stats l w' in
  0 <= calls_last_minute u <= 5 /\ 0 <= calls_today u <= 25 /\
  0 <= minute_remaining u <= 5 /\ 0 <= daily_remaining u <= 25 /\
  minute_limit u = 5 /\ daily_limit u = 25.
Proof.
  apply (usage_stats_within_limits 5 25 (World 0 [] [])
           [WaitIfNeeded; GetUsageStats; WaitIfNeeded]); [lia | lia | constructor].
Defined.

End AlphaVantageUsageFacts.

(** ** The throttle of the Polygon client *)

Module MassiveAPIClientFacts.
Import Clock ClockFacts MassiveAPIClient.

Section Transport.

Context {response : Type} (empty : response) (requests_get : string -> option response).

(** One request: it returns, the clock stays monotone, and if a request
    left the process its stamp is [MIN_INTERVAL] or more after the previous
    one; otherwise neither the client nor the clock was touched. *)
Lemma polygon_request_spaced (c : t) (w : world) (path : string) :
  monotone w ->
  exists data sent c' w',
    _polygon_request response empty requests_get c w path = Py.Ok (data, sent, c', w') /\
    monotone w' /\
    (if sent then _last_polygon_call c + MIN_INTERVAL <= _last_polygon_call c'
     else c' = c /\ w' = w /\ data = empty).
Proof.
  intros Hm. unfold _polygon_request.
  destruct (negb (has_requests c) || negb (has_key c)).
  { exists empty, false, c, w. by repeat split. }
  destruct (time w) as [now w1] eqn:E1.
  pose proof (time_mono w Hm) as [Hle1 Hm1]. pose proof (time_now w) as Hn1.
  rewrite E1 in Hle1, Hm1, Hn1. simpl in *.
  destruct (Z.ltb_spec (now - _last_polygon_call c) MIN_INTERVAL) as [Hsoon|Hlate].
  - rewrite sleep_ok by lia. cbn [Py.bind].
    set (w2 := World _ _ _).
    destruct (time w2) as [ts w3] eqn:E2.
    assert (Hm2 : monotone w2) by exact Hm1.
    pose proof (time_mono w2 Hm2) as [Hle2 Hm3]. rewrite E2 in Hle2, Hm3. simpl in *.
    destruct (requests_get path) as [data|];
      eexists _, true, _, w3; (split; [reflexivity|]); (split; [done|]); simpl; lia.
  - cbn [Py.bind].
    destruct (time w1) as [ts w3] eqn:E2.
    pose proof (time_mono w1 Hm1) as [Hle2 Hm3]. rewrite E2 in Hle2, Hm3. simpl in *.
    destruct (requests_get path) as [data|];
      eexists _, true, _, w3; (split; [reflexivity|]); (split; [done|]); simpl; lia.
Qed.

(** X6.  The throttle.  For every list of requests made one after the other
    through [_polygon_request] under a monotone clock, the calls all return,
    and the stamps [_last_polygon_call] of the requests that left the process
    are at least 0.2 seconds apart, the first of them at least 0.2 seconds
    after the stamp the client started with. *)
Theorem polygon_requests_are_spaced (c : t) (w : world) (paths : list string) :
  monotone w ->
  exists stamps,
    request_stamps response empty requests_get c w paths = Py.Ok stamps /\
    spaced (_last_polygon_call c) stamps.
Proof.
  revert c w. induction paths as [|path paths IH]; intros c w Hm; simpl.
  - by exists [].
  - destruct (polygon_request_spaced c w path Hm) as (data & sent & c' & w' & -> & Hm' & Hs).
    cbn [Py.bind].
    destruct (IH c' w' Hm') as (stamps & -> & Hsp). cbn [Py.bind].
    eexists. split; [reflexivity|].
    destruct sent.
    + simpl. done.
    + destruct Hs as (-> & _ & _). done.
Qed.

End Transport.

Lemma polygon_requests_are_spaced_witness :
  monotone (World 0 [] []) /\
  exists stamps,
    request_stamps unit tt (fun _ => Some tt) (init false (Some "key"%string) true)
      (World 0 [] []) ["/v3/reference/tickers/SPY"; "/v3/reference/tickers/QQQ"]%string
      = Py.Ok stamps /\
    spaced 0 stamps.
Proof.
  split; [constructor|].
  apply (polygon_requests_are_spaced tt (fun _ => Some tt)
           (init false (Some "key"%string) true) (World 0 [] [])). constructor.
Defined.

End MassiveAPIClientFacts.

(** ** The staleness cache, the yield normaliser and the holdings writer *)

Module AutonomousEquityAnalystFacts.
Import PyVal PyValFacts AutonomousEquityAnalyst Samples.
Local Open Scope string_scope.

Lemma truthy_text text : text <> "" -> truthy (VStr text) = true.
Proof.
  intros H. simpl. destruct (String.eqb_spec text ""); [done | reflexivity].
Qed.

(** The read on a row whose timestamp parses. *)
Lemma load_parsed strptime d now ticker row text lu :
  securities d !! PyStr.upper ticker = Some row ->
  get row "last_updated" = VStr text -> text <> "" ->
  parse_last_updated strptime text = Some lu ->
  _load_security_from_db strptime d now ticker =
    if is_stale now lu then Py.Ok None
    else if populated row then Py.Ok (Some (cached_security row)) else Py.Ok None.
Proof.
  intros Hrow Hlu Htext Hparse. unfold _load_security_from_db.
  rewrite Hrow, Hlu, (truthy_text text Htext), Hparse. simpl.
  destruct (is_stale now lu); [done|].
  by destruct (populated row).
Qed.

(** The columns of the dict a cache hit returns: nineteen of the columns
    of the stored row, with the symbol standing in for a missing name, ['']
    for a missing description and ['USD'] for a missing currency. *)
Lemma cached_security_columns row :
  get (cached_security row) "symbol" = get row "symbol" /\
  get (cached_security row) "name" = or_else (get row "name") (get row "symbol") /\
  get (cached_security row) "description" = or_else (get row "description") (VStr "") /\
  get (cached_security row) "currency" = or_else (get row "currency") (VStr "USD") /\
  (forall k, k ∈ ["asset_type"; "market_cap"; "sector"; "industry"; "exchange";
                  "current_price"; "pe_ratio"; "dividend_yield"; "year_performance";
                  "fifty_two_week_high"; "fifty_two_week_low"; "beta"; "volume";
                  "avg_volume"; "expense_ratio"] ->
             get (cached_security row) k = get row k) /\
  (forall k, is_Some (cached_security row !! k) <->
             k ∈ ["symbol"; "name"; "asset_type"; "market_cap"; "sector"; "industry";
                  "description"; "exchange"; "currency"; "current_price"; "pe_ratio";
                  "dividend_yield"; "year_performance"; "fifty_two_week_high";
                  "fifty_two_week_low"; "beta"; "volume"; "avg_volume";
                  "expense_ratio"]).
Proof.
  unfold cached_security.
  split; [by get_column|]. split; [by get_column|].
  split; [by get_column|]. split; [by get_column|].
  split.
  - intros k Hk.
    repeat (apply elem_of_cons in Hk as [-> | Hk]; [by get_column|]).
    by apply elem_of_nil in Hk.
  - intros k. rewrite <- elem_of_dom, dom_list_to_map_L, elem_of_list_to_set. done.
Qed.

(** C3.  For a stored record whose [last_updated] parses to [lu]: the read
    returns absent when [now - lu] exceeds seven days; otherwise it returns
    the record when the price or the year performance is set (and absent when
    neither is).  Two populated records with the same timestamp, whatever
    their other columns and whichever table they sit in, are both returned
    or both withheld.  What is returned is the stored record, column by
    column: the symbol, the name (the symbol when the name is empty), the
    description (['']  when empty), the currency (['USD'] when empty) and
    fifteen further columns exactly as stored; the dict has these nineteen
    keys and no other. *)
Theorem cache_read_fresh_for_seven_days
    (strptime : string -> string -> option Z)
    (d : db) (now : Z) (ticker : string) (row : dict) (text : string) (lu : Z) :
  securities d !! PyStr.upper ticker = Some row ->
  get row "last_updated" = VStr text -> text <> "" ->
  parse_last_updated strptime text = Some lu ->
  (now - lu > 7 * Clock.day ->
   _load_security_from_db strptime d now ticker = Py.Ok None) /\
  (now - lu <= 7 * Clock.day -> populated row = true ->
   _load_security_from_db strptime d now ticker = Py.Ok (Some (cached_security row))) /\
  (now - lu <= 7 * Clock.day -> populated row = false ->
   _load_security_from_db strptime d now ticker = Py.Ok None) /\
  (forall d' ticker' row',
     securities d' !! PyStr.upper ticker' = Some row' ->
     get row' "last_updated" = VStr text ->
     populated row = true -> populated row' = true ->
     (_load_security_from_db strptime d now ticker = Py.Ok None <->
      _load_security_from_db strptime d' now ticker' = Py.Ok None)) /\
  (forall c, _load_security_from_db strptime d now ticker = Py.Ok (Some c) ->
     now - lu <= 7 * Clock.day /\ populated row = true /\
     get c "symbol" = get row "symbol" /\
     get c "name" = or_else (get row "name") (get row "symbol") /\
     get c "description" = or_else (get row "description") (VStr "") /\
     get c "currency" = or_else (get row "currency") (VStr "USD") /\
     (forall k, k ∈ ["asset_type"; "market_cap"; "sector"; "industry"; "exchange";
                     "current_price"; "pe_ratio"; "dividend_yield"; "year_performance";
                     "fifty_two_week_high"; "fifty_two_week_low"; "beta"; "volume";
                     "avg_volume"; "expense_ratio"] ->
                get c k = get row k) /\
     (forall k, is_Some (c !! k) <->
                k ∈ ["symbol"; "name"; "asset_type"; "market_cap"; "sector"; "industry";
                     "description"; "exchange"; "currency"; "current_price"; "pe_ratio";
                     "dividend_yield"; "year_performance"; "fifty_two_week_high";
                     "fifty_two_week_low"; "beta"; "volume"; "avg_volume";
                     "expense_ratio"])).
Proof.
  intros Hrow Hlu Htext Hparse.
  pose proof (load_parsed strptime d now ticker row text lu Hrow Hlu Htext Hparse) as Hload.
  assert (Hstale : is_stale now lu = true <-> now - lu > 7 * Clock.day).
  { unfold is_stale, STALENESS_DAYS. destruct (Z.gtb_spec (now - lu) (7 * Clock.day)); split; (done || lia). }
  split; [|split; [|split; [|split]]].
  - intros Hold. apply Hstale in Hold. by rewrite Hload, Hold.
  - intros Hfresh Hpop. rewrite Hload, Hpop.
    destruct (is_stale now lu); [pose proof (proj1 Hstale eq_refl); lia | done].
  - intros Hfresh Hpop. rewrite Hload, Hpop.
    by destruct (is_stale now lu).
  - intros d' ticker' row' Hrow' Hlu' Hpop Hpop'.
    rewrite Hload, (load_parsed strptime d' now ticker' row' text lu) by done.
    rewrite Hpop, Hpop'. by destruct (is_stale now lu).
  - intros c. rewrite Hload.
    destruct (is_stale now lu) eqn:Es; [done|].
    destruct (populated row) eqn:Ep; [|done].
    intros [= <-].
    split.
    { destruct (Z.gtb_spec (now - lu) (7 * Clock.day)) as [Hgt|Hle]; [|lia].
      assert (false = true) by (apply Hstale; lia). done. }
    split; [done|]. apply cached_security_columns.
Qed.

Lemma cache_read_fresh_for_seven_days_witness :
  _load_security_from_db sample_strptime sample_db (4 * Clock.day) "spy"
    = Py.Ok (Some (list_to_map [
        ("symbol", VStr "SPY"); ("name", VStr "SPY"); ("asset_type", VNone);
        ("market_cap", VNone); ("sector", VNone); ("industry", VNone);
        ("description", VStr ""); ("exchange", VNone); ("currency", VStr "USD");
        ("current_price", VNum 480); ("pe_ratio", VNone); ("dividend_yield", VNone);
        ("year_performance", VNone); ("fifty_two_week_high", VNone);
        ("fifty_two_week_low", VNone); ("beta", VNone); ("volume", VNone);
        ("avg_volume", VNone); ("expense_ratio", VNone)])) /\
  _load_security_from_db sample_strptime sample_db (11 * Clock.day) "spy" = Py.Ok None.
Proof.
  split.
  - etransitivity.
    + refine (proj1 (proj2 (cache_read_fresh_for_seven_days sample_strptime sample_db
        (4 * Clock.day) "spy" sample_row "2024-01-02 00:00:00" (1 * Clock.day) _ _ _ _)) _ _).
      * reflexivity.
      * reflexivity.
      * discriminate.
      * reflexivity.
      * vm_compute. discriminate.
      * reflexivity.
    + vm_compute. reflexivity.
  - refine (proj1 (cache_read_fresh_for_seven_days sample_strptime sample_db
      (11 * Clock.day) "spy" sample_row "2024-01-02 00:00:00" (1 * Clock.day) _ _ _ _) _).
    + reflexivity.
    + reflexivity.
    + discriminate.
    + reflexivity.
    + reflexivity.
Defined.

Lemma normalize_number py_float (v : Q) :
  _normalize_dividend_yield py_float (VNum v) =
    if Qltb 0 v && Qltb v 0.1 then VNum (v * 100)%Q else VNum v.
Proof. reflexivity. Qed.

(** C8, as the code has it.  A numeric dividend yield strictly between 0 and
    0.1 is stored multiplied by 100; every other number (zero, negative, or
    at least 0.1) is stored unchanged; and the row [save_security] writes
    carries the normalised value of the yield it was given. *)
Theorem dividend_yield_scaled_between_zero_and_tenth
    (py_float : string -> option Q) (py_str : Q -> string) (v : Q) :
  ((0 < v)%Q -> (v < 0.1)%Q ->
   _normalize_dividend_yield py_float (VNum v) = VNum (v * 100)%Q) /\
  ((v <= 0)%Q \/ (0.1 <= v)%Q ->
   _normalize_dividend_yield py_float (VNum v) = VNum v) /\
  (forall (d d' : db) (security : dict) (now_text : string),
     save_security py_float py_str d security now_text = Py.Ok d' ->
     exists key row,
       security !! "symbol" = Some (VStr key) /\
       securities d' !! key = Some row /\
       get row "dividend_yield" =
         _normalize_dividend_yield py_float (get security "dividend_yield")).
Proof.
  split; [|split].
  - intros H0 H1. rewrite normalize_number.
    apply Qltb_lt in H0, H1. by rewrite H0, H1.
  - intros H. rewrite normalize_number.
    destruct H as [H|H]; apply Qltb_ge in H; rewrite H; [done|].
    by rewrite andb_false_r.
  - intros d d' security now_text. unfold save_security.
    destruct (security !! "symbol") as [symbol|]; [|done].
    destruct (security !! "name") as [name|]; [|done].
    destruct symbol as [|key|]; try done.
    intros [= <-]. exists key, (security_row py_float py_str security (VStr key) name now_text).
    split; [done|]. split; [apply lookup_insert_eq|].
    unfold security_row. get_column. done.
Qed.

Lemma dividend_yield_scaled_between_zero_and_tenth_witness :
  _normalize_dividend_yield sample_float (VNum 0.025) = VNum (0.025 * 100)%Q /\
  _normalize_dividend_yield sample_float (VNum 2.5) = VNum 2.5.
Proof.
  split.
  - refine (proj1 (dividend_yield_scaled_between_zero_and_tenth
                     sample_float sample_str 0.025) _ _); reflexivity.
  - refine (proj1 (proj2 (dividend_yield_scaled_between_zero_and_tenth
                            sample_float sample_str 2.5)) _).
    right. discriminate.
Defined.

(** C8, as stated, fails below zero: -0.05 is less than 0.1 and is stored
    as it is, not as -5. *)
Lemma dividend_yield_negative_not_scaled :
  (-0.05 < 0.1)%Q /\
  _normalize_dividend_yield sample_float (VNum (-0.05)) = VNum (-0.05) /\
  ~ (-0.05 == -0.05 * 100)%Q.
Proof. split; [reflexivity|]. split; [reflexivity | discriminate]. Qed.

(** What one turn of the loop does to [etf_holdings]. *)
Lemma save_one_holding_holdings E src now d h d' :
  save_one_holding E src now d h = Py.Ok d' ->
  exists c0, constituent_symbol h = Py.Ok c0 /\
    etf_holdings d' =
      if String.eqb c0 "" then etf_holdings d
      else <[(E, c0) := holding_row E c0 h src now]> (etf_holdings d).
Proof.
  unfold save_one_holding.
  destruct (constituent_symbol h) as [c0|e]; simpl; [|done].
  intros H. exists c0. split; [done|].
  destruct (String.eqb c0 ""); [by injection H as <-|].
  destruct (or_else (get h "name") (VStr c0)); try done.
  destruct (is_none (get h "holding_percent")); [done|].
  by injection H as <-.
Qed.

Lemma save_one_holding_well_formed E src now d h :
  well_formed_holding h -> exists d', save_one_holding E src now d h = Py.Ok d'.
Proof.
  intros ((s & Hs) & (n & Hn) & Hpct). unfold save_one_holding, constituent_symbol.
  rewrite Hs, Hn, Hpct. unfold or_else.
  destruct (truthy (VStr s)); cbn [Py.bind];
    (destruct (String.eqb _ ""); [by eexists|]);
    destruct (truthy (VStr n)); by eexists.
Qed.

Lemma save_holdings_loop_well_formed E src now hs : forall d,
  Forall well_formed_holding hs ->
  exists d', save_holdings_loop E src now d hs = Py.Ok d'.
Proof.
  induction hs as [|h hs IH]; intros d Hwf; simpl; [by eexists|].
  inversion Hwf as [|? ? Hh Hhs]; subst.
  destruct (save_one_holding_well_formed E src now d h Hh) as (d1 & ->). simpl.
  by apply IH.
Qed.

(** Rows of other ETFs, and rows of constituents the new set does not name,
    are as they were. *)
Lemma save_holdings_loop_unchanged E src now hs : forall d d' e c,
  save_holdings_loop E src now d hs = Py.Ok d' ->
  e <> E \/ c = "" \/ Forall (fun h => constituent_symbol h <> Py.Ok c) hs ->
  etf_holdings d' !! (e, c) = etf_holdings d !! (e, c).
Proof.
  induction hs as [|h hs IH]; intros d d' e c; simpl.
  - by intros [= <-] _.
  - destruct (save_one_holding E src now d h) as [d1|] eqn:E1; simpl; [|done].
    intros Hloop Hkey.
    destruct (save_one_holding_holdings _ _ _ _ _ _ E1) as (c0 & Hc0 & Hd1).
    rewrite (IH d1 d' e c Hloop).
    + rewrite Hd1. destruct (String.eqb_spec c0 ""); [done|].
      apply lookup_insert_ne. intros [= <- <-].
      destruct Hkey as [?|[?|Hall]]; [done | done |].
      inversion Hall; subst. done.
    + destruct Hkey as [?|[?|Hall]]; [by left | by right; left |].
      right; right. by inversion Hall.
Qed.

(** Every constituent the new set names is stored, with the row of the last
    holding that names it. *)
Lemma save_holdings_loop_written E src now hs : forall d d' c,
  save_holdings_loop E src now d hs = Py.Ok d' ->
  c <> "" ->
  Exists (fun h => constituent_symbol h = Py.Ok c) hs ->
  exists h', h' ∈ hs /\ constituent_symbol h' = Py.Ok c /\
             etf_holdings d' !! (E, c) = Some (holding_row E c h' src now).
Proof.
  induction hs as [|h hs IH]; intros d d' c; simpl.
  - intros _ _ H. inversion H.
  - destruct (save_one_holding E src now d h) as [d1|] eqn:E1; simpl; [|done].
    intros Hloop Hc Hex.
    destruct (decide (Exists (fun h => constituent_symbol h = Py.Ok c) hs)) as [Hlater|Hnone].
    + destruct (IH d1 d' c Hloop Hc Hlater) as (h' & Hin & Hsym & Hrow).
      exists h'. split; [by right | done].
    + inversion Hex as [? ? Hh|? ? Hrest]; subst; [|done].
      exists h. split; [by left|]. split; [done|].
      rewrite (save_holdings_loop_unchanged E src now hs d1 d' E c Hloop).
      * destruct (save_one_holding_holdings _ _ _ _ _ _ E1) as (c0 & Hc0 & Hd1).
        rewrite Hh in Hc0. injection Hc0 as <-.
        rewrite Hd1. destruct (String.eqb_spec c ""); [done|].
        apply lookup_insert_eq.
      * right; right. by apply Forall_Exists_neg.
Qed.

(** C9, as the code has it.  [save_etf_holdings] upserts: it returns on
    holdings shaped as [fetch_etf_holdings] builds them; when it returns,
    every constituent named by the new set is stored for the ETF with the row
    of a holding of the new set, and every other row of the table (other
    ETFs, and constituents of this ETF that the new set does not name) is
    exactly as it was before the call. *)
Theorem save_etf_holdings_upserts
    (d : db) (etf_symbol : string) (holdings : list dict) (source now_text : string) :
  (Forall well_formed_holding holdings ->
   exists d', save_etf_holdings d etf_symbol holdings source now_text = Py.Ok d') /\
  (forall d', save_etf_holdings d etf_symbol holdings source now_text = Py.Ok d' ->
     (forall h c, h ∈ holdings -> constituent_symbol h = Py.Ok c -> c <> "" ->
        exists h', h' ∈ holdings /\ constituent_symbol h' = Py.Ok c /\
          etf_holdings d' !! (PyStr.upper etf_symbol, c) =
            Some (holding_row (PyStr.upper etf_symbol) c h' source now_text)) /\
     (forall e c,
        e <> PyStr.upper etf_symbol \/ c = "" \/
        (forall h, h ∈ holdings -> constituent_symbol h <> Py.Ok c) ->
        etf_holdings d' !! (e, c) = etf_holdings d !! (e, c))).
Proof.
  split.
  - intros Hwf. unfold save_etf_holdings. destruct holdings as [|h hs]; [by eexists|].
    by apply save_holdings_loop_well_formed.
  - intros d' Hsave.
    assert (Hloop : save_holdings_loop (PyStr.upper etf_symbol) source now_text d holdings
                    = Py.Ok d').
    { unfold save_etf_holdings in Hsave. by destruct holdings. }
    split.
    + intros h c Hin Hsym Hc.
      eapply save_holdings_loop_written; eauto.
      apply Exists_exists. eauto.
    + intros e c Hkey. eapply save_holdings_loop_unchanged; eauto.
      destruct Hkey as [?|[?|Hall]]; [by left | by right; left |].
      right; right. by apply Forall_forall.
Qed.

Lemma save_etf_holdings_upserts_witness :
  exists d', save_etf_holdings holdings_db "spy" new_holdings "yahoo" "2024-02-01 00:00:00"
             = Py.Ok d'.
Proof.
  refine (proj1 (save_etf_holdings_upserts holdings_db "spy" new_holdings "yahoo"
                   "2024-02-01 00:00:00") _).
  repeat constructor; by eexists.
Defined.

(** C9, as stated, fails: SPY held AAPL; a refresh that brings only MSFT
    leaves the AAPL row in place next to the new one. *)
Lemma stale_holding_survives_refresh :
  exists d', save_etf_holdings holdings_db "spy" new_holdings "yahoo" "2024-02-01 00:00:00"
             = Py.Ok d' /\
    etf_holdings d' !! ("SPY", "AAPL") = etf_holdings holdings_db !! ("SPY", "AAPL") /\
    ~ holdings_replaced d' "spy" new_holdings.
Proof.
  eexists. split; [reflexivity|]. split; [reflexivity|].
  intros Hrep. destruct (proj1 (Hrep "AAPL")) as (_ & h & Hin & Hsym).
  - by eexists.
  - apply list_elem_of_singleton in Hin. subst h. discriminate Hsym.
Qed.

End AutonomousEquityAnalystFacts.

(** ** The store: round trips, normalisers, holdings *)

Module StoreFacts.
Import PyVal PyValFacts PyStrFacts AutonomousEquityAnalyst AutonomousEquityAnalystFacts Samples.
Local Open Scope string_scope.

Section Environment.

Context (py_float : string -> option Q) (py_str : Q -> string)
        (strptime : string -> string -> option Z).

Lemma save_security_row d security now_text d' :
  save_security py_float py_str d security now_text = Py.Ok d' ->
  exists key name,
    security !! "symbol" = Some (VStr key) /\ security !! "name" = Some name /\
    securities d' = <[key := security_row py_float py_str security (VStr key) name now_text]>
                      (securities d) /\
    etf_holdings d' = etf_holdings d.
Proof.
  unfold save_security.
  destruct (security !! "symbol") as [symbol|]; [|done].
  destruct (security !! "name") as [name|]; [|done].
  destruct symbol as [|key|]; try done.
  intros [= <-]. by exists key, name.
Qed.

(** X7.  A saved record is served from the cache.  After [save_security],
    and for seven days from the time written to [last_updated], a fetch of
    the symbol (in any letter case) makes no upstream request and returns the
    stored record, with the price figures as they were saved, provided the
    symbol was saved in upper case and the record has a price or a year
    performance. *)
Theorem saved_security_is_served_from_cache
    (d d' : db) (security : dict) (now_text key ticker : string) (written now : Z)
    (y : yahoo) :
  save_security py_float py_str d security now_text = Py.Ok d' ->
  security !! "symbol" = Some (VStr key) ->
  PyStr.upper ticker = key ->
  now_text <> "" ->
  parse_last_updated strptime now_text = Some written ->
  now - written <= 7 * Clock.day ->
  get security "current_price" <> VNone \/ get security "year_performance" <> VNone ->
  exists cached,
    _fetch_security_data py_float py_str strptime d' now y ticker = Py.Ok (Some cached, []) /\
    get cached "symbol" = VStr key /\
    get cached "current_price" = get security "current_price" /\
    get cached "year_performance" = get security "year_performance" /\
    get cached "pe_ratio" = get security "pe_ratio" /\
    get cached "market_cap" = get security "market_cap" /\
    get cached "dividend_yield" =
      _normalize_dividend_yield py_float (get security "dividend_yield").
Proof.
  intros Hsave Hsym Hup Htext Hparse Hfresh Hpop.
  destruct (save_security_row _ _ _ _ Hsave) as (key' & name & Hsym' & Hname & Hsecs & _).
  rewrite Hsym in Hsym'. injection Hsym' as <-.
  set (row := security_row py_float py_str security (VStr key) name now_text) in *.
  assert (Hrow : securities d' !! PyStr.upper (PyStr.upper ticker) = Some row).
  { rewrite upper_idem, Hup, Hsecs. apply lookup_insert_eq. }
  assert (Hlu : get row "last_updated" = VStr now_text).
  { unfold row, security_row. by get_column. }
  assert (Hcp : get row "current_price" = get security "current_price").
  { unfold row, security_row. by get_column. }
  assert (Hyp : get row "year_performance" = get security "year_performance").
  { unfold row, security_row. by get_column. }
  assert (Hrowpop : populated row = true).
  { unfold populated. rewrite Hcp, Hyp.
    destruct Hpop as [H|H]; [destruct (get security "current_price") |
      destruct (get security "year_performance")]; try done;
      by rewrite ?andb_false_r. }
  exists (cached_security row). split.
  - unfold _fetch_security_data.
    rewrite (load_parsed strptime d' now (PyStr.upper ticker) row now_text written
               Hrow Hlu Htext Hparse).
    unfold is_stale, STALENESS_DAYS.
    destruct (Z.gtb_spec (now - written) (7 * Clock.day)); [lia|].
    by rewrite Hrowpop.
  - unfold cached_security.
    repeat split; get_column; unfold row, security_row; by get_column.
Qed.

Lemma normalize_of_float v q :
  to_float py_float v = Some q ->
  _normalize_dividend_yield py_float v =
    if Qltb 0 q && Qltb q 0.1 then VNum (q * 100)%Q else VNum q.
Proof.
  intros Hq. unfold _normalize_dividend_yield. destruct v; [done| |]; by rewrite Hq.
Qed.

Lemma normalize_twice (v : value) :
  match to_float py_float v with
  | None =>
      _normalize_dividend_yield py_float (_normalize_dividend_yield py_float v) = VNone
  | Some q =>
      ((q <= 0)%Q \/ (0.001 <= q)%Q ->
       _normalize_dividend_yield py_float (_normalize_dividend_yield py_float v)
         = _normalize_dividend_yield py_float v) /\
      ((0 < q)%Q -> (q < 0.001)%Q ->
       _normalize_dividend_yield py_float (_normalize_dividend_yield py_float v)
         = VNum (q * 100 * 100)%Q)
  end.
Proof.
  destruct (to_float py_float v) as [q|] eqn:Hq.
  - rewrite (normalize_of_float v q Hq). split.
    + intros Hrange.
      destruct (Qltb 0 q && Qltb q 0.1) eqn:E.
      * apply andb_true_iff in E as [H0 H1]. apply Qltb_lt in H0, H1.
        rewrite normalize_number.
        assert (H2 : Qltb (q * 100) 0.1 = false) by (apply Qltb_ge; lra).
        by rewrite H2, andb_false_r.
      * rewrite normalize_number. by rewrite E.
    + intros H0 H1.
      assert (E : Qltb 0 q && Qltb q 0.1 = true).
      { apply andb_true_iff. split; apply Qltb_lt; lra. }
      rewrite E, normalize_number.
      assert (E2 : Qltb 0 (q * 100) && Qltb (q * 100) 0.1 = true).
      { apply andb_true_iff. split; apply Qltb_lt; lra. }
      by rewrite E2.
  - unfold _normalize_dividend_yield. destruct v; [done| |]; by rewrite Hq.
Qed.

Lemma security_data_column ticker info history k :
  k <> "year_performance" ->
  get (security_data_of_info py_float py_str ticker info history) k =
  get (security_data_of_info py_float py_str ticker info (Some [])) k.
Proof.
  intros Hk. unfold security_data_of_info.
  destruct history as [[|year_start rest]|]; [done | |]; by rewrite get_insert_other.
Qed.

(** X8.  The dividend yield after a fetch and a save.  The record built
    from [stock.info] always saves; the yield stored for it is the yield of
    Yahoo Finance normalised twice, once by the fetch and once by the save: a
    yield that is not positive or at least 0.001 is stored as normalised
    once, a yield strictly between 0 and 0.001 is stored multiplied by 100
    twice, and a yield that is missing or unreadable is stored as NULL. *)
Theorem fetched_yield_is_normalised_twice
    (d : db) (ticker : string) (info : dict) (history : option (list Q))
    (now_text : string) :
  let raw := get info "dividendYield" in
  exists d' row,
    save_security py_float py_str d
      (security_data_of_info py_float py_str ticker info history) now_text = Py.Ok d' /\
    securities d' !! PyStr.upper ticker = Some row /\
    match to_float py_float raw with
    | None => get row "dividend_yield" = VNone
    | Some q =>
        ((q <= 0)%Q \/ (0.001 <= q)%Q ->
         get row "dividend_yield" = _normalize_dividend_yield py_float raw) /\
        ((0 < q)%Q -> (q < 0.001)%Q ->
         get row "dividend_yield" = VNum (q * 100 * 100)%Q)
    end.
Proof.
  intros raw.
  set (security := security_data_of_info py_float py_str ticker info history).
  assert (Hsym : security !! "symbol" = Some (VStr (PyStr.upper ticker))).
  { unfold security, security_data_of_info.
    destruct history as [[|year_start rest]|]; rewrite ?lookup_insert_ne by done;
      reflexivity. }
  assert (Hname : is_Some (security !! "name")).
  { unfold security, security_data_of_info.
    destruct history as [[|year_start rest]|]; rewrite ?lookup_insert_ne by done;
      by eexists. }
  destruct Hname as [name Hname].
  assert (Hdy : get security "dividend_yield" = _normalize_dividend_yield py_float raw).
  { unfold security. rewrite security_data_column by done.
    unfold security_data_of_info. by get_column. }
  eexists _, (security_row py_float py_str security (VStr (PyStr.upper ticker)) name now_text).
  split; [|split].
  - unfold save_security. rewrite Hsym, Hname. reflexivity.
  - simpl. apply lookup_insert_eq.
  - assert (Hrow : get (security_row py_float py_str security (VStr (PyStr.upper ticker))
                          name now_text) "dividend_yield"
                   = _normalize_dividend_yield py_float
                       (_normalize_dividend_yield py_float raw)).
    { unfold security_row. get_column. by rewrite Hdy. }
    rewrite Hrow. apply normalize_twice.
Qed.

Lemma normalize_text_idem (normalize : value -> value) v :
  (forall v, normalize v =
     if is_none v || String.eqb (PyStr.strip (to_str py_str v)) "" then VNone
     else VStr (PyStr.upper (PyStr.strip (to_str py_str v)))) ->
  normalize (normalize v) = normalize v.
Proof.
  intros Hdef. rewrite (Hdef v).
  destruct (is_none v || String.eqb (PyStr.strip (to_str py_str v)) "") eqn:E.
  - by rewrite Hdef.
  - rewrite Hdef. simpl.
    apply orb_false_iff in E as [_ E].
    rewrite strip_upper, strip_idem, upper_idem.
    destruct (String.eqb_spec (PyStr.upper (PyStr.strip (to_str py_str v))) "") as [Hnil|]; [|done].
    apply (proj1 (upper_nil _)) in Hnil. rewrite Hnil in E. discriminate.
Qed.

(** X9.  The currency and exchange normalisers are idempotent: what they
    return (an upper-case code without surrounding white space, or [None])
    is returned unchanged when normalised again, so that a record normalised
    at fetch time is stored by [save_security] with the same codes. *)
Theorem currency_and_exchange_normalised_once (v : value) :
  _normalize_currency py_str (_normalize_currency py_str v) = _normalize_currency py_str v /\
  _normalize_exchange py_str (_normalize_exchange py_str v) = _normalize_exchange py_str v /\
  (forall s, _normalize_currency py_str v = VStr s ->
     s <> "" /\ PyStr.upper s = s /\ PyStr.strip s = s).
Proof.
  split; [|split].
  - by apply normalize_text_idem.
  - by apply normalize_text_idem.
  - intros s. unfold _normalize_currency.
    destruct (is_none v || String.eqb (PyStr.strip (to_str py_str v)) "") eqn:E; [done|].
    intros [= <-]. apply orb_false_iff in E as [_ E].
    split; [|split].
    + intros Hnil. apply (proj1 (upper_nil _)) in Hnil. rewrite Hnil in E. discriminate.
    + apply upper_idem.
    + by rewrite strip_upper, strip_idem.
Qed.

(** A holding built by [fetch_etf_holdings]: its symbol is upper-case text
    without surrounding white space, which is also what [save_etf_holdings]
    reads as the constituent. *)
Lemma holding_of_row_shape rank symbol row h :
  holding_of_row py_float py_str rank symbol row = Some h ->
  well_formed_holding h /\
  exists s, get h "symbol" = VStr s /\ s <> "" /\
            constituent_symbol h = Py.Ok s /\
            get h "holding_rank" = VNum (inject_Z rank).
Proof.
  unfold holding_of_row.
  destruct (truthy symbol); [|done].
  set (s := PyStr.upper (PyStr.strip (to_str py_str symbol))).
  destruct (String.eqb_spec s "") as [|Hs]; [done|].
  intros [= <-].
  unfold well_formed_holding, constituent_symbol.
  rewrite !get_insert. cbn [String.eqb Ascii.eqb Bool.eqb].
  split.
  - split; [by exists s|]. split; [|done].
    destruct (truthy (get_or row "Name" (VStr ""))); by eexists.
  - exists s. split; [done|]. split; [done|]. split; [|done].
    unfold or_else. rewrite (truthy_text s Hs).
    f_equal. unfold s. by rewrite strip_upper, strip_idem, upper_idem.
Qed.

Lemma holdings_of_rows_shape rows : forall rank,
  Forall (fun h => well_formed_holding h /\
            exists s, get h "symbol" = VStr s /\ s <> "" /\
                      constituent_symbol h = Py.Ok s)
         (holdings_of_rows py_float py_str rank rows).
Proof.
  induction rows as [|[symbol row] rows IH]; intros rank; simpl; [constructor|].
  destruct (holding_of_row py_float py_str rank symbol row) as [h|] eqn:E; [|apply IH].
  constructor; [|apply IH].
  destruct (holding_of_row_shape _ _ _ _ E) as (Hwf & s & H1 & H2 & H3 & _).
  split; [done|]. by exists s.
Qed.

(** What one turn of the loop of [save_etf_holdings] does to [securities]:
    rows that exist stay as they are, and the constituent has a row
    afterwards. *)
Lemma save_one_holding_securities E src now_text d h d' :
  save_one_holding E src now_text d h = Py.Ok d' ->
  (forall k row, securities d !! k = Some row -> securities d' !! k = Some row) /\
  (forall c, constituent_symbol h = Py.Ok c -> c <> "" ->
     is_Some (securities d' !! c) /\
     etf_holdings d' = <[(E, c) := holding_row E c h src now_text]> (etf_holdings d)) /\
  (constituent_symbol h = Py.Ok "" -> d' = d).
Proof.
  unfold save_one_holding.
  destruct (constituent_symbol h) as [c0|e]; simpl; [|done].
  destruct (String.eqb_spec c0 "") as [->|Hc0].
  { intros [= <-]. split; [done|]. split; [|done]. by intros c [= <-]. }
  destruct (or_else (get h "name") (VStr c0)) as [|name|]; try done.
  destruct (is_none (get h "holding_percent")); [done|].
  intros [= <-]. simpl. split; [|split].
  - intros k row Hk. destruct (securities d !! c0) eqn:Ec; [done|].
    rewrite lookup_insert_ne; [done|]. intros <-. congruence.
  - intros c [= <-] _. split; [|done].
    destruct (securities d !! c0) eqn:Ec; [by rewrite Ec|].
    rewrite lookup_insert_eq. by eexists.
  - intros [= ?]. done.
Qed.

Lemma save_holdings_loop_securities E src now_text hs : forall d d',
  save_holdings_loop E src now_text d hs = Py.Ok d' ->
  (forall k row, securities d !! k = Some row -> securities d' !! k = Some row) /\
  (constituents_known d -> constituents_known d') /\
  (forall h c, h ∈ hs -> constituent_symbol h = Py.Ok c -> c <> "" ->
     is_Some (securities d' !! c)).
Proof.
  induction hs as [|h hs IH]; intros d d'; simpl.
  - intros [= <-]. split; [done|]. split; [done|]. intros h c Hin. inversion Hin.
  - destruct (save_one_holding E src now_text d h) as [d1|] eqn:E1; simpl; [|done].
    intros Hloop.
    destruct (save_one_holding_securities _ _ _ _ _ _ E1) as (Hkeep1 & Hnew1 & Hskip1).
    destruct (IH d1 d' Hloop) as (Hkeep & Hknown & Hall).
    split; [|split].
    + intros k row Hk. by apply Hkeep, Hkeep1.
    + intros Hd. apply Hknown. intros e c Hec.
      destruct (save_one_holding_holdings _ _ _ _ _ _ E1) as (c0 & Hc0 & Hd1).
      destruct (String.eqb_spec c0 "") as [->|Hne].
      * rewrite (Hskip1 Hc0). apply (Hd e c). by rewrite Hd1 in Hec.
      * destruct (Hnew1 c0 Hc0 Hne) as [Hsec _].
        rewrite Hd1 in Hec.
        destruct (decide ((E, c0) = (e, c))) as [[= <- <-]|Hother]; [done|].
        rewrite lookup_insert_ne in Hec by done.
        destruct (Hd e c Hec) as [row Hrow]. exists row. by apply Hkeep1.
    + intros h' c Hin Hc Hne. apply elem_of_cons in Hin as [->|Hin].
      * destruct (Hnew1 c Hc Hne) as [[row Hrow] _]. exists row. by apply Hkeep.
      * by apply (Hall h' c).
Qed.

(** X10.  Holdings fetched from Yahoo Finance always save.  Whatever the
    rows of [top_holdings], the list [fetch_etf_holdings] returns is not
    empty, costs one upstream request, and is accepted by
    [save_etf_holdings] without an exception; afterwards every holding of
    the list has its row in [etf_holdings] under the upper-cased ETF symbol,
    and its constituent has a row in [securities]. *)
Theorem fetched_holdings_always_save
    (y : yahoo) (d : db) (ticker source now_text : string)
    (holdings : list dict) (requests : list event) :
  fetch_etf_holdings py_float py_str y ticker = (Some holdings, requests) ->
  holdings <> [] /\ requests = [UpstreamHoldings ticker] /\
  exists d',
    save_etf_holdings d ticker holdings source now_text = Py.Ok d' /\
    forall h, h ∈ holdings ->
      exists s, get h "symbol" = VStr s /\ s <> "" /\
        is_Some (etf_holdings d' !! (PyStr.upper ticker, s)) /\
        is_Some (securities d' !! s).
Proof.
  unfold fetch_etf_holdings.
  destruct (yf_top_holdings y ticker) as [rows|]; [|done].
  pose proof (holdings_of_rows_shape rows 1) as Hshape.
  destruct (holdings_of_rows py_float py_str 1 rows) as [|h0 hs] eqn:Eh; [done|].
  intros [= <- <-]. split; [done|]. split; [done|].
  assert (Hwf : Forall well_formed_holding (h0 :: hs)).
  { eapply Forall_impl; [exact Hshape|]. by intros h [? _]. }
  destruct (save_holdings_loop_well_formed (PyStr.upper ticker) source now_text
              (h0 :: hs) d Hwf) as (d' & Hloop).
  exists d'. split; [exact Hloop|].
  intros h Hin. rewrite Forall_forall in Hshape.
  destruct (Hshape h Hin) as (_ & s & Hs & Hne & Hc).
  exists s. split; [done|]. split; [done|]. split.
  - destruct (save_holdings_loop_written _ _ _ _ _ _ s Hloop Hne) as (h' & _ & _ & Hrow).
    + apply Exists_exists. eauto.
    + by eexists.
  - destruct (save_holdings_loop_securities _ _ _ _ _ _ Hloop) as (_ & _ & Hall).
    by apply (Hall h s).
Qed.

(** X11.  Referential integrity of the holdings table.  If every stored
    holding names a constituent that has a row in [securities], the same
    holds after [save_etf_holdings] and after [save_security]; and
    [save_etf_holdings] changes no row of [securities] that exists, it only
    adds rows for constituents that have none. *)
Theorem writers_keep_constituents_known
    (d d' : db) (etf_symbol source now_text : string) (holdings : list dict)
    (security : dict) :
  (save_etf_holdings d etf_symbol holdings source now_text = Py.Ok d' ->
   (constituents_known d -> constituents_known d') /\
   (forall k row, securities d !! k = Some row -> securities d' !! k = Some row)) /\
  (save_security py_float py_str d security now_text = Py.Ok d' ->
   constituents_known d -> constituents_known d').
Proof.
  split.
  - unfold save_etf_holdings. destruct holdings as [|h hs]; [by intros [= <-]|].
    intros Hloop.
    destruct (save_holdings_loop_securities _ _ _ _ _ _ Hloop) as (Hkeep & Hknown & _).
    by split.
  - intros Hsave Hd e c Hec.
    destruct (save_security_row _ _ _ _ Hsave) as (key & name & _ & _ & Hsecs & Hhold).
    rewrite Hhold in Hec. destruct (Hd e c Hec) as [row Hrow].
    rewrite Hsecs. destruct (decide (key = c)) as [->|Hne].
    + rewrite lookup_insert_eq. by eexists.
    + rewrite lookup_insert_ne by done. by exists row.
Qed.

End Environment.

(** SPY saved on 2 January and fetched, in lower case, on 5 January. *)
Lemma saved_security_is_served_from_cache_witness :
  exists d' cached,
    save_security sample_float sample_str sample_db sample_security "2024-01-02 00:00:00"
      = Py.Ok d' /\
    _fetch_security_data sample_float sample_str sample_strptime d' (4 * Clock.day)
      backfill_yahoo "spy" = Py.Ok (Some cached, []) /\
    get cached "symbol" = VStr "SPY" /\
    get cached "current_price" = VNum 480.
Proof.
  assert (Hsave : exists d', save_security sample_float sample_str sample_db sample_security
                               "2024-01-02 00:00:00" = Py.Ok d') by (by eexists).
  destruct Hsave as (d' & Hsave).
  destruct (saved_security_is_served_from_cache sample_float sample_str sample_strptime
              sample_db d' sample_security "2024-01-02 00:00:00" "SPY" "spy"
              (1 * Clock.day) (4 * Clock.day) backfill_yahoo)
    as (cached & Hfetch & Hsym & Hprice & _).
  - exact Hsave.
  - reflexivity.
  - reflexivity.
  - discriminate.
  - reflexivity.
  - vm_compute. discriminate.
  - left. discriminate.
  - exists d', cached. split; [exact Hsave|]. split; [exact Hfetch|].
    split; [exact Hsym | exact Hprice].
Defined.

(** The holdings Yahoo Finance lists for SPY, saved into the store of the
    two ETFs. *)
Lemma fetched_holdings_always_save_witness :
  exists holdings d',
    fetch_etf_holdings sample_float sample_str backfill_yahoo "SPY"
      = (Some holdings, [UpstreamHoldings "SPY"]) /\
    holdings <> [] /\
    save_etf_holdings backfill_db "SPY" holdings "yahoo" "2024-01-02 00:00:00" = Py.Ok d' /\
    forall h, h ∈ holdings ->
      exists s, get h "symbol" = VStr s /\ s <> "" /\
        is_Some (etf_holdings d' !! (PyStr.upper "SPY", s)) /\
        is_Some (securities d' !! s).
Proof.
  assert (E : exists holdings,
             fetch_etf_holdings sample_float sample_str backfill_yahoo "SPY"
             = (Some holdings, [UpstreamHoldings "SPY"])).
  { eexists. vm_compute. reflexivity. }
  destruct E as (holdings & E).
  destruct (fetched_holdings_always_save sample_float sample_str backfill_yahoo backfill_db
              "SPY" "yahoo" "2024-01-02 00:00:00" holdings [UpstreamHoldings "SPY"] E)
    as (Hne & _ & d' & Hsaved & Hall).
  exists holdings, d'. split; [exact E|]. split; [exact Hne|]. split; [exact Hsaved|].
  exact Hall.
Defined.

End StoreFacts.

(** ** The enrichment merges *)

Module MultiSourceEquityAnalystFacts.
Import PyVal PyValFacts MultiSourceEquityAnalyst Samples.
Local Open Scope string_scope.

(** Case analysis on the innermost test of the goal. *)
Ltac case_innermost_if :=
  match goal with
  | |- context [if ?b then _ else _] =>
      lazymatch b with
      | context [if _ then _ else _] => fail
      | context [match _ with _ => _ end] => fail
      | context [Qltb] => fail
      | _ => idtac
      end;
      let E := fresh "E" in
      destruct b eqn:E;
      [ try (apply andb_true_iff in E as [? ?]) | ]
  end.

Ltac simpl_get :=
  cbv zeta; repeat (rewrite get_insert; cbn [String.eqb Ascii.eqb Bool.eqb]).

Ltac use_tests :=
  repeat match goal with
  | H : negb ?b = true |- _ => apply negb_true_iff in H
  | H : negb ?b = false |- _ => apply negb_false_iff in H
  | H : truthy ?x = _ |- _ => rewrite H
  | H : is_none ?x = _ |- _ => rewrite H
  | H : andb ?a ?b = false |- _ => rewrite H
  end;
  cbn [negb andb].

Ltac simplify_tests := repeat (progress (simpl_get; use_tests)).

Ltac merge_cases := simplify_tests; repeat (case_innermost_if; simplify_tests).

Ltac case_to_float :=
  match goal with
  | |- context [AutonomousEquityAnalyst.to_float ?f ?v] =>
      let E := fresh "E" in destruct (AutonomousEquityAnalyst.to_float f v) eqn:E
  end.

(** A guard of the form "the field is empty and the payload has a value"
    that has failed. *)
Lemma guard_failed (a b : bool) : negb a && b = false -> a = true \/ b = false.
Proof. destruct a, b; auto. Qed.

(** The Massive merge leaves a record alone when each of its guards fails. *)
Lemma merge_massive_fixed (security details : dict) :
  truthy (get security "sic_code") = true \/ truthy (get details "sic_code") = false ->
  truthy (get security "sic_description") = true
    \/ truthy (get details "sic_description") = false ->
  truthy (get security "description") = true
    \/ truthy (get details "description") = false ->
  merge_massive security details = security.
Proof.
  intros H1 H2 H3. unfold merge_massive. cbv zeta.
  replace (negb (truthy (get security "sic_code")) && truthy (get details "sic_code"))
    with false by (destruct H1 as [-> | ->]; [done | by rewrite andb_false_r]).
  replace (negb (truthy (get security "sic_description"))
           && truthy (get details "sic_description"))
    with false by (destruct H2 as [-> | ->]; [done | by rewrite andb_false_r]).
  replace (negb (truthy (get security "description")) && truthy (get details "description"))
    with false by (destruct H3 as [-> | ->]; [done | by rewrite andb_false_r]).
  done.
Qed.

(** Discharge one guard of a merged record from the tests of the merge. *)
Ltac guard_fails :=
  simplify_tests;
  first
    [ by left
    | by right
    | match goal with
      | E : negb ?a && ?b = false |- ?a = true \/ ?b = false => exact (guard_failed a b E)
      end ].

Lemma merge_massive_idempotent (security details : dict) :
  merge_massive (merge_massive security details) details = merge_massive security details.
Proof.
  unfold merge_massive at 2 3. merge_cases; apply merge_massive_fixed; guard_fails.
Qed.

(** The Alpha Vantage merge leaves a record alone when each of its guards
    fails, or, for the dividend yield, when the record already holds the
    converted value. *)
Lemma merge_alpha_vantage_fixed py_float (security overview : dict) :
  truthy (get security "gics_sector") = true \/ truthy (get overview "Sector") = false ->
  truthy (get security "gics_industry") = true \/ truthy (get overview "Industry") = false ->
  truthy (get security "description") = true
    \/ truthy (get overview "Description") = false ->
  (truthy (get security "dividend_yield") = true
   \/ negb (is_none (get overview "DividendYield")) = false)
  \/ AutonomousEquityAnalyst.to_float py_float (get overview "DividendYield") = None
  \/ (exists dy,
        AutonomousEquityAnalyst.to_float py_float (get overview "DividendYield") = Some dy /\
        security !! "dividend_yield" =
          Some (VNum (if Qltb 0 dy && Qltb dy 0.1 then dy * 100 else dy)%Q)) ->
  merge_alpha_vantage py_float security overview = security.
Proof.
  intros H1 H2 H3 H4. unfold merge_alpha_vantage. cbv zeta.
  replace (negb (truthy (get security "gics_sector")) && truthy (get overview "Sector"))
    with false by (destruct H1 as [-> | ->]; [done | by rewrite andb_false_r]).
  replace (negb (truthy (get security "gics_industry")) && truthy (get overview "Industry"))
    with false by (destruct H2 as [-> | ->]; [done | by rewrite andb_false_r]).
  replace (negb (truthy (get security "description")) && truthy (get overview "Description"))
    with false by (destruct H3 as [-> | ->]; [done | by rewrite andb_false_r]).
  destruct H4 as [[H4 | H4] | [H4 | (dy & H4 & Hdy)]].
  - by rewrite H4.
  - by rewrite H4, andb_false_r.
  - rewrite H4. by destruct (negb _ && _).
  - rewrite H4. destruct (negb _ && _); [|done]. by apply insert_id.
Qed.

Lemma merge_alpha_vantage_idempotent py_float (security overview : dict) :
  merge_alpha_vantage py_float (merge_alpha_vantage py_float security overview) overview
  = merge_alpha_vantage py_float security overview.
Proof.
  unfold merge_alpha_vantage at 2 3.
  merge_cases; try case_to_float; apply merge_alpha_vantage_fixed;
    try guard_fails.
  all: first
    [ right; left; assumption
    | right; right; eexists; split; [eassumption | apply lookup_insert_eq]
    | left;
      match goal with
      | E : negb ?a && negb ?b = false |- _ =>
          rewrite ?get_insert; cbn [String.eqb Ascii.eqb Bool.eqb];
          exact (guard_failed a (negb b) E)
      end ].
Qed.

(** C5.  Merging the same payload twice gives the record that merging it
    once gives: for the Massive details, for the Alpha Vantage overview, and
    for the two enrichment methods run with a client that answers the same
    payload. *)
Theorem enrichment_merge_idempotent
    (py_float : string -> option Q) (client : option (value -> option dict))
    (security payload : dict) :
  merge_massive (merge_massive security payload) payload = merge_massive security payload /\
  merge_alpha_vantage py_float (merge_alpha_vantage py_float security payload) payload
    = merge_alpha_vantage py_float security payload /\
  _enrich_with_massive client (_enrich_with_massive client security)
    = _enrich_with_massive client security /\
  _enrich_with_alpha_vantage py_float client (_enrich_with_alpha_vantage py_float client security)
    = _enrich_with_alpha_vantage py_float client security.
Proof.
  split; [apply merge_massive_idempotent|].
  split; [apply merge_alpha_vantage_idempotent|].
  split.
  - unfold _enrich_with_massive at 2. destruct client as [details_of|]; [|done].
    destruct (truthy (get security "symbol")) eqn:Hsym; simpl;
      [|unfold _enrich_with_massive; by rewrite Hsym].
    destruct (details_of (get security "symbol")) as [details|] eqn:Hd;
      [|unfold _enrich_with_massive; by rewrite Hsym, Hd].
    case_bool_decide as Hempty; [unfold _enrich_with_massive; rewrite Hsym, Hd; simpl;
                                 by rewrite bool_decide_eq_true_2|].
    assert (Hsame : get (merge_massive security details) "symbol" = get security "symbol").
    { unfold merge_massive. merge_cases; reflexivity. }
    unfold _enrich_with_massive. rewrite Hsame, Hsym, Hd. simpl.
    rewrite bool_decide_eq_false_2 by done. apply merge_massive_idempotent.
  - unfold _enrich_with_alpha_vantage at 2. destruct client as [overview_of|]; [|done].
    destruct (truthy (get security "symbol")) eqn:Hsym; simpl;
      [|unfold _enrich_with_alpha_vantage; by rewrite Hsym].
    destruct (overview_of (get security "symbol")) as [overview|] eqn:Hd;
      [|unfold _enrich_with_alpha_vantage; by rewrite Hsym, Hd].
    case_bool_decide as Hempty; [unfold _enrich_with_alpha_vantage; rewrite Hsym, Hd; simpl;
                                 by rewrite bool_decide_eq_true_2|].
    assert (Hsame : get (merge_alpha_vantage py_float security overview) "symbol"
                    = get security "symbol").
    { unfold merge_alpha_vantage. merge_cases; try case_to_float; simplify_tests; reflexivity. }
    unfold _enrich_with_alpha_vantage. rewrite Hsame, Hsym, Hd. simpl.
    rewrite bool_decide_eq_false_2 by done. apply merge_alpha_vantage_idempotent.
Qed.

Ltac case_any_if :=
  match goal with
  | |- context [if ?b then _ else _] =>
      lazymatch b with
      | context [if _ then _ else _] => fail
      | context [match _ with _ => _ end] => fail
      | context [Qltb] => fail
      | _ => destruct b
      end
  end.

(** Fields the merges never write. *)
Lemma get_merge_massive_other f (security details : dict) :
  f <> "sic_code" -> f <> "sic_description" -> f <> "sector" -> f <> "description" ->
  get (merge_massive security details) f = get security f.
Proof.
  intros. unfold merge_massive. cbv zeta.
  repeat case_any_if; rewrite ?get_insert_other by done; reflexivity.
Qed.

Lemma get_merge_alpha_vantage_other py_float f (security overview : dict) :
  f <> "gics_sector" -> f <> "sector" -> f <> "gics_industry" -> f <> "industry" ->
  f <> "description" -> f <> "dividend_yield" ->
  get (merge_alpha_vantage py_float security overview) f = get security f.
Proof.
  intros. unfold merge_alpha_vantage. cbv zeta.
  repeat case_any_if; try case_to_float; rewrite ?get_insert_other by done; reflexivity.
Qed.

(** A field that holds a value survives an update guarded by its own
    emptiness. *)
Lemma get_merge_massive f (security details : dict) :
  truthy (get security f) = true ->
  get (merge_massive security details) f = get security f.
Proof.
  intros Hf.
  destruct (String.eqb_spec f "sic_code") as [->|?];
    [unfold merge_massive; merge_cases; first [reflexivity | congruence]|].
  destruct (String.eqb_spec f "sic_description") as [->|?];
    [unfold merge_massive; merge_cases; first [reflexivity | congruence]|].
  destruct (String.eqb_spec f "sector") as [->|?];
    [unfold merge_massive; merge_cases; first [reflexivity | congruence]|].
  destruct (String.eqb_spec f "description") as [->|?];
    [unfold merge_massive; merge_cases; first [reflexivity | congruence]|].
  by apply get_merge_massive_other.
Qed.

Lemma get_merge_alpha_vantage py_float f (security overview : dict) :
  truthy (get security f) = true ->
  (f = "sector" -> truthy (get security "gics_sector") = true) ->
  (f = "industry" -> truthy (get security "gics_industry") = true) ->
  get (merge_alpha_vantage py_float security overview) f = get security f.
Proof.
  intros Hf Hsector Hindustry.
  destruct (String.eqb_spec f "gics_sector") as [->|?];
    [unfold merge_alpha_vantage; merge_cases; try case_to_float; simplify_tests;
     first [reflexivity | congruence]|].
  destruct (String.eqb_spec f "sector") as [->|?];
    [specialize (Hsector eq_refl);
     unfold merge_alpha_vantage; merge_cases; try case_to_float; simplify_tests;
     first [reflexivity | congruence]|].
  destruct (String.eqb_spec f "gics_industry") as [->|?];
    [unfold merge_alpha_vantage; merge_cases; try case_to_float; simplify_tests;
     first [reflexivity | congruence]|].
  destruct (String.eqb_spec f "industry") as [->|?];
    [specialize (Hindustry eq_refl);
     unfold merge_alpha_vantage; merge_cases; try case_to_float; simplify_tests;
     first [reflexivity | congruence]|].
  destruct (String.eqb_spec f "description") as [->|?];
    [unfold merge_alpha_vantage; merge_cases; try case_to_float; simplify_tests;
     first [reflexivity | congruence]|].
  destruct (String.eqb_spec f "dividend_yield") as [->|?];
    [unfold merge_alpha_vantage; merge_cases; try case_to_float; simplify_tests;
     first [reflexivity | congruence]|].
  by apply get_merge_alpha_vantage_other.
Qed.

(** What the Alpha Vantage merge does to a GICS field and to the field
    derived from it: both take the overview's value when the GICS field is
    empty and the overview has one, and both are left alone otherwise. *)
Lemma get_merge_alpha_vantage_sector py_float (security overview : dict) :
  let fill := negb (truthy (get security "gics_sector"))
              && truthy (get overview "Sector") in
  get (merge_alpha_vantage py_float security overview) "gics_sector"
    = (if fill then get overview "Sector" else get security "gics_sector") /\
  get (merge_alpha_vantage py_float security overview) "sector"
    = (if fill then get overview "Sector" else get security "sector").
Proof.
  intros fill. subst fill.
  destruct (negb (truthy (get security "gics_sector")) && truthy (get overview "Sector"))
    eqn:Efill;
    (split; unfold merge_alpha_vantage; rewrite Efill; cbv zeta;
     repeat case_any_if; try case_to_float;
     rewrite ?get_insert_other by done; rewrite ?get_insert;
     cbn [String.eqb Ascii.eqb Bool.eqb]; reflexivity).
Qed.

Lemma get_merge_alpha_vantage_industry py_float (security overview : dict) :
  let fill := negb (truthy (get security "gics_industry"))
              && truthy (get overview "Industry") in
  get (merge_alpha_vantage py_float security overview) "gics_industry"
    = (if fill then get overview "Industry" else get security "gics_industry") /\
  get (merge_alpha_vantage py_float security overview) "industry"
    = (if fill then get overview "Industry" else get security "industry").
Proof.
  intros fill. subst fill.
  assert (Hg : get (if negb (truthy (get security "gics_sector"))
                       && truthy (get overview "Sector")
                    then <["sector" := get overview "Sector"]>
                           (<["gics_sector" := get overview "Sector"]> security)
                    else security) "gics_industry" = get security "gics_industry").
  { case_any_if; rewrite ?get_insert_other by done; reflexivity. }
  assert (Hi : get (if negb (truthy (get security "gics_sector"))
                       && truthy (get overview "Sector")
                    then <["sector" := get overview "Sector"]>
                           (<["gics_sector" := get overview "Sector"]> security)
                    else security) "industry" = get security "industry").
  { case_any_if; rewrite ?get_insert_other by done; reflexivity. }
  unfold merge_alpha_vantage. cbv zeta. rewrite Hg.
  destruct (negb (truthy (get security "gics_industry")) && truthy (get overview "Industry"))
    eqn:Efill;
    (split;
     repeat case_any_if; try case_to_float;
     rewrite ?get_insert_other by done; rewrite ?get_insert;
     cbn [String.eqb Ascii.eqb Bool.eqb]; rewrite ?get_insert_other by done;
     first [reflexivity | exact Hi | exact Hg]).
Qed.

(** C4, as the code has it.  The Massive merge never changes a field that
    holds a value, and neither does the Alpha Vantage merge for any field
    but the derived [sector] and [industry].  These two follow the GICS
    fields: when [gics_sector] is empty and the overview has a [Sector],
    both [gics_sector] and [sector] become the overview's [Sector], whatever
    [sector] held; otherwise both are what they were.  The same holds for
    [gics_industry] and [industry] with the overview's [Industry]. *)
Theorem merge_fills_only_empty_fields
    (py_float : string -> option Q) (security payload : dict) :
  let merged := merge_alpha_vantage py_float security payload in
  let fill_sector :=
    negb (truthy (get security "gics_sector")) && truthy (get payload "Sector") in
  let fill_industry :=
    negb (truthy (get security "gics_industry")) && truthy (get payload "Industry") in
  (forall f, truthy (get security f) = true ->
     get (merge_massive security payload) f = get security f) /\
  (forall f, truthy (get security f) = true -> f <> "sector" -> f <> "industry" ->
     get merged f = get security f) /\
  get merged "gics_sector"
    = (if fill_sector then get payload "Sector" else get security "gics_sector") /\
  get merged "sector"
    = (if fill_sector then get payload "Sector" else get security "sector") /\
  get merged "gics_industry"
    = (if fill_industry then get payload "Industry" else get security "gics_industry") /\
  get merged "industry"
    = (if fill_industry then get payload "Industry" else get security "industry").
Proof.
  intros merged fill_sector fill_industry.
  split; [intros f Hf; by apply get_merge_massive|].
  split; [intros f Hf H1 H2; by apply get_merge_alpha_vantage|].
  pose proof (get_merge_alpha_vantage_sector py_float security payload) as [H1 H2].
  pose proof (get_merge_alpha_vantage_industry py_float security payload) as [H3 H4].
  done.
Qed.

(** A record with a sector and no GICS sector: an overview with a sector
    replaces the sector, an overview without one leaves it, and the
    description, which the record has, is kept by both merges. *)
Lemma merge_fills_only_empty_fields_witness :
  get (merge_alpha_vantage sample_float classified_security av_overview) "sector"
    = VStr "TECHNOLOGY" /\
  get (merge_alpha_vantage sample_float classified_security av_overview) "gics_sector"
    = VStr "TECHNOLOGY" /\
  get (merge_alpha_vantage sample_float classified_security av_overview_unclassified)
      "sector" = VStr "SERVICES-PREPACKAGED SOFTWARE" /\
  get (merge_alpha_vantage sample_float classified_security av_overview_unclassified)
      "industry" = VNone /\
  get (merge_massive classified_security av_overview) "description"
    = VStr "Develops and supports software." /\
  get (merge_alpha_vantage sample_float classified_security av_overview) "description"
    = VStr "Develops and supports software.".
Proof.
  pose proof (merge_fills_only_empty_fields sample_float classified_security av_overview)
    as (Hm & Ha & Hgs & Hs & _ & _).
  pose proof (merge_fills_only_empty_fields sample_float classified_security
                av_overview_unclassified) as (_ & _ & _ & Hs' & _ & Hi').
  split; [exact Hs|]. split; [exact Hgs|]. split; [exact Hs'|]. split; [exact Hi'|].
  split.
  - exact (Hm "description" eq_refl).
  - refine (Ha "description" eq_refl _ _); discriminate.
Defined.

(** C4, as stated, fails for [sector]: a record whose sector was filled
    from the SIC description (no GICS sector yet) has it replaced by the
    sector of the Alpha Vantage overview. *)
Lemma alpha_vantage_overwrites_sector :
  truthy (get classified_security "sector") = true /\
  get (merge_alpha_vantage sample_float classified_security av_overview) "sector"
    = VStr "TECHNOLOGY" /\
  get classified_security "sector" = VStr "SERVICES-PREPACKAGED SOFTWARE" /\
  ~ fill_only_null (merge_alpha_vantage sample_float).
Proof.
  split; [reflexivity|]. split; [reflexivity|]. split; [reflexivity|].
  intros H. specialize (H "sector" classified_security av_overview eq_refl).
  discriminate H.
Qed.

End MultiSourceEquityAnalystFacts.

(** ** The alignment score *)

Module AlignmentScorerFacts.
Import PyVal PyValFacts Json AlignmentScorer Samples.
Local Open Scope Q_scope.

(** *** Rounding *)

Lemma round_half_even_floor x :
  round_half_even x = Qfloor x \/
  (round_half_even x = (Qfloor x + 1)%Z /\ inject_Z (Qfloor x) < x).
Proof.
  unfold round_half_even.
  destruct (Qltb (x - inject_Z (Qfloor x)) 0.5) eqn:E1; [by left|].
  apply Qltb_ge in E1.
  assert (inject_Z (Qfloor x) < x) by lra.
  destruct (Qltb 0.5 _); [by right|].
  destruct (Z.even _); [by left | by right].
Qed.

Lemma inject_Z_succ n : inject_Z (n + 1) == inject_Z n + 1.
Proof. rewrite inject_Z_plus. reflexivity. Qed.

Lemma round_half_even_ge (n : Z) x : inject_Z n <= x -> (n <= round_half_even x)%Z.
Proof.
  intros H.
  assert (n <= Qfloor x)%Z.
  { rewrite <- (Qfloor_Z n). by apply Qfloor_resp_le. }
  destruct (round_half_even_floor x) as [-> | [-> _]]; lia.
Qed.

Lemma round_half_even_le (n : Z) x : x <= inject_Z n -> (round_half_even x <= n)%Z.
Proof.
  intros H.
  assert (Hf : (Qfloor x <= n)%Z).
  { rewrite <- (Qfloor_Z n). by apply Qfloor_resp_le. }
  destruct (round_half_even_floor x) as [-> | [-> Hlt]]; [done|].
  assert (inject_Z (Qfloor x) < inject_Z n) by lra.
  rewrite <- Zlt_Qlt in H0. lia.
Qed.

Lemma round_half_even_mono x y : x <= y -> (round_half_even x <= round_half_even y)%Z.
Proof.
  intros Hxy.
  pose proof (Qfloor_resp_le x y Hxy) as Hf.
  destruct (Z.eq_dec (Qfloor x) (Qfloor y)) as [Heq|Hne].
  - unfold round_half_even. rewrite <- Heq.
    destruct (Qltb (x - inject_Z (Qfloor x)) 0.5) eqn:E1.
    + destruct (Qltb (y - _) 0.5); [lia|]. destruct (Qltb 0.5 _); [lia|].
      destruct (Z.even _); lia.
    + apply Qltb_ge in E1.
      destruct (Qltb (y - _) 0.5) eqn:E2; [apply Qltb_lt in E2; lra|].
      destruct (Qltb 0.5 (x - _)) eqn:E3.
      * apply Qltb_lt in E3.
        destruct (Qltb 0.5 (y - _)) eqn:E4; [lia|]. apply Qltb_ge in E4. lra.
      * destruct (Qltb 0.5 (y - _)); [destruct (Z.even _); lia | lia].
  - assert (Qfloor x + 1 <= Qfloor y)%Z by lia.
    destruct (round_half_even_floor x) as [-> | [-> _]];
      destruct (round_half_even_floor y) as [-> | [-> _]]; lia.
Qed.

Lemma round2_mono x y : x <= y -> round2 x <= round2 y.
Proof.
  intros H. unfold round2.
  assert (Hm : (round_half_even (x * 100) <= round_half_even (y * 100))%Z).
  { apply round_half_even_mono. lra. }
  rewrite Zle_Qle in Hm. unfold Qdiv. apply Qmult_le_compat_r; [done | discriminate].
Qed.

Lemma round2_bounds (lo hi : Z) x :
  inject_Z lo <= x -> x <= inject_Z hi -> inject_Z lo <= round2 x <= inject_Z hi.
Proof.
  intros Hlo Hhi. unfold round2.
  assert (H1 : (lo * 100 <= round_half_even (x * 100))%Z).
  { apply round_half_even_ge. rewrite inject_Z_mult. change (inject_Z 100) with 100. lra. }
  assert (H2 : (round_half_even (x * 100) <= hi * 100)%Z).
  { apply round_half_even_le. rewrite inject_Z_mult. change (inject_Z 100) with 100. lra. }
  rewrite Zle_Qle, inject_Z_mult in H1, H2. change (inject_Z 100) with 100 in *.
  split.
  - apply Qle_shift_div_l; [reflexivity | done].
  - apply Qle_shift_div_r; [reflexivity | done].
Qed.

(** *** Bounds of the factors *)

Ltac case_ifs :=
  repeat match goal with
  | |- context [if ?b then _ else _] => destruct b
  end.

Lemma business_rubric_bounds d : 0 <= (business_rubric d).1 <= 3.
Proof. unfold business_rubric. case_ifs; simpl; lra. Qed.

Lemma score_business_description_bounds details thesis b r :
  _score_business_description details thesis = Py.Ok (b, r) -> 0 <= b <= 3.
Proof.
  unfold _score_business_description.
  destruct (negb _).
  - intros [= <- _]. lra.
  - destruct (get details "description"); try done.
    destruct (thesis_text thesis); simpl; [|done].
    intros [= Hb]. pose proof (business_rubric_bounds
      (keyword_density (business_keywords a) (PyStr.lower s))) as H.
    rewrite Hb in H. exact H.
Qed.

Lemma exposure_score_bounds pct : 0 <= exposure_score pct <= 3.
Proof. unfold exposure_score. case_ifs; lra. Qed.

Lemma estimate_revenue_exposure_bounds details thesis r pct :
  _estimate_revenue_exposure details thesis = Py.Ok (r, pct) -> 0 <= r <= 3.
Proof.
  unfold _estimate_revenue_exposure.
  destruct (lower_field details "description"); simpl; [|done].
  destruct (lower_field details "name"); simpl; [|done].
  destruct (lower_field details "sector"); simpl; [|done].
  destruct (thesis_text thesis); simpl; [|done].
  destruct (primary_theme _).
  - intros [= <- _]. apply exposure_score_bounds.
  - intros [= <- _]. lra.
Qed.

Lemma score_sector_alignment_bounds details thesis sc :
  _score_sector_alignment details thesis = Py.Ok sc -> 0 <= sc <= 2.
Proof.
  unfold _score_sector_alignment.
  destruct (lower_field details "sector"); simpl; [|done].
  destruct (lower_field details "industry"); simpl; [|done].
  destruct (thesis_text thesis); simpl; [|done].
  destruct (sector_thesis_theme _); [case_ifs|]; intros [= <-]; lra.
Qed.

Lemma qmax2_ge_l x y : x <= qmax2 x y.
Proof.
  unfold qmax2. destruct (Qle_bool x y) eqn:E; [by apply Qle_bool_iff | lra].
Qed.

Lemma qmax2_ge_r x y : y <= qmax2 x y.
Proof.
  unfold qmax2. destruct (Qle_bool x y) eqn:E; [lra|].
  apply not_true_iff_false in E. rewrite Qle_bool_iff in E. lra.
Qed.

Lemma qmin2_le_l x y : qmin2 x y <= x.
Proof.
  unfold qmin2. destruct (Qle_bool x y) eqn:E; [lra|].
  apply not_true_iff_false in E. rewrite Qle_bool_iff in E. lra.
Qed.

Lemma qmin2_le_r x y : qmin2 x y <= y.
Proof.
  unfold qmin2. destruct (Qle_bool x y) eqn:E; [by apply Qle_bool_iff | lra].
Qed.

Lemma qmax_ge l : forall x, x <= qmax x l /\ Forall (fun y => y <= qmax x l) l.
Proof.
  unfold qmax. induction l as [|z l IH]; intros x; simpl.
  - split; [lra | constructor].
  - destruct (IH (qmax2 x z)) as [H1 H2].
    pose proof (qmax2_ge_l x z). pose proof (qmax2_ge_r x z).
    split; [lra|]. constructor; [lra | done].
Qed.

Lemma qmin_le l : forall x, qmin x l <= x /\ Forall (fun y => qmin x l <= y) l.
Proof.
  unfold qmin. induction l as [|z l IH]; intros x; simpl.
  - split; [lra | constructor].
  - destruct (IH (qmin2 x z)) as [H1 H2].
    pose proof (qmin2_le_l x z). pose proof (qmin2_le_r x z).
    split; [lra|]. constructor; [lra | done].
Qed.

Lemma last_bounds first rest :
  qmin first rest <= List.last rest first <= qmax first rest.
Proof.
  destruct (qmax_ge rest first) as [Hx Hall]. destruct (qmin_le rest first) as [Hn Hall'].
  destruct rest as [|r rest'] using rev_ind; [simpl; lra|].
  rewrite last_last.
  apply Forall_app in Hall as [_ Hall]. apply Forall_app in Hall' as [_ Hall'].
  inversion Hall; inversion Hall'; subst. lra.
Qed.

Lemma trend_score_bounds prices : 0 <= trend_score prices <= 1.
Proof. unfold trend_score. case_ifs; lra. Qed.

Lemma calculate_momentum_score_bounds s ticker fmt :
  0 <= (_calculate_momentum_score fmt s ticker).1 <= 2.
Proof.
  unfold _calculate_momentum_score.
  destruct (yahoo_ready s) as [yf|]; [|simpl; lra].
  destruct (get_stock_historical_prices yf ticker) as [| |prices]; try (simpl; lra).
  destruct (_ <? _)%nat; [simpl; lra|].
  destruct prices as [|first rest]; [simpl; lra|].
  destruct (Qeq_bool _ 0) eqn:E; [simpl; lra|].
  cbn [fst].
  pose proof (last_bounds first rest) as [Hlo Hhi].
  assert (Hne : ~ qmax first rest - qmin first rest == 0).
  { intros Heq. apply Qeq_bool_iff in Heq. congruence. }
  assert (Hpos : 0 < qmax first rest - qmin first rest) by lra.
  pose proof (trend_score_bounds (first :: rest)) as Ht.
  assert (Hp0 : 0 <= (List.last rest first - qmin first rest)
                     / (qmax first rest - qmin first rest)).
  { apply Qle_shift_div_l; [done | lra]. }
  assert (Hp1 : (List.last rest first - qmin first rest)
                / (qmax first rest - qmin first rest) <= 1).
  { apply Qle_shift_div_r; [done | lra]. }
  apply (round2_bounds 0 2); unfold inject_Z; lra.
Qed.

Lemma yield_tier_bounds fmt y : 0 <= (yield_tier fmt y).1 <= 1.
Proof. unfold yield_tier. case_ifs; simpl; lra. Qed.

Lemma growth_tier_bounds fmt payments : 0 <= (growth_tier fmt payments).1 <= 1.
Proof.
  unfold growth_tier. destruct payments; [simpl; lra|]. case_ifs; simpl; lra.
Qed.

Lemma score_dividend_quality_bounds fmt s ticker thesis d r :
  _score_dividend_quality fmt s ticker thesis = Py.Ok (d, r) -> 0 <= d <= 2.
Proof.
  unfold _score_dividend_quality.
  destruct (yahoo_ready s) as [yf|]; [|intros [= <- _]; lra].
  destruct (thesis_text thesis); simpl; [|done].
  destruct (negb _); [intros [= <- _]; lra|].
  destruct (get_stock_dividend yf ticker) as [| |y payments]; try (intros [= <- _]; lra).
  destruct payments as [|p payments]; [intros [= <- _]; lra|].
  pose proof (yield_tier_bounds fmt y) as Hy.
  pose proof (growth_tier_bounds fmt (p :: payments)) as Hg.
  destruct (yield_tier fmt y) as [ys yd], (growth_tier fmt (p :: payments)) as [gs gd].
  simpl in *. intros [= <- _]. apply (round2_bounds 0 2); unfold inject_Z; lra.
Qed.

Lemma raw_score_bounds py_float fmt s security thesis score parts factors revenue :
  raw_score py_float fmt s security thesis = Py.Ok (score, parts, factors, revenue) ->
  0 <= score <= 14.
Proof.
  unfold raw_score.
  set (details := _get_company_details py_float s (ticker security) (Some security)).
  destruct (_score_business_description details thesis) as [[b br]|] eqn:Eb; [|by destruct (_mentioned_in_thesis _ _)].
  apply score_business_description_bounds in Eb.
  destruct (_estimate_revenue_exposure details thesis) as [[rv pct]|] eqn:Er;
    [|destruct (_mentioned_in_thesis _ _); simpl; by destruct (negb _)].
  apply estimate_revenue_exposure_bounds in Er.
  destruct (_score_sector_alignment details thesis) as [sc|] eqn:Es;
    [|destruct (_mentioned_in_thesis _ _); simpl; destruct (negb _); simpl; by destruct (Qltb 0 rv)].
  apply score_sector_alignment_bounds in Es.
  pose proof (calculate_momentum_score_bounds s (ticker security) fmt) as Hm.
  destruct (_calculate_momentum_score fmt s (ticker security)) as [mo mr].
  cbn [fst] in Hm.
  destruct (_mentioned_in_thesis security thesis); cbn [Py.bind];
    destruct (negb (String.eqb br "")); destruct (Qltb 0 rv); destruct (Qltb 0 sc);
    (destruct (yahoo_ready s);
     [ destruct (Qltb 0 mo && _);
       (destruct (_score_dividend_quality fmt s (ticker security) thesis)
          as [[d dr]|] eqn:Ed; cbn [Py.bind]; [|done]);
       apply score_dividend_quality_bounds in Ed;
       destruct (Qltb 0 d && _)
     | ]);
    intros [= <- _ _ _]; lra.
Qed.

Lemma scaled_bounds score : 0 <= score <= 14 -> 0 <= round2 (score / 14.0 * 10.0) <= 10.
Proof.
  intros H. apply (round2_bounds 0 10); unfold inject_Z.
  - apply Qmult_le_0_compat; [|lra]. apply Qle_shift_div_l; lra.
  - assert (score / 14.0 <= 1) by (apply Qle_shift_div_r; lra). lra.
Qed.

Lemma scaled_mono x y : x <= y -> round2 (x / 14.0 * 10.0) <= round2 (y / 14.0 * 10.0).
Proof.
  intros H. apply round2_mono. apply Qmult_le_compat_r; [|lra].
  unfold Qdiv. apply Qmult_le_compat_r; [done | discriminate].
Qed.

(** *** Totality on a typed thesis, with the details of the security *)

Lemma thesis_text_typed thesis title :
  lookup thesis "title" = Some (JStr title) ->
  (lookup thesis "summary" = None \/ exists sm, lookup thesis "summary" = Some (JStr sm)) ->
  exists text, thesis_text thesis = Py.Ok text.
Proof.
  intros Ht Hs. unfold thesis_text. rewrite Ht. simpl.
  destruct Hs as [-> | (sm & ->)]; simpl; by eexists.
Qed.

Lemma lower_field_text details k :
  text_field details k -> exists s, lower_field details k = Py.Ok s.
Proof. intros (s & H). unfold lower_field, get_or. rewrite H. by eexists. Qed.

Lemma details_of_security_text py_float s security k :
  alpha_vantage s = None ->
  k ∈ ["description"; "name"; "sector"; "industry"]%string ->
  text_field (_get_company_details py_float s (ticker security) (Some security)) k.
Proof.
  intros Hav Hk. unfold _get_company_details. rewrite Hav. unfold text_field.
  repeat (apply elem_of_cons in Hk as [-> | Hk]); [| | | | by apply elem_of_nil in Hk];
    eexists; reflexivity.
Qed.

Lemma score_business_description_ok details thesis text :
  thesis_text thesis = Py.Ok text -> text_field details "description" ->
  exists r, _score_business_description details thesis = Py.Ok r.
Proof.
  intros Ht (d & Hd). unfold _score_business_description, get. rewrite Hd, Ht. simpl.
  destruct (negb _); by eexists.
Qed.

Lemma estimate_revenue_exposure_ok details thesis text :
  thesis_text thesis = Py.Ok text ->
  text_field details "description" -> text_field details "name" ->
  text_field details "sector" ->
  exists r, _estimate_revenue_exposure details thesis = Py.Ok r.
Proof.
  intros Ht Hd Hn Hs. unfold _estimate_revenue_exposure.
  destruct (lower_field_text _ _ Hd) as (? & ->).
  destruct (lower_field_text _ _ Hn) as (? & ->).
  destruct (lower_field_text _ _ Hs) as (? & ->).
  rewrite Ht. simpl. destruct (primary_theme text); by eexists.
Qed.

Lemma score_sector_alignment_ok details thesis text :
  thesis_text thesis = Py.Ok text ->
  text_field details "sector" -> text_field details "industry" ->
  exists r, _score_sector_alignment details thesis = Py.Ok r.
Proof.
  intros Ht Hs Hi. unfold _score_sector_alignment.
  destruct (lower_field_text _ _ Hs) as (? & ->).
  destruct (lower_field_text _ _ Hi) as (? & ->).
  rewrite Ht. simpl. destruct (sector_thesis_theme text); [|by eexists].
  repeat (destruct (tier_matches _ _ _); [by eexists|]). by eexists.
Qed.

Lemma score_dividend_quality_ok fmt s ticker thesis text :
  thesis_text thesis = Py.Ok text ->
  exists r, _score_dividend_quality fmt s ticker thesis = Py.Ok r.
Proof.
  intros Ht. unfold _score_dividend_quality.
  destruct (yahoo_ready s) as [yf|]; [|by eexists].
  rewrite Ht. simpl. destruct (negb _); [by eexists|].
  destruct (get_stock_dividend yf ticker) as [| |y payments]; try by eexists.
  destruct payments; [by eexists|].
  destruct (yield_tier fmt y), (growth_tier fmt _). by eexists.
Qed.

Lemma raw_score_ok py_float fmt s security thesis text :
  thesis_text thesis = Py.Ok text ->
  alpha_vantage s = None ->
  exists r, raw_score py_float fmt s security thesis = Py.Ok r.
Proof.
  intros Ht Hav. unfold raw_score.
  set (details := _get_company_details py_float s (ticker security) (Some security)).
  assert (Hfield : forall k, k ∈ ["description"; "name"; "sector"; "industry"]%string ->
                             text_field details k).
  { intros k Hk. by apply details_of_security_text. }
  destruct (score_business_description_ok details thesis text Ht) as ([b br] & ->);
    [apply Hfield; set_solver|].
  destruct (estimate_revenue_exposure_ok details thesis text Ht) as ([rv pct] & ->);
    [apply Hfield; set_solver..|].
  destruct (score_sector_alignment_ok details thesis text Ht) as (sc & ->);
    [apply Hfield; set_solver..|].
  destruct (score_dividend_quality_ok fmt s (ticker security) thesis text Ht)
    as ([d dr] & ->).
  destruct (_calculate_momentum_score fmt s (ticker security)) as [mo mr].
  destruct (_mentioned_in_thesis security thesis); cbn [Py.bind];
    destruct (negb (String.eqb br "")); destruct (Qltb 0 rv); destruct (Qltb 0 sc);
    (destruct (yahoo_ready s);
     [ destruct (Qltb 0 mo && _); cbn [Py.bind]; destruct (Qltb 0 d && _) | ]);
    by eexists.
Qed.

(** C6.  Whenever [score_alignment] returns, the score lies in [[0, 10]]:
    the raw sum of the six factors lies in [[0, 14]] and is rescaled by
    [raw / 14 * 10] and rounded to two decimals.  It does return for every
    security scored from its own fields (no Alpha Vantage client) against a
    thesis whose title is text and whose summary is text or absent. *)
Theorem alignment_score_between_zero_and_ten
    (py_float : string -> option Q) (format_fixed : nat -> Q -> string)
    (s : t) (security : Security) (thesis : list (string * json)) :
  (forall a, score_alignment py_float format_fixed s security thesis = Py.Ok a ->
             0 <= alignment_score a <= 10) /\
  (alpha_vantage s = None ->
   (exists title, lookup thesis "title" = Some (JStr title)) ->
   (lookup thesis "summary" = None \/ exists sm, lookup thesis "summary" = Some (JStr sm)) ->
   exists a, score_alignment py_float format_fixed s security thesis = Py.Ok a).
Proof.
  split.
  - intros a. unfold score_alignment.
    destruct (raw_score py_float format_fixed s security thesis)
      as [[[[score parts] factors] revenue]|] eqn:Eraw; [|done].
    apply raw_score_bounds in Eraw. cbn [Py.bind].
    destruct (lookup thesis "title"); [|done].
    intros [= <-]. cbn [alignment_score]. by apply scaled_bounds.
  - intros Hav (title & Htitle) Hsummary. unfold score_alignment.
    destruct (thesis_text_typed thesis title Htitle Hsummary) as (text & Htext).
    destruct (raw_score_ok py_float format_fixed s security thesis text Htext Hav)
      as ([[[score parts] factors] revenue] & ->).
    cbn [Py.bind]. rewrite Htitle. by eexists.
Qed.

(** *** The thesis enters factors 2 to 6 through its title and summary *)

Lemma thesis_text_ext (A B : list (string * json)) :
  lookup A "title" = lookup B "title" ->
  lookup A "summary" = lookup B "summary" ->
  thesis_text A = thesis_text B.
Proof. intros Ht Hs. unfold thesis_text. by rewrite Ht, Hs. Qed.

Ltac raise_case :=
  destruct (_mentioned_in_thesis _ _); simpl;
  repeat (match goal with |- context [if ?b then _ else _] => destruct b end; simpl);
  intros [=].

(** With factors 2, 3, 4 and 6 the same for two theses, the one that
    mentions the ticker has the higher raw score. *)
Lemma raw_score_mention py_float fmt s security (A B : list (string * json))
    score parts factors revenue :
  let details := _get_company_details py_float s (ticker security) (Some security) in
  _score_business_description details B = _score_business_description details A ->
  _estimate_revenue_exposure details B = _estimate_revenue_exposure details A ->
  _score_sector_alignment details B = _score_sector_alignment details A ->
  _score_dividend_quality fmt s (ticker security) B
    = _score_dividend_quality fmt s (ticker security) A ->
  _mentioned_in_thesis security B = true ->
  raw_score py_float fmt s security A = Py.Ok (score, parts, factors, revenue) ->
  exists score' parts' factors' revenue',
    raw_score py_float fmt s security B = Py.Ok (score', parts', factors', revenue') /\
    score <= score'.
Proof.
  intros details Hb Hr Hs Hd HB. unfold raw_score. fold details.
  rewrite HB, Hb, Hr, Hs, Hd.
  destruct (_score_business_description details A) as [[b br]|]; [|raise_case].
  destruct (_estimate_revenue_exposure details A) as [[rv pct]|]; [|raise_case].
  destruct (_score_sector_alignment details A) as [sc|]; [|raise_case].
  destruct (_calculate_momentum_score fmt s (ticker security)) as [mo mr].
  destruct (_mentioned_in_thesis security A); cbn [Py.bind];
    destruct (negb (String.eqb br "")); destruct (Qltb 0 rv); destruct (Qltb 0 sc);
    (destruct (yahoo_ready s);
     [ destruct (Qltb 0 mo && _);
       (destruct (_score_dividend_quality fmt s (ticker security) A)
          as [[d dr]|]; cbn [Py.bind]; [|done]);
       destruct (Qltb 0 d && _)
     | ]);
    intros [= <- _ _ _]; eexists _, _, _, _; (split; [reflexivity | lra]).
Qed.

(** Factors 2, 3, 4 and 6 read the thesis through four tests on its text:
    the keywords it selects, its primary theme, its sector theme and
    whether it is about income. *)
Lemma factors_read_four_tests fmt s ticker details (A B : list (string * json)) ta tb :
  thesis_text A = Py.Ok ta -> thesis_text B = Py.Ok tb ->
  business_keywords ta = business_keywords tb ->
  primary_theme ta = primary_theme tb ->
  sector_thesis_theme ta = sector_thesis_theme tb ->
  PyStr.any_in income_keywords ta = PyStr.any_in income_keywords tb ->
  _score_business_description details B = _score_business_description details A /\
  _estimate_revenue_exposure details B = _estimate_revenue_exposure details A /\
  _score_sector_alignment details B = _score_sector_alignment details A /\
  _score_dividend_quality fmt s ticker B = _score_dividend_quality fmt s ticker A.
Proof.
  intros HA HB Hkw Hpt Hst Hin.
  unfold _score_business_description, _estimate_revenue_exposure,
    _score_sector_alignment, _score_dividend_quality.
  rewrite HA, HB. cbn [Py.bind]. by rewrite Hkw, Hpt, Hst, Hin.
Qed.

(** C7, as the code has it.  Take two theses whose title-and-summary texts
    pass the same four tests of the scorer (the same keywords selected for
    the business factor, the same primary theme, the same sector theme, the
    same answer to the income test): two theses that differ outside title
    and summary, or a ticker added to the title or the summary that
    completes none of the scorer's keywords.  When the second contains the
    ticker in its serialized text (and has a title), it scores at least as
    high as the first. *)
Theorem ticker_mention_keeping_themes_never_lowers_score
    (py_float : string -> option Q) (format_fixed : nat -> Q -> string)
    (s : t) (security : Security) (A B : list (string * json)) (ta tb : string)
    (a : ThesisAlignment) :
  thesis_text A = Py.Ok ta -> thesis_text B = Py.Ok tb ->
  business_keywords ta = business_keywords tb ->
  primary_theme ta = primary_theme tb ->
  sector_thesis_theme ta = sector_thesis_theme tb ->
  PyStr.any_in income_keywords ta = PyStr.any_in income_keywords tb ->
  is_Some (lookup B "title") ->
  _mentioned_in_thesis security B = true ->
  score_alignment py_float format_fixed s security A = Py.Ok a ->
  exists b, score_alignment py_float format_fixed s security B = Py.Ok b /\
            alignment_score a <= alignment_score b.
Proof.
  intros HA HB Hkw Hpt Hst Hin [title Htitle] Hm. unfold score_alignment.
  destruct (raw_score py_float format_fixed s security A)
    as [[[[score parts] factors] revenue]|] eqn:Eraw; [|done].
  destruct (factors_read_four_tests format_fixed s (ticker security)
              (_get_company_details py_float s (ticker security) (Some security))
              A B ta tb HA HB Hkw Hpt Hst Hin) as (Hb & Hr & Hs & Hd).
  destruct (raw_score_mention py_float format_fixed s security A B score parts factors
              revenue Hb Hr Hs Hd Hm Eraw)
    as (score' & parts' & factors' & revenue' & -> & Hle).
  cbn [Py.bind]. rewrite Htitle.
  destruct (lookup A "title"); [|done].
  intros [= <-]. eexists. split; [reflexivity|].
  cbn [alignment_score]. by apply scaled_mono.
Qed.

(** Two theses with the same title and the same summary pass the same
    tests: a mention in any other member never lowers the score. *)
Lemma ticker_mention_outside_title_and_summary
    (py_float : string -> option Q) (format_fixed : nat -> Q -> string)
    (s : t) (security : Security) (A B : list (string * json)) (a : ThesisAlignment) :
  lookup A "title" = lookup B "title" ->
  lookup A "summary" = lookup B "summary" ->
  _mentioned_in_thesis security B = true ->
  score_alignment py_float format_fixed s security A = Py.Ok a ->
  exists b, score_alignment py_float format_fixed s security B = Py.Ok b /\
            alignment_score a <= alignment_score b.
Proof.
  intros Htitle Hsummary HB. unfold score_alignment.
  pose proof (thesis_text_ext A B Htitle Hsummary) as Htext.
  destruct (raw_score py_float format_fixed s security A)
    as [[[[score parts] factors] revenue]|] eqn:Eraw; [|done].
  destruct (raw_score_mention py_float format_fixed s security A B score parts factors
              revenue) as (score' & parts' & factors' & revenue' & -> & Hle);
    [unfold _score_business_description; by rewrite Htext
    |unfold _estimate_revenue_exposure; by rewrite Htext
    |unfold _score_sector_alignment; by rewrite Htext
    |unfold _score_dividend_quality; by rewrite Htext
    |done|done|].
  cbn [Py.bind]. rewrite <- Htitle.
  destruct (lookup A "title"); [|done].
  intros [= <-]. eexists. split; [reflexivity|].
  cbn [alignment_score]. by apply scaled_mono.
Qed.

Lemma alignment_score_between_zero_and_ten_witness :
  exists a,
    score_alignment sample_float sample_format plain_scorer foundry_security chip_thesis
      = Py.Ok a /\
    0 <= alignment_score a <= 10.
Proof.
  destruct (proj2 (alignment_score_between_zero_and_ten sample_float sample_format
                     plain_scorer foundry_security chip_thesis))
    as (a & Ha).
  - reflexivity.
  - by eexists.
  - right. by eexists.
  - exists a. split; [exact Ha|].
    exact (proj1 (alignment_score_between_zero_and_ten sample_float sample_format
                    plain_scorer foundry_security chip_thesis) a Ha).
Defined.

(** The ticker TSM appended to the title "Chip makers" completes no keyword:
    the foundry goes from 3.79 to 5.21.  The same holds for the ticker AI in
    a member of its own. *)
Lemma ticker_mention_keeping_themes_never_lowers_score_witness :
  (exists a b,
     score_alignment sample_float sample_format plain_scorer tsm_security chip_thesis
       = Py.Ok a /\
     score_alignment sample_float sample_format plain_scorer tsm_security
       chip_thesis_with_tsm = Py.Ok b /\
     alignment_score a == 3.79 /\ alignment_score b == 5.21 /\
     alignment_score a <= alignment_score b) /\
  (exists a b,
     score_alignment sample_float sample_format plain_scorer foundry_security chip_thesis
       = Py.Ok a /\
     score_alignment sample_float sample_format plain_scorer foundry_security
       chip_thesis_tagged = Py.Ok b /\
     alignment_score a <= alignment_score b).
Proof.
  split.
  - assert (Ha : exists a, score_alignment sample_float sample_format plain_scorer
                             tsm_security chip_thesis = Py.Ok a
                           /\ alignment_score a == 3.79).
    { eexists. split; [vm_compute; reflexivity | reflexivity]. }
    destruct Ha as (a & Ha & Hav).
    destruct (ticker_mention_keeping_themes_never_lowers_score sample_float sample_format
                plain_scorer tsm_security chip_thesis chip_thesis_with_tsm
                "chip makers " "chip makers tsm " a)
      as (b & Hb & Hle).
    + reflexivity.
    + reflexivity.
    + reflexivity.
    + reflexivity.
    + reflexivity.
    + reflexivity.
    + by eexists.
    + vm_compute. reflexivity.
    + exact Ha.
    + exists a, b. split; [exact Ha|]. split; [exact Hb|]. split; [exact Hav|].
      split; [|exact Hle].
      assert (Hb' : score_alignment sample_float sample_format plain_scorer tsm_security
                      chip_thesis_with_tsm = Py.Ok b) by exact Hb.
      vm_compute in Hb'. injection Hb' as <-. reflexivity.
  - assert (Ha : exists a, score_alignment sample_float sample_format plain_scorer
                             foundry_security chip_thesis = Py.Ok a).
    { eexists. vm_compute. reflexivity. }
    destruct Ha as (a & Ha).
    destruct (ticker_mention_keeping_themes_never_lowers_score sample_float sample_format
                plain_scorer foundry_security chip_thesis chip_thesis_tagged
                "chip makers " "chip makers " a)
      as (b & Hb & Hle).
    + reflexivity.
    + reflexivity.
    + reflexivity.
    + reflexivity.
    + reflexivity.
    + reflexivity.
    + by eexists.
    + vm_compute. reflexivity.
    + exact Ha.
    + exists a, b. split; [exact Ha|]. split; [exact Hb | exact Hle].
Defined.

(** C7, as stated, fails when the ticker enters the title: "AI" appended to
    "Chip makers" turns the thesis into an AI thesis for the theme tables, and
    the foundry loses more on the revenue and business factors than the
    mention brings. *)
Lemma ticker_in_title_lowers_score :
  _mentioned_in_thesis foundry_security chip_thesis = false /\
  _mentioned_in_thesis foundry_security chip_thesis_with_ticker = true /\
  exists a b,
    score_alignment sample_float sample_format plain_scorer foundry_security chip_thesis
      = Py.Ok a /\
    score_alignment sample_float sample_format plain_scorer foundry_security
      chip_thesis_with_ticker = Py.Ok b /\
    alignment_score a == 3.79 /\ alignment_score b == 3.07 /\
    alignment_score b < alignment_score a.
Proof.
  split; [vm_compute; reflexivity|]. split; [vm_compute; reflexivity|].
  eexists _, _. split; [vm_compute; reflexivity|]. split; [vm_compute; reflexivity|].
  split; [reflexivity|]. split; reflexivity.
Qed.

End AlignmentScorerFacts.

(** ** Deduplication in the backfill *)

Module BackfillFacts.
Import PyVal AutonomousEquityAnalyst Backfill Samples.
Local Open Scope string_scope.

(** A symbol already in [fetched_this_run] is skipped, in both steps,
    without any request. *)
Lemma fetched_symbol_skipped py_float py_str strptime y now now_text
    (r : run) (constituents : gset string) (sym : string) :
  sym ∈ fetched_this_run r ->
  backfill_constituent py_float py_str strptime y now now_text r sym = Py.Ok r /\
  backfill_etf py_float py_str strptime y now now_text (r, constituents) sym
    = Py.Ok (r, constituents).
Proof.
  intros Hin. unfold backfill_constituent, backfill_etf.
  by rewrite bool_decide_eq_true_2.
Qed.

(** A fetch enters the symbol in [fetched_this_run] exactly when it returned
    data. *)
Lemma fetch_and_save_marks_data py_float py_str strptime y now now_text
    count (r r' : run) (sym : string) :
  fetch_and_save py_float py_str strptime y now now_text count r sym = Py.Ok r' ->
  exists data requests,
    _fetch_security_data py_float py_str strptime (run_db r) now y sym
      = Py.Ok (data, requests) /\
    events r' = (events r ++ requests)%list /\
    fetched_this_run r' =
      match data with
      | Some _ => {[sym]} ∪ fetched_this_run r
      | None => fetched_this_run r
      end.
Proof.
  unfold fetch_and_save.
  destruct (_fetch_security_data _ _ _ _ _ _ _) as [[data requests]|]; [|done].
  cbn [Py.bind]. intros H. exists data, requests. split; [done|].
  destruct data as [security|].
  - destruct (save_security _ _ _ _ _); [|done]. by injection H as <-.
  - by injection H as <-.
Qed.

Lemma upstream_fetches_app ticker (l1 l2 : list event) :
  upstream_fetches ticker (l1 ++ l2)
  = (upstream_fetches ticker l1 + upstream_fetches ticker l2)%nat.
Proof. unfold upstream_fetches. by rewrite List.filter_app, length_app. Qed.

(** A fetch asks upstream about its own ticker only, and at most once. *)
Lemma fetch_security_data_requests py_float py_str strptime d now y ticker data requests :
  _fetch_security_data py_float py_str strptime d now y ticker = Py.Ok (data, requests) ->
  requests = [] \/ requests = [UpstreamSecurity ticker].
Proof.
  unfold _fetch_security_data.
  destruct (_load_security_from_db _ _ _ _) as [[c|]|]; simpl; [| |done].
  - intros [= _ <-]. by left.
  - destruct (yf_info y ticker) as [info|]; [|intros [= _ <-]; by right].
    destruct (_ || _); intros [= _ <-]; by right.
Qed.

Lemma fetch_etf_holdings_requests py_float py_str y sym :
  (fetch_etf_holdings py_float py_str y sym).2 = [UpstreamHoldings sym].
Proof.
  unfold fetch_etf_holdings. destruct (yf_top_holdings y sym); [|done].
  by destruct (holdings_of_rows _ _ _ _).
Qed.

Lemma fetch_and_save_other py_float py_str strptime y now now_text count
    (r r' : run) (sym t : string) :
  fetch_and_save py_float py_str strptime y now now_text count r sym = Py.Ok r' ->
  t <> sym ->
  fetched_this_run r ⊆ fetched_this_run r' /\
  upstream_fetches t (events r') = upstream_fetches t (events r).
Proof.
  unfold fetch_and_save.
  destruct (_fetch_security_data _ _ _ _ _ _ _) as [[data requests]|] eqn:Ef; [|done].
  cbn [Py.bind]. intros H Hne.
  assert (Hreq : upstream_fetches t requests = 0%nat).
  { destruct (fetch_security_data_requests _ _ _ _ _ _ _ _ _ Ef) as [-> | ->]; [done|].
    unfold upstream_fetches. cbn [List.filter].
    rewrite (bool_decide_eq_false_2 (UpstreamSecurity sym = UpstreamSecurity t)); [done|].
    intros [= ?]. congruence. }
  destruct data as [security|].
  - destruct (save_security _ _ _ _ _); [|done]. injection H as <-. simpl.
    rewrite upstream_fetches_app, Hreq. split; [set_solver | lia].
  - injection H as <-. simpl. rewrite upstream_fetches_app, Hreq. split; [done | lia].
Qed.

(** Once a symbol is in [fetched_this_run], a turn of either loop leaves it
    there and asks nothing more about it. *)
Lemma backfill_constituent_keeps py_float py_str strptime y now now_text
    (r r' : run) (sym t : string) :
  backfill_constituent py_float py_str strptime y now now_text r sym = Py.Ok r' ->
  t ∈ fetched_this_run r ->
  t ∈ fetched_this_run r' /\
  upstream_fetches t (events r') = upstream_fetches t (events r).
Proof.
  unfold backfill_constituent. case_bool_decide as Hin.
  - intros [= <-]. done.
  - intros H Ht.
    destruct (fetch_and_save_other _ _ _ _ _ _ _ _ _ _ t H) as [Hsub Heq];
      [intros ->; done|].
    split; [set_solver | done].
Qed.

Lemma backfill_etf_keeps py_float py_str strptime y now now_text
    (r r' : run) (cs cs' : gset string) (sym t : string) :
  backfill_etf py_float py_str strptime y now now_text (r, cs) sym = Py.Ok (r', cs') ->
  t ∈ fetched_this_run r ->
  t ∈ fetched_this_run r' /\
  upstream_fetches t (events r') = upstream_fetches t (events r).
Proof.
  unfold backfill_etf. case_bool_decide as Hin.
  - intros [= <- _]. done.
  - destruct (fetch_and_save _ _ _ _ _ _ _ r sym) as [r1|] eqn:E1; [|done].
    cbn [Py.bind]. intros H Ht.
    destruct (fetch_and_save_other _ _ _ _ _ _ _ _ _ _ t E1) as [Hsub Heq];
      [intros ->; done|].
    pose proof (fetch_etf_holdings_requests py_float py_str y sym) as Hreq.
    destruct (fetch_etf_holdings py_float py_str y sym) as [holdings requests].
    simpl in Hreq. subst requests.
    assert (Hev : upstream_fetches t (events r1 ++ [UpstreamHoldings sym])
                  = upstream_fetches t (events r)).
    { rewrite upstream_fetches_app, Heq.
      replace (upstream_fetches t [UpstreamHoldings sym]) with 0%nat; [lia|].
      unfold upstream_fetches. cbn [List.filter].
      by rewrite (bool_decide_eq_false_2 (UpstreamHoldings sym = UpstreamSecurity t)). }
    destruct holdings as [hs|].
    + destruct (save_etf_holdings _ _ _ _ _); [|done]. cbn [Py.bind] in H.
      injection H as <- _. simpl. split; [set_solver | done].
    + injection H as <- _. simpl. split; [set_solver | done].
Qed.

(** X12.  The run-scoped set at work: a symbol that is in
    [fetched_this_run] stays in it and is not requested upstream again,
    neither by the rest of step 1 (the ETF loop) nor by step 2 (the
    constituent loop), whatever the symbols still to be processed. *)
Lemma answered_ticker_not_fetched_again py_float py_str strptime y now now_text
    (t : string) (syms : list string) :
  (forall r r',
     for_each (backfill_constituent py_float py_str strptime y now now_text) r syms
       = Py.Ok r' ->
     t ∈ fetched_this_run r ->
     t ∈ fetched_this_run r' /\
     upstream_fetches t (events r') = upstream_fetches t (events r)) /\
  (forall r cs r' cs',
     for_each (backfill_etf py_float py_str strptime y now now_text) (r, cs) syms
       = Py.Ok (r', cs') ->
     t ∈ fetched_this_run r ->
     t ∈ fetched_this_run r' /\
     upstream_fetches t (events r') = upstream_fetches t (events r)).
Proof.
  induction syms as [|sym syms [IH1 IH2]]; (split; [intros r r' | intros r cs r' cs']); cbn [for_each].
  - by intros [= <-].
  - by intros [= <- _].
  - destruct (backfill_constituent py_float py_str strptime y now now_text r sym) as [r1|] eqn:E; [|done].
    cbn [Py.bind]. intros H Ht.
    destruct (backfill_constituent_keeps _ _ _ _ _ _ _ _ _ t E Ht) as [Ht1 Heq1].
    destruct (IH1 r1 r' H Ht1) as [Ht' Heq']. split; [done | congruence].
  - destruct (backfill_etf py_float py_str strptime y now now_text (r, cs) sym) as [[r1 cs1]|] eqn:E; [|done].
    cbn [Py.bind]. intros H Ht.
    destruct (backfill_etf_keeps _ _ _ _ _ _ _ _ _ _ _ t E Ht) as [Ht1 Heq1].
    destruct (IH2 r1 cs1 r' cs' H Ht1) as [Ht' Heq']. split; [done | congruence].
Qed.

(** C10 at the failing input.  SPY and XYZ are both ETFs of the store; Yahoo
    Finance has data for SPY, whose holding is XYZ, and none for XYZ.  The run
    requests XYZ upstream twice: once as an ETF in step 1, where the empty
    answer keeps it out of [fetched_this_run], and once more as a constituent
    in step 2. *)
Lemma unanswered_ticker_fetched_twice :
  exists r,
    main sample_float sample_str sample_strptime backfill_yahoo 0 "2024-03-01 00:00:00"
         backfill_args backfill_db = Py.Ok r /\
    events r = [UpstreamSecurity "SPY"; UpstreamHoldings "SPY";
                UpstreamSecurity "XYZ"; UpstreamHoldings "XYZ";
                UpstreamSecurity "XYZ"] /\
    upstream_fetches "XYZ" (events r) = 2%nat /\
    ~ fetched_at_most_once (events r).
Proof.
  eexists. split; [vm_compute; reflexivity|].
  split; [reflexivity|]. split; [reflexivity|].
  intros H. specialize (H "XYZ"). vm_compute in H. lia.
Qed.

End BackfillFacts.
